(** * pave-billing: a shallow embedding of the billing core

    The development follows the packages of the repository:
    - [decimal]: the fixed-point numbers of shopspring/decimal that the
      models compute with (value * 10^exp over unbounded integers);
    - [models]: bills, line items, totals and rate snapshots
      (billing/models/models.go, errors.go);
    - [validation]: the admission checks (billing/validation.go);
    - [workflow]: the durable bill machine (billing/core/workflow.go);
    - [exchange_rates]: the TTL cache in front of the rate provider
      (billing/ext_services/exchange_rates.go);
    - [repository]: the SQL repository (billing/repository/repository.go);
    - [service]: the billing service (billing/core/service.go) over its
      collaborators;
    - [totals]: the totals of a bill in the words of the specification;
    - [examples]: the concrete bills, rates and collaborators of the examples;
    - [billing]: the admission of a request to create a bill
      (billing/validation.go);
    - [creation]: the creation of a bill and the start of its workflow
      (billing/core/service.go);
    - [handlers]: the four endpoints (billing/billing.go);
    - [closing]: the update that closes a bill in the database, and the
      activity around it (billing/repository/repository.go,
      billing/core/activities.go);
    - [more_examples]: further concrete values.
    The theorems follow the definitions. *)

From Stdlib Require Import ZArith Floats Lia Bool.
From stdpp Require Import gmap strings list fin_maps pretty sorting.

Local Open Scope Z_scope.

(** ** Instants, durations and opaque identifiers *)

(** [time.Time] as nanoseconds since the Unix epoch. *)
Definition Time := Z.

(** The zero value [time.Time{}]: January 1, year 1, 00:00:00 UTC. *)
Definition zeroTime : Time := -62135596800 * 1000000000.

(** [time.Duration] is a signed 64-bit count of nanoseconds. *)
Definition minDuration : Z := - 2 ^ 63.
Definition maxDuration : Z := 2 ^ 63 - 1.
Definition Second : Z := 1000000000.

(** Signed 64-bit wrap-around, for Go's [time.Duration(n) * time.Second]. *)
Definition wrap64 (z : Z) : Z := (z + 2 ^ 63) mod 2 ^ 64 - 2 ^ 63.

(** [t.Sub(u)]: the difference, saturated to the range of a Duration. *)
Definition time_Sub (t u : Time) : Z :=
  Z.max minDuration (Z.min maxDuration (t - u)).

(** [t.Add(d)], [t.Before(u)]. *)
Definition time_Add (t : Time) (d : Z) : Time := t + d.
Definition time_Before (t u : Time) : bool := t <? u.

(** [uuid.UUID], carried in its canonical textual form, so that
    [id.String()] is the identity. *)
Definition UUID := string.
Definition uuid_String (u : UUID) : string := u.

(** ** shopspring/decimal *)

Module decimal.

(** [Decimal{value *big.Int, exp int32}] denotes [value * 10^exp]. The
    exponent is kept as an unbounded integer. *)
Record Decimal := mk { value : Z; exp : Z }.

(** The zero value of the struct, and [decimal.Zero = New(0, 1)]. *)
Definition zero_value : Decimal := mk 0 0.
Definition Zero : Decimal := mk 0 1.

(** [d.rescale(exp)]: same number at another exponent; digits that do
    not fit are truncated toward zero ([big.Int.Quo]). *)
Definition rescale (d : Decimal) (e : Z) : Decimal :=
  if exp d =? e then d
  else if exp d <? e then mk (Z.quot (value d) (10 ^ (e - exp d))) e
  else mk (value d * 10 ^ (exp d - e)) e.

Definition Add (d d2 : Decimal) : Decimal :=
  let e := Z.min (exp d) (exp d2) in
  mk (value (rescale d e) + value (rescale d2 e)) e.

Definition Mul (d d2 : Decimal) : Decimal :=
  mk (value d * value d2) (exp d + exp d2).

Definition Cmp (d d2 : Decimal) : comparison :=
  let e := Z.min (exp d) (exp d2) in
  Z.compare (value (rescale d e)) (value (rescale d2 e)).

Definition Equal (d d2 : Decimal) : bool :=
  match Cmp d d2 with Eq => true | _ => false end.
Definition LessThan (d d2 : Decimal) : bool :=
  match Cmp d d2 with Lt => true | _ => false end.
Definition LessThanOrEqual (d d2 : Decimal) : bool :=
  match Cmp d d2 with Gt => false | _ => true end.
Definition GreaterThan (d d2 : Decimal) : bool :=
  match Cmp d d2 with Gt => true | _ => false end.

(** [d.Round(places)]: half away from zero, to [places] fractional
    digits. The library shifts to one digit more than asked, adds or
    subtracts 5, and divides by ten with [big.Int.DivMod] (Euclidean),
    repairing the quotient of a negative number. *)
Definition Round (d : Decimal) (places : Z) : Decimal :=
  if exp d =? - places then d
  else
    let ret := rescale d (- places - 1) in
    let v := if value ret <? 0 then value ret - 5 else value ret + 5 in
    let q := v / 10 in
    let m := v mod 10 in
    let q' := if (q <? 0) && negb (m =? 0) then q + 1 else q in
    mk q' (exp ret + 1).

(** *** [decimal.NewFromFloat]

    The library renders a float64 as the decimal with the fewest digits
    that still reads back as the same float64, and panics on NaN and on the
    infinities. A finite float [m * 2^e] owns the interval between the
    midpoints to its two neighbours (the ends belong to it when [m] is
    even); in units of [2^(e-2)] the float is [4m], the upper midpoint
    [4m + 2] and the lower one [4m - 2], or [4m - 1] just above a power of
    two. The shortest decimal is the multiple of the largest power of ten
    that falls in the interval, nearest to the float if there are several.
    The search starts two digits above the float's magnitude (from its
    binary logarithm) and needs at most seventeen digits. *)

Definition candidate (m e2 lo hi : Z) (incl : bool) (k : Z) : option Z :=
  let A := 10 ^ Z.max k 0 * 2 ^ Z.max (- e2) 0 in
  let B := 2 ^ Z.max e2 0 * 10 ^ Z.max (- k) 0 in
  let dmin :=
    let c := (lo * B + A - 1) / A in
    if negb incl && (c * A =? lo * B) then c + 1 else c in
  let dmax :=
    let c := (hi * B) / A in
    if negb incl && (c * A =? hi * B) then c - 1 else c in
  if dmax <? dmin then None
  else Some (Z.max dmin (Z.min dmax ((2 * (4 * m) * B + A) / (2 * A)))).

Fixpoint shortest (fuel : nat) (m e2 lo hi : Z) (incl : bool) (k : Z)
  : Decimal :=
  match candidate m e2 lo hi incl k with
  | Some d => mk d k
  | None =>
      match fuel with
      | O => mk 0 0
      | S fuel' => shortest fuel' m e2 lo hi incl (k - 1)
      end
  end.

Definition NewFromFloat (f : float) : option Decimal :=
  match Prim2SF f with
  | S754_zero _ => Some (mk 0 0)
  | S754_infinity _ | S754_nan => None
  | S754_finite s m e =>
      let m := Z.pos m in
      let lo := if (m =? 2 ^ 52) && (-1074 <? e) then 4 * m - 1 else 4 * m - 2 in
      let k0 := ((Z.log2 (4 * m) + (e - 2) + 2) * 30103) / 100000 + 2 in
      let d := shortest 60 m (e - 2) lo (4 * m + 2) (Z.even m) k0 in
      Some (if s then mk (- value d) (exp d) else d)
  end.

End decimal.

Export decimal(Decimal).

(** ** Errors and results *)

(** The codes of [encore.dev/beta/errs] that the repository uses. *)
Inductive ErrCode := InvalidArgument | NotFound | FailedPrecondition.

(** Go [error] values: an [*errs.Error{Code, Message}], the sentinel
    [sql.ErrNoRows], an error wrapped by [fmt.Errorf("...: %w", err)], and any
    other error of the infrastructure, by its text. *)
Inductive error :=
| errs_Error (code : ErrCode) (message : string)
| sql_ErrNoRows
| fmt_Errorf (prefix : string) (wrapped : error)
| errors_New (text : string).

(** [errors.Is(err, target)] walks the chain of wrapped errors. *)
Fixpoint errors_Is (target : error -> bool) (err : error) : bool :=
  target err ||
  match err with
  | fmt_Errorf _ inner => errors_Is target inner
  | _ => false
  end.

Definition is_ErrNoRows (e : error) : bool :=
  match e with sql_ErrNoRows => true | _ => false end.

(** A Go call either returns a value, returns an error, or panics. *)
Inductive result (A : Type) :=
| Ok (a : A)
| Err (e : error)
| Panic.
Arguments Ok {A} a.
Arguments Err {A} e.
Arguments Panic {A}.

(** ** billing/models *)

Module models.

(** errors.go *)
Definition ErrBillNotFound := errs_Error NotFound "bill not found".
Definition ErrBillClosed :=
  errs_Error FailedPrecondition "bill is closed and cannot be modified".
Definition ErrInvalidCurrency := errs_Error InvalidArgument "unsupported currency".
Definition ErrCurrencyNotFound := errs_Error NotFound "currency not found".
Definition ErrInvalidPeriod :=
  errs_Error InvalidArgument "period_end must be after period_start".
Definition ErrInvalidQuantity :=
  errs_Error InvalidArgument "quantity must be greater than zero".

(** [type Currency string], [type BillStatus string]. *)
Definition Currency := string.
Definition USD : Currency := "USD".
Definition GEL : Currency := "GEL".

Definition BillStatus := string.
Definition BillStatusOpen : BillStatus := "open".
Definition BillStatusClosed : BillStatus := "closed".

(** configs.go: the validation rules and the rate-service settings, each
    [config.Int], [config.Float64] or [config.Values] read at the call. *)
Module ValidationConfig.
Record t := mk {
  MaxBillingPeriodDays : Z;
  MaxPastStartDays : Z;
  MaxDescriptionLength : Z;
  MaxQuantity : float;
  MaxUnitPrice : float;
  MaxTotalAmount : float;
  AllowedCurrencies : list string
}.
End ValidationConfig.

Module ExchangeRatesConfig.
Record t := mk {
  BaseURL : string;
  TTL : Z;
  CacheKey : string;
  Timeout : Z
}.
End ExchangeRatesConfig.

(** [func (c Currency) Validate(cfg *AppConfig) error], with
    [slices.Contains]. *)
Definition Currency_Validate (cfg : ValidationConfig.t) (c : Currency)
  : option error :=
  if bool_decide (c ∈ ValidationConfig.AllowedCurrencies cfg) then None
  else Some ErrInvalidCurrency.

Module LineItem.
Record t := mk {
  ID : UUID;
  BillID : UUID;
  Description : string;
  Currency : Currency;
  Quantity : Decimal;
  UnitPrice : Decimal;
  CreatedAt : Time;
  Total : Decimal
}.
Definition with_Total (x : Decimal) (i : t) : t :=
  mk (ID i) (BillID i) (Description i) (Currency i) (Quantity i)
     (UnitPrice i) (CreatedAt i) x.
End LineItem.

Module Converted.
Record t := mk { Amount : Decimal; RateUpdatedAt : Time }.
End Converted.

Module Total.
Record t := mk {
  ByCurrency : gmap string Decimal;
  Converted : gmap string Converted.t
}.
End Total.

Module RatesData.
Record t := mk { Rates : gmap string float; UpdatedAt : Time }.
End RatesData.

Module Bill.
Record t := mk {
  ID : UUID;
  CustomerID : string;
  Status : BillStatus;
  PeriodStart : Time;
  PeriodEnd : Time;
  WorkflowID : string;
  CreatedAt : Time;
  UpdatedAt : Time;
  ClosedAt : option Time;
  LineItems : list LineItem.t;
  Total : option Total.t
}.

Definition with_LineItems (l : list LineItem.t) (b : t) : t :=
  mk (ID b) (CustomerID b) (Status b) (PeriodStart b) (PeriodEnd b)
     (WorkflowID b) (CreatedAt b) (UpdatedAt b) (ClosedAt b) l (Total b).
Definition with_Status (s : BillStatus) (b : t) : t :=
  mk (ID b) (CustomerID b) s (PeriodStart b) (PeriodEnd b)
     (WorkflowID b) (CreatedAt b) (UpdatedAt b) (ClosedAt b) (LineItems b)
     (Total b).
Definition with_ClosedAt (c : option Time) (b : t) : t :=
  mk (ID b) (CustomerID b) (Status b) (PeriodStart b) (PeriodEnd b)
     (WorkflowID b) (CreatedAt b) (UpdatedAt b) c (LineItems b) (Total b).
Definition with_Total (x : option Total.t) (b : t) : t :=
  mk (ID b) (CustomerID b) (Status b) (PeriodStart b) (PeriodEnd b)
     (WorkflowID b) (CreatedAt b) (UpdatedAt b) (ClosedAt b) (LineItems b) x.

Definition IsOpen (b : t) : bool := bool_decide (Status b = BillStatusOpen).
Definition IsClosed (b : t) : bool := bool_decide (Status b = BillStatusClosed).

(** A method on [*Bill] that mutates the receiver and returns [success]
    is a function to the new bill and the flag. *)
Definition AddLineItem (b : t) (item : LineItem.t) : t * bool :=
  if IsClosed b then (b, false)
  else (with_LineItems (LineItems b ++ [item]) b, true).

Definition Close (b : t) (at_ : Time) : t * bool :=
  if IsClosed b then (b, false)
  else (with_ClosedAt (Some at_) (with_Status BillStatusClosed b), true).
End Bill.

(** The currency table of go-money: [money.GetCurrency(code).Fraction], the
    number of fractional digits of a currency. [GetCurrency] returns nil for
    a code the table does not list, and reading [Fraction] then panics. The
    table is a parameter of the development. *)
Class MoneyTable := GetCurrencyFraction : string -> option Z.

(** Go leaves the order in which [range] visits a map open, and draws it
    anew for every loop. The order is a parameter of the development: any
    arrangement of the entries for the outer loop of [CalculateSum], and any
    arrangement for its inner loop at each currency. *)
Class MapRange := {
  range_outer : gmap string Decimal -> list (string * Decimal);
  range_inner : string -> gmap string Decimal -> list (string * Decimal);
  range_outer_entries : forall m, range_outer m ≡ₚ map_to_list m;
  range_inner_entries : forall c m, range_inner c m ≡ₚ map_to_list m
}.

Section CalculateSum.
Context `{MoneyTable} `{MapRange}.

(** [item.UnitPrice.Mul(item.Quantity)] *)
Definition lineTotal (item : LineItem.t) : Decimal :=
  decimal.Mul (LineItem.UnitPrice item) (LineItem.Quantity item).

(** One turn of the loop that fills [b.Total.ByCurrency]; a key that is
    not in a Go map reads as the zero value. *)
Definition addToCurrency (m : gmap string Decimal) (item : LineItem.t)
  : gmap string Decimal :=
  <[LineItem.Currency item :=
      decimal.Add (default decimal.zero_value (m !! LineItem.Currency item))
                  (lineTotal item)]> m.

Definition byCurrency (items : list LineItem.t) : gmap string Decimal :=
  foldl addToCurrency ∅ items.

(** The body of the inner loop, past the [continue]: both rate lookups, then
    the other currency's subtotal times the float64 quotient of the rates,
    rounded to the target currency's fractional digits. *)
Definition convert (rates : RatesData.t) (currency other : string)
    (amountOther : Decimal) : result Decimal :=
  match RatesData.Rates rates !! other with
  | None => Err ErrCurrencyNotFound
  | Some fromX =>
      match RatesData.Rates rates !! currency with
      | None => Err ErrCurrencyNotFound
      | Some toX =>
          match decimal.NewFromFloat (PrimFloat.div toX fromX) with
          | None => Panic
          | Some factor =>
              match GetCurrencyFraction currency with
              | None => Panic
              | Some fraction =>
                  Ok (decimal.Round (decimal.Mul amountOther factor) fraction)
              end
          end
      end
  end.

(** The inner loop over the entries of [ByCurrency], in the order [entries]
    that [range] happens to produce. *)
Fixpoint convertedSum (rates : RatesData.t) (currency : string)
    (sum : Decimal) (entries : list (string * Decimal)) : result Decimal :=
  match entries with
  | [] => Ok sum
  | (other, amountOther) :: rest =>
      if decide (other = currency) then convertedSum rates currency sum rest
      else
        match convert rates currency other amountOther with
        | Ok converted =>
            convertedSum rates currency (decimal.Add sum converted) rest
        | Err e => Err e
        | Panic => Panic
        end
  end.

(** The outer loop: one [Converted] entry per currency of [ByCurrency],
    over the entries in the order [entries]. *)
Fixpoint convertAll (rates : RatesData.t) (by_currency : gmap string Decimal)
    (entries : list (string * Decimal)) (acc : gmap string Converted.t)
  : result (gmap string Converted.t) :=
  match entries with
  | [] => Ok acc
  | (currency, amount) :: rest =>
      match convertedSum rates currency amount
              (range_inner currency by_currency) with
      | Ok sum =>
          convertAll rates by_currency rest
            (<[currency := Converted.mk sum (RatesData.UpdatedAt rates)]> acc)
      | Err e => Err e
      | Panic => Panic
      end
  end.

(** [func (b *Bill) CalculateSum(rates *RatesData) error]. On success the
    result is the bill as the receiver is left; the callers drop the bill when
    an error comes back. *)
Definition CalculateSum (b : Bill.t) (rates : RatesData.t) : result Bill.t :=
  match Bill.LineItems b with
  | [] => Ok b
  | _ =>
      let items :=
        map (fun item => LineItem.with_Total (lineTotal item) item)
            (Bill.LineItems b) in
      let by_currency := byCurrency items in
      match convertAll rates by_currency (range_outer by_currency) ∅ with
      | Ok converted =>
          Ok (Bill.with_Total (Some (Total.mk by_currency converted))
                (Bill.with_LineItems items b))
      | Err e => Err e
      | Panic => Panic
      end
  end.

End CalculateSum.

End models.

Import models.

(** ** billing/validation.go *)

Module validation.

(** httpmodels.go *)
Module AddLineItemRequest.
Record t := mk {
  Description : string;
  Currency : Currency;
  Quantity : Decimal;
  UnitPrice : Decimal
}.
End AddLineItemRequest.

(** [utf8.RuneCountInString] on well-formed UTF-8: every byte that is not a
    continuation byte (10xxxxxx) starts a character. Go's [len] of a string is
    [String.length], the number of bytes. *)
Fixpoint RuneCountInString (s : string) : nat :=
  match s with
  | EmptyString => O
  | String c rest =>
      let b := Z.of_N (Ascii.N_of_ascii c) in
      if Z.land b 192 =? 128 then RuneCountInString rest
      else S (RuneCountInString rest)
  end.

Section Validate.
(** The package variable [cfg], and the text that [fmt.Sprintf] yields for
    a [decimal.Decimal] under the verb [%f]. *)
Variable cfg : ValidationConfig.t.
Variable Sprintf_f : Decimal -> string.

Definition ValidateAddLineItemRequest (req : AddLineItemRequest.t)
  : result unit :=
  if bool_decide (AddLineItemRequest.Description req = "") then
    Err (errs_Error InvalidArgument "description is required")
  else
  let maxDescriptionLength := ValidationConfig.MaxDescriptionLength cfg in
  if Z.of_nat (String.length (AddLineItemRequest.Description req))
       >? maxDescriptionLength then
    Err (errs_Error InvalidArgument
           ("description cannot exceed " +:+ pretty maxDescriptionLength
              +:+ " characters"))
  else
  match Currency_Validate cfg (AddLineItemRequest.Currency req) with
  | Some err => Err err
  | None =>
  if decimal.LessThanOrEqual (AddLineItemRequest.Quantity req) decimal.Zero then
    Err ErrInvalidQuantity
  else
  match decimal.NewFromFloat (ValidationConfig.MaxQuantity cfg) with
  | None => Panic
  | Some maxQuantity =>
  if decimal.GreaterThan (AddLineItemRequest.Quantity req) maxQuantity then
    Err (errs_Error InvalidArgument
           ("quantity cannot exceed " +:+ Sprintf_f maxQuantity))
  else
  if decimal.LessThan (AddLineItemRequest.UnitPrice req) decimal.Zero then
    Err (errs_Error InvalidArgument "unit_price cannot be negative")
  else
  match decimal.NewFromFloat (ValidationConfig.MaxUnitPrice cfg) with
  | None => Panic
  | Some maxUnitPrice =>
  if decimal.GreaterThan (AddLineItemRequest.UnitPrice req) maxUnitPrice then
    Err (errs_Error InvalidArgument
           ("unit_price cannot exceed " +:+ Sprintf_f maxUnitPrice))
  else
  let totalAmount :=
    decimal.Mul (AddLineItemRequest.Quantity req)
                (AddLineItemRequest.UnitPrice req) in
  match decimal.NewFromFloat (ValidationConfig.MaxTotalAmount cfg) with
  | None => Panic
  | Some maxTotalAmount =>
  if decimal.GreaterThan totalAmount maxTotalAmount then
    Err (errs_Error InvalidArgument
           ("total line item amount cannot exceed " +:+ Sprintf_f maxTotalAmount))
  else Ok tt
  end end end end.

End Validate.

End validation.

(** ** billing/core/workflow.go: the durable bill machine *)

Module workflow.

Definition AddLineItemSignal : string := "AddLineItemSignal".
Definition CloseBillSignal : string := "CloseBillSignal".
Definition GetBillQuery : string := "GetBillQuery".

(** The activities of activities.go, as the machine schedules them. *)
Inductive Activity :=
| SaveBill (bill : Bill.t)
| AddLineItemToBill (lineItem : LineItem.t)
| CloseBill (billID : UUID) (closedAt : Time).

(** What one [selector.Select] can deliver: a signal on one of the two
    channels, or the period-end timer, which fires at the machine time [now]. *)
Inductive Stimulus :=
| LineItemSignalData (lineItem : LineItem.t)
| CloseBillSignalData (requestedAt : Time)
| PeriodEndTimer (now : Time).

(** The state of one instance: the bill that the query handler returns, the
    duration of the armed timer, and the activities executed so far. *)
Record Machine := mkMachine {
  bill : Bill.t;
  timer : option Z;
  activities : list Activity
}.

Section Workflow.
(** [workflow.ExecuteActivity(...).Get]: what the substrate reports for an
    activity once its retries are over, given the activities before it. *)
Variable ExecuteActivity : list Activity -> Activity -> option error.

(** Run an activity and drop its error, as the two handlers do after
    logging it. *)
Definition execute (m : Machine) (a : Activity) : Machine :=
  let _err := ExecuteActivity (activities m) a in
  mkMachine (bill m) (timer m) (activities m ++ [a]).

(** [func closeBill(ctx, bill, requestedAt, cfg)] *)
Definition closeBill (m : Machine) (requestedAt : Time) : Machine :=
  let '(b, success) := Bill.Close (bill m) requestedAt in
  if negb success then mkMachine b (timer m) (activities m)
  else execute (mkMachine b (timer m) (activities m))
         (CloseBill (Bill.ID b) requestedAt).

(** The callback registered on [addLineItemCh]. *)
Definition onAddLineItem (m : Machine) (lineItem : LineItem.t) : Machine :=
  let '(b, success) := Bill.AddLineItem (bill m) lineItem in
  if success then
    execute (mkMachine b (timer m) (activities m)) (AddLineItemToBill lineItem)
  else mkMachine b (timer m) (activities m).

(** One [selector.Select]: the callback of the stimulus that is ready. *)
Definition Select (m : Machine) (s : Stimulus) : Machine :=
  match s with
  | LineItemSignalData lineItem => onAddLineItem m lineItem
  | CloseBillSignalData requestedAt => closeBill m requestedAt
  | PeriodEndTimer now => closeBill m now
  end.

(** [for !bill.IsClosed() { selector.Select(ctx) }] over the stimuli that
    arrive, in their order of delivery. *)
Fixpoint loop (m : Machine) (stimuli : list Stimulus) : Machine :=
  if Bill.IsClosed (bill m) then m
  else
    match stimuli with
    | [] => m
    | s :: rest => loop (Select m s) rest
    end.

(** [bill.PeriodEnd.Sub(workflow.Now(ctx))], raised to zero. *)
Definition timerDuration (b : Bill.t) (now : Time) : Z :=
  let duration := time_Sub (Bill.PeriodEnd b) now in
  if duration <? 0 then 0 else duration.

(** The machine as it enters the selection loop: [SaveBill] has run, the
    query handler is set and the timer is armed at machine time [now]. *)
Definition start (input : Bill.t) (now : Time) : result Machine :=
  match ExecuteActivity [] (SaveBill input) with
  | Some err => Err err
  | None => Ok (mkMachine input (Some (timerDuration input now)) [SaveBill input])
  end.

(** [func (w *BillWorkflows) CreateBill(ctx, input) error], run against the
    stimuli delivered to it: the machine it ends in (or still waits in, when
    the stimuli run out before the bill is closed). *)
Definition CreateBill (input : Bill.t) (now : Time) (stimuli : list Stimulus)
  : result Machine :=
  match start input now with
  | Ok m => Ok (loop m stimuli)
  | Err e => Err e
  | Panic => Panic
  end.

End Workflow.

End workflow.

(** ** billing/ext_services/exchange_rates.go *)

Module exchange_rates.

(** The decoded body of the provider's answer. *)
Record exrResponse := mkResponse {
  Base : string;
  exr_Rates : gmap string float;
  Timestamp : Z
}.

(** The mutable fields of [service]. *)
Record service := mkService {
  rates : gmap string float;
  updatedAt : Time
}.

(** [NewConversionService]: no rates, and the zero time. *)
Definition NewConversionService : service := mkService ∅ zeroTime.

(** What a call consults outside the process. *)
Inductive Effect :=
| CacheGet (key : string)
| FetchExchangeRates
| CacheSet (key : string) (data : RatesData.t).

(** What the outside answers during one call: the clock at the freshness
    check and again after a fetch, the shared cache, the provider. A Go
    pair [(value, err)] is a sum: [inl err] or [inr value]. *)
Record World := mkWorld {
  now : Time;
  now_after_fetch : Time;
  cache_Get : error + RatesData.t;
  fetchExchangeRates : error + exrResponse;
  cache_Set : option error
}.

Section Service.
Variable cfg : ExchangeRatesConfig.t.

(** [time.Duration(cfg.TTL()) * time.Second], in 64-bit arithmetic. *)
Definition ttl : Z := wrap64 (ExchangeRatesConfig.TTL cfg * Second).

(** [func (s *service) updateRates(ctx) error] *)
Definition updateRates (s : service) (w : World)
  : option error * service * list Effect :=
  if time_Before (now w) (time_Add (updatedAt s) ttl) then (None, s, [])
  else
    let cacheKey := ExchangeRatesConfig.CacheKey cfg in
    match cache_Get w with
    | inr data =>
        (None, mkService (RatesData.Rates data) (RatesData.UpdatedAt data),
         [CacheGet cacheKey])
    | inl _ =>
        match fetchExchangeRates w with
        | inl err => (Some err, s, [CacheGet cacheKey; FetchExchangeRates])
        | inr exr =>
            let s' := mkService (exr_Rates exr) (time_Add (now_after_fetch w) ttl) in
            let _err := cache_Set w in
            (None, s',
             [CacheGet cacheKey; FetchExchangeRates;
              CacheSet cacheKey (RatesData.mk (rates s') (updatedAt s'))])
        end
    end.

(** [func (s *service) GetRates(ctx)], returning the snapshot or an error. *)
Definition GetRates (s : service) (w : World)
  : result RatesData.t * service * list Effect :=
  match updateRates s w with
  | (Some err, s', effects) => (Err err, s', effects)
  | (None, s', effects) =>
      (Ok (RatesData.mk (rates s') (updatedAt s')), s', effects)
  end.

End Service.

End exchange_rates.

(** ** billing/repository/repository.go: the SQL repository *)

Module repository.

(** A row of the table [bills], as the migration declares it. *)
Record BillRow := mkRow {
  id : UUID;
  customer_id : string;
  status : string;
  period_start : Time;
  period_end : Time;
  workflow_id : string;
  created_at : Time;
  updated_at : Time;
  closed_at : option Time
}.

(** The two tables; a row of [line_items] carries the columns of a
    [LineItem] (its [Total] is not stored). *)
Record Database := mkDB {
  bills : list BillRow;
  line_items : list LineItem.t
}.

(** [ORDER BY created_at ASC]: insertion into a list sorted by creation
    time; rows with equal times keep their order of insertion. *)
Fixpoint insertByCreatedAt (x : LineItem.t) (l : list LineItem.t)
  : list LineItem.t :=
  match l with
  | [] => [x]
  | y :: rest =>
      if LineItem.CreatedAt x <? LineItem.CreatedAt y then x :: l
      else y :: insertByCreatedAt x rest
  end.

Definition orderByCreatedAt (l : list LineItem.t) : list LineItem.t :=
  foldl (fun acc x => insertByCreatedAt x acc) [] l.

(** [GetLineItemsByBillID]; a scanned row has the zero [Total]. *)
Definition GetLineItemsByBillID (db : Database) (billID : UUID)
  : list LineItem.t :=
  orderByCreatedAt
    (map (LineItem.with_Total decimal.zero_value)
       (filter (fun i => LineItem.BillID i = billID) (line_items db))).

(** [GetBillByID]: [QueryRow(...).Scan] reports [sql.ErrNoRows] when no row
    has the id; otherwise the row becomes a bill and its line items are
    loaded. *)
Definition GetBillByID (db : Database) (billID : UUID) : error + Bill.t :=
  match List.find (fun r => bool_decide (id r = billID)) (bills db) with
  | None => inl sql_ErrNoRows
  | Some r =>
      inr (Bill.mk (id r) (customer_id r) (status r) (period_start r)
             (period_end r) (workflow_id r) (created_at r) (updated_at r)
             (closed_at r) (GetLineItemsByBillID db billID) None)
  end.

End repository.

(** ** billing/core/service.go: the billing service *)

Module service.

(** The payload of a signal. *)
Inductive Signal :=
| LineItemSignalData (lineItem : LineItem.t)
| CloseBillSignalData (requestedAt : Time).

(** The calls the service makes to its collaborators, in the order it makes
    them. *)
Inductive Call :=
| QueryWorkflow (workflowID queryType : string)
| SignalWorkflow (workflowID signalName : string) (arg : Signal)
| Repository_GetBillByID (id : UUID)
| GetRates
| time_Now
| uuid_NewV4.

(** [converter.EncodedValue]: what [resp.Get(bill)] decodes to. *)
Record EncodedValue := mkEncoded { Get : error + Bill.t }.

(** The collaborators of the service (the temporal client, the repository,
    the rate service, the clock and the source of identifiers). Each answer
    may depend on every call made before it, which covers a machine that
    moves between two calls of the service. *)
Record Env := mkEnv {
  env_QueryWorkflow : list Call -> string -> string -> error + EncodedValue;
  env_SignalWorkflow : list Call -> string -> string -> Signal -> option error;
  env_GetBillByID : list Call -> UUID -> error + Bill.t;
  env_GetRates : list Call -> error + RatesData.t;
  env_Now : list Call -> Time;
  env_NewV4 : list Call -> UUID
}.

Definition is_signal (c : Call) : bool :=
  match c with SignalWorkflow _ _ _ => true | _ => false end.

Section Service.
Context `{MoneyTable} `{MapRange}.
Variable env : Env.
(** [s.cfg.Billing.Workflow.WorkflowIDPrefix()] *)
Variable WorkflowIDPrefix : string.

(** The query against the machine failed: the client returned an error, or
    its answer could not be decoded. *)
Definition query_failed (id : UUID) (h : list Call) : Prop :=
  match env_QueryWorkflow env h (WorkflowIDPrefix +:+ uuid_String id)
          workflow.GetBillQuery with
  | inl _ => True
  | inr resp => match Get resp with inl _ => True | inr _ => False end
  end.

(** [func (s *service) calculateSum(ctx, bill) error]; the bill comes back
    with its totals. *)
Definition calculateSum (bill : Bill.t) (h : list Call)
  : result Bill.t * list Call :=
  let rates := env_GetRates env h in
  let h := h ++ [GetRates] in
  match rates with
  | inl err => (Err err, h)
  | inr rates => (CalculateSum bill rates, h)
  end.

(** [func (s *service) GetBillByID(ctx, id)] *)
Definition GetBillByID (id : UUID) (h : list Call)
  : result Bill.t * list Call :=
  let workflowID := WorkflowIDPrefix +:+ uuid_String id in
  let resp := env_QueryWorkflow env h workflowID workflow.GetBillQuery in
  let h := h ++ [QueryWorkflow workflowID workflow.GetBillQuery] in
  let queried :=
    match resp with
    | inr resp => match Get resp with inr bill => Some bill | inl _ => None end
    | inl _ => None
    end in
  match queried with
  | Some bill => calculateSum bill h
  | None =>
      let r := env_GetBillByID env h id in
      let h := h ++ [Repository_GetBillByID id] in
      match r with
      | inl err =>
          if errors_Is is_ErrNoRows err then (Err ErrBillNotFound, h)
          else (Err err, h)
      | inr bill => calculateSum bill h
      end
  end.

(** [func (s *service) AddLineItemToBill(ctx, billId, req)] *)
Definition AddLineItemToBill (billId : UUID)
    (req : validation.AddLineItemRequest.t) (h : list Call)
  : result Bill.t * list Call :=
  match GetBillByID billId h with
  | (Ok bill, h) =>
      if Bill.IsClosed bill then (Err ErrBillClosed, h)
      else
        let id := env_NewV4 env h in
        let h := h ++ [uuid_NewV4] in
        let now := env_Now env h in
        let h := h ++ [time_Now] in
        let lineItem :=
          LineItem.mk id billId
            (validation.AddLineItemRequest.Description req)
            (validation.AddLineItemRequest.Currency req)
            (validation.AddLineItemRequest.Quantity req)
            (validation.AddLineItemRequest.UnitPrice req)
            now decimal.zero_value in
        let signal := LineItemSignalData lineItem in
        let err :=
          env_SignalWorkflow env h (Bill.WorkflowID bill)
            workflow.AddLineItemSignal signal in
        let h :=
          h ++ [SignalWorkflow (Bill.WorkflowID bill)
                  workflow.AddLineItemSignal signal] in
        match err with
        | Some err =>
            (Err (fmt_Errorf "failed to send signal to workflow" err), h)
        | None =>
            match GetBillByID billId h with
            | (Ok bill, h) => (Ok (fst (Bill.AddLineItem bill lineItem)), h)
            | (r, h) => (r, h)
            end
        end
  | (r, h) => (r, h)
  end.

(** [func (s *service) CloseBill(ctx, id)] *)
Definition CloseBill (id : UUID) (h : list Call)
  : result Bill.t * list Call :=
  match GetBillByID id h with
  | (Ok bill, h) =>
      if Bill.IsClosed bill then (Ok bill, h)
      else
        let now := env_Now env h in
        let h := h ++ [time_Now] in
        let signal := CloseBillSignalData now in
        let err :=
          env_SignalWorkflow env h (Bill.WorkflowID bill)
            workflow.CloseBillSignal signal in
        let h :=
          h ++ [SignalWorkflow (Bill.WorkflowID bill)
                  workflow.CloseBillSignal signal] in
        match err with
        | Some err =>
            (Err (fmt_Errorf "failed to send close signal to workflow" err), h)
        | None =>
            match GetBillByID id h with
            | (Ok bill, h) =>
                (Ok (Bill.with_ClosedAt (Some now)
                       (Bill.with_Status BillStatusClosed bill)), h)
            | (r, h) => (r, h)
            end
        end
  | (r, h) => (r, h)
  end.

End Service.

End service.

(** ** The totals, as the specification words them *)

Module totals.

Section Totals.
Context `{MoneyTable}.

(** The currencies present in a bill, each once. *)
Definition currencies (items : list LineItem.t) : list string :=
  remove_dups (map LineItem.Currency items).

(** [by_currency[C]]: the sum of quantity times unit price over the line
    items of currency [C]. *)
Definition subtotal (currency : string) (items : list LineItem.t) : Decimal :=
  foldl decimal.Add decimal.zero_value
    (map lineTotal (filter (fun i => LineItem.Currency i = currency) items)).

(** [rate[C] / rate[C']]: the float64 quotient of the two rates, as a
    decimal. *)
Definition rateFactor (rates : RatesData.t) (currency other : string)
  : Decimal :=
  match RatesData.Rates rates !! currency, RatesData.Rates rates !! other with
  | Some toX, Some fromX =>
      default decimal.zero_value (decimal.NewFromFloat (PrimFloat.div toX fromX))
  | _, _ => decimal.zero_value
  end.

Definition fractionOf (currency : string) : Z :=
  default 0 (GetCurrencyFraction currency).

(** The specification's wording of [converted[C].amount]: the sum over all
    currencies present, the own one included, of the subtotals times the
    rate factor, rounded to the fractional digits of the target currency. *)
Definition claimedAmount (rates : RatesData.t) (items : list LineItem.t)
    (currency : string) : Decimal :=
  decimal.Round
    (foldl decimal.Add decimal.zero_value
       (map (fun other =>
               decimal.Mul (subtotal other items) (rateFactor rates currency other))
          (currencies items)))
    (fractionOf currency).

(** The other reading of the wording: every term of that sum rounded. *)
Definition claimedAmountPerTerm (rates : RatesData.t) (items : list LineItem.t)
    (currency : string) : Decimal :=
  foldl decimal.Add decimal.zero_value
    (map (fun other =>
            decimal.Round
              (decimal.Mul (subtotal other items) (rateFactor rates currency other))
              (fractionOf currency))
       (currencies items)).

(** The amended wording: the own subtotal as it is, plus, for every other
    currency present, its subtotal times the rate factor, rounded to the
    fractional digits of the target currency. *)
Definition convertedTerm (rates : RatesData.t) (items : list LineItem.t)
    (currency other : string) : Decimal :=
  decimal.Round
    (decimal.Mul (subtotal other items) (rateFactor rates currency other))
    (fractionOf currency).

Definition convertedAmount (rates : RatesData.t) (items : list LineItem.t)
    (currency : string) : Decimal :=
  foldl decimal.Add (subtotal currency items)
    (map (convertedTerm rates items currency)
       (filter (fun other => other <> currency) (currencies items))).

(** No conversion between two different currencies of the bill panics:
    go-money lists the target currency, and the quotient of the two rates,
    when the snapshot has both, is a finite float64. *)
Definition quotientFinite (rates : RatesData.t) (currency other : string)
  : bool :=
  match RatesData.Rates rates !! currency, RatesData.Rates rates !! other with
  | Some toX, Some fromX =>
      bool_decide (is_Some (decimal.NewFromFloat (PrimFloat.div toX fromX)))
  | _, _ => true
  end.

Definition convertible (rates : RatesData.t) (items : list LineItem.t) : bool :=
  forallb
    (fun currency =>
       forallb
         (fun other =>
            bool_decide (other = currency)
            || (bool_decide (is_Some (GetCurrencyFraction currency))
                && quotientFinite rates currency other))
         (currencies items))
    (currencies items).

End Totals.

(** The amount that a computed bill shows for a currency. *)
Definition convertedOf (r : result Bill.t) (currency : string)
  : option Decimal :=
  match r with
  | Ok b =>
      tot ← Bill.Total b;
      Converted.Amount <$> (Total.Converted tot !! currency)
  | _ => None
  end.

Definition byCurrencyOf (r : result Bill.t) (currency : string)
  : option Decimal :=
  match r with
  | Ok b => tot ← Bill.Total b; Total.ByCurrency tot !! currency
  | _ => None
  end.

End totals.

(** ** Concrete values used by the examples *)

Module examples.

(** go-money's table restricted to the two currencies that models.go
    declares; both have two fractional digits. *)
Definition usd_gel_table : MoneyTable :=
  fun code => if bool_decide (code ∈ ["USD"; "GEL"]) then Some 2 else None.

(** One admissible order of [range]: that of [map_to_list], in both loops. *)
Definition map_to_list_order : MapRange :=
  Build_MapRange map_to_list (fun _ => map_to_list)
    (fun m => Permutation_refl (map_to_list m))
    (fun _ m => Permutation_refl (map_to_list m)).

(** Another one: the reverse order in the outer loop. *)
Definition reverse_order : MapRange :=
  Build_MapRange (fun m => reverse (map_to_list m)) (fun _ => map_to_list)
    (fun m => reverse_Permutation (map_to_list m))
    (fun _ m => Permutation_refl (map_to_list m)).

(** The values of billing/config.cue. *)
Definition config_cue : ValidationConfig.t :=
  ValidationConfig.mk 365 1 500 1000000%float 1000000%float 10000000%float
    ["USD"; "GEL"].

Definition item (id : UUID) (currency : string) (quantity unit_price : Decimal)
  : LineItem.t :=
  LineItem.mk id "b-1" "X" currency quantity unit_price 1735689600000000000
    decimal.zero_value.

(** An open bill for January 2025, and the same bill closed mid-month. *)
Definition open_bill (items : list LineItem.t) : Bill.t :=
  Bill.mk "b-1" "c1" BillStatusOpen
    1735689600000000000 1738281600000000000 "bill-b-1"
    1735689600000000000 1735689600000000000 None items None.

Definition closed_bill (items : list LineItem.t) : Bill.t :=
  Bill.mk "b-1" "c1" BillStatusClosed
    1735689600000000000 1738281600000000000 "bill-b-1"
    1735689600000000000 1735689600000000000 (Some 1737000000000000000)
    items None.

(** The two items and the rates of the multi-currency scenario. *)
Definition two_currency_bill : Bill.t :=
  open_bill [item "i-1" USD (decimal.mk 1 0) (decimal.mk 1000 (-2));
             item "i-2" GEL (decimal.mk 2 0) (decimal.mk 500 (-2))].

Definition usd_gel_rates : RatesData.t :=
  RatesData.mk (list_to_map [("USD", 1.0%float); ("GEL", 2.5%float)])
    1736000000000000000.

(** One item of 2.5 units at 3.33 USD: 8.325 USD. *)
Definition fractional_bill : Bill.t :=
  open_bill [item "i-1" USD (decimal.mk 25 (-1)) (decimal.mk 333 (-2))].

(** A snapshot whose rate for GEL is zero. *)
Definition zero_gel_rates : RatesData.t :=
  RatesData.mk (list_to_map [("USD", 1.0%float); ("GEL", 0%float)])
    1736000000000000000.

(** A snapshot without USD. *)
Definition gel_only_rates : RatesData.t :=
  RatesData.mk (list_to_map [("GEL", 2.5%float)]) 1736000000000000000.

(** A substrate on which every activity succeeds. *)
Definition activities_succeed (_ : list workflow.Activity)
    (_ : workflow.Activity) : option error := None.

(** A description of 251 characters in 502 bytes: the letter e with an
    acute accent, U+00E9, is the two bytes 195 169 in UTF-8. *)
Definition e_acute : string :=
  String (Ascii.ascii_of_nat 195) (String (Ascii.ascii_of_nat 169) EmptyString).

Fixpoint repeat_string (n : nat) (s : string) : string :=
  match n with
  | O => EmptyString
  | S n' => s +:+ repeat_string n' s
  end.

Definition accented_description : string := repeat_string 251 e_acute.

(** The rate service of config.cue with a TTL of [ttl] seconds. *)
Definition rates_cfg (ttl : Z) : ExchangeRatesConfig.t :=
  ExchangeRatesConfig.mk "https://openexchangerates.org/api/latest.json" ttl
    "exchange_rates" 30.

Definition rates_of (l : list (string * float)) (updatedAt : Time)
  : RatesData.t :=
  RatesData.mk (list_to_map l) updatedAt.

(** The collaborators as the service tests mock them: every query answers
    with the same bill (a machine that has not moved), every signal is
    accepted, the rates are fixed. *)
Definition mock_env (bill : Bill.t) (rates : RatesData.t) : service.Env :=
  service.mkEnv
    (fun _ _ _ => inr (service.mkEncoded (inr bill)))
    (fun _ _ _ _ => None)
    (fun _ _ => inl sql_ErrNoRows)
    (fun _ => inr rates)
    (fun _ => 1736000000000000000)
    (fun _ => "i-new").

(** A machine that handles a signal before the next query: the bill it
    answers with has the line items signalled so far. *)
Definition signalled_items (h : list service.Call) : list LineItem.t :=
  omap (fun c =>
          match c with
          | service.SignalWorkflow _ _ (service.LineItemSignalData i) => Some i
          | _ => None
          end) h.

Definition prompt_env (bill : Bill.t) (rates : RatesData.t) : service.Env :=
  service.mkEnv
    (fun h _ _ =>
       inr (service.mkEncoded
              (inr (Bill.with_LineItems
                      (Bill.LineItems bill ++ signalled_items h) bill))))
    (fun _ _ _ _ => None)
    (fun _ _ => inl sql_ErrNoRows)
    (fun _ => inr rates)
    (fun _ => 1736000000000000000)
    (fun _ => "i-new").

(** After the machine has terminated: queries fail, and the bills are those
    of the SQL repository. *)
Definition terminated_env (db : repository.Database) (rates : RatesData.t)
  : service.Env :=
  service.mkEnv
    (fun _ _ _ => inl (errors_New "workflow execution already completed"))
    (fun _ _ _ _ => Some (errors_New "workflow execution already completed"))
    (fun _ id => repository.GetBillByID db id)
    (fun _ => inr rates)
    (fun _ => 1736000000000000000)
    (fun _ => "i-new").

End examples.

(** ** billing/validation.go and billing/billing.go: creating a bill *)

Module billing.

(** httpmodels.go *)
Module CreateBillRequest.
Record t := mk {
  CustomerID : string;
  PeriodStart : Time;
  PeriodEnd : Time
}.
End CreateBillRequest.

Definition Hour : Z := 3600 * Second.

(** [t.IsZero()]: the instant is the zero time. *)
Definition time_IsZero (t : Time) : bool := t =? zeroTime.

(** [time.Duration(days) * 24 * time.Hour], each product in 64 bits. *)
Definition days (n : Z) : Z := wrap64 (wrap64 (n * 24) * Hour).

Section Validate.
Variable cfg : ValidationConfig.t.

(** [func ValidateCreateBillRequest(req) error], at the clock reading [now]
    of its one [time.Now()]. *)
Definition ValidateCreateBillRequest (now : Time) (req : CreateBillRequest.t)
  : option error :=
  if bool_decide (CreateBillRequest.CustomerID req = "") then
    Some (errs_Error InvalidArgument "customer_id is required")
  else if time_IsZero (CreateBillRequest.PeriodStart req) then
    Some (errs_Error InvalidArgument "period_start is required")
  else if time_IsZero (CreateBillRequest.PeriodEnd req) then
    Some (errs_Error InvalidArgument "period_end is required")
  else if time_Before (CreateBillRequest.PeriodEnd req)
            (CreateBillRequest.PeriodStart req) then
    Some ErrInvalidPeriod
  else
  let maxBillingPeriodDays := ValidationConfig.MaxBillingPeriodDays cfg in
  let maxBillingPeriod := days maxBillingPeriodDays in
  let periodDuration :=
    time_Sub (CreateBillRequest.PeriodEnd req) (CreateBillRequest.PeriodStart req) in
  if periodDuration >? maxBillingPeriod then
    Some (errs_Error InvalidArgument
            ("billing period cannot exceed " +:+ pretty maxBillingPeriodDays
               +:+ " days"))
  else
  let maxPastStartDays := ValidationConfig.MaxPastStartDays cfg in
  let maxPastStart := days maxPastStartDays in
  let cutoffTime := time_Add now (wrap64 (- maxPastStart)) in
  if time_Before (CreateBillRequest.PeriodStart req) cutoffTime then
    Some (errs_Error InvalidArgument
            ("period_start cannot be more than " +:+ pretty maxPastStartDays
               +:+ " days in the past"))
  else None.

End Validate.

End billing.

(** ** billing/core/service.go: [CreateBill] *)

Module creation.

(** The fields of [client.StartWorkflowOptions] that the service sets. *)
Record StartWorkflowOptions := mkOptions {
  ID : string;
  TaskQueue : string;
  WorkflowExecutionTimeout : Z
}.

(** The settings read from [s.cfg]. *)
Record Config := mkConfig {
  WorkflowIDPrefix : string;
  cfg_TaskQueue : string;
  WorkflowExecutionTimeoutBuffer : Z
}.

(** [req.PeriodEnd.Sub(req.PeriodStart) + time.Duration(buffer) * time.Second] *)
Definition workflowTimeout (cfg : Config) (req : billing.CreateBillRequest.t)
  : Z :=
  wrap64 (time_Sub (billing.CreateBillRequest.PeriodEnd req)
            (billing.CreateBillRequest.PeriodStart req)
          + wrap64 (WorkflowExecutionTimeoutBuffer cfg * Second)).

(** [func (s *service) CreateBill(ctx, req)]: the identifier drawn by
    [uuid.NewV4] (on whose error [uuid.Must] panics), the two clock readings
    that stamp the bill, and the answer of [ExecuteWorkflow] to the options
    and the input of the workflow. The options are handed back with the
    result. *)
Definition CreateBill (cfg : Config)
    (ExecuteWorkflow : StartWorkflowOptions -> Bill.t -> option error)
    (newV4 : error + UUID) (createdAt updatedAt : Time)
    (req : billing.CreateBillRequest.t)
  : result (Bill.t * StartWorkflowOptions) :=
  match newV4 with
  | inl _ => Panic
  | inr billID =>
      let workflowID := WorkflowIDPrefix cfg +:+ uuid_String billID in
      let bill :=
        Bill.mk billID (billing.CreateBillRequest.CustomerID req) BillStatusOpen
          (billing.CreateBillRequest.PeriodStart req)
          (billing.CreateBillRequest.PeriodEnd req) workflowID
          createdAt updatedAt None [] None in
      let workflowOptions :=
        mkOptions workflowID (cfg_TaskQueue cfg) (workflowTimeout cfg req) in
      match ExecuteWorkflow workflowOptions bill with
      | Some err => Err (fmt_Errorf "failed to start workflow" err)
      | None => Ok (bill, workflowOptions)
      end
  end.

End creation.

(** ** billing/billing.go: the handlers *)

Module handlers.

Section Handlers.
Context `{MoneyTable} `{MapRange}.
Variable cfg : ValidationConfig.t.
Variable Sprintf_f : Decimal -> string.
Variable env : service.Env.
Variable WorkflowIDPrefix : string.

(** [func (h *Handler) AddLineItem(ctx, billId, req)]: the request is
    validated, then handed to the service; the response wraps the bill. *)
Definition AddLineItem (billId : UUID) (req : validation.AddLineItemRequest.t)
    (h : list service.Call) : result Bill.t * list service.Call :=
  match validation.ValidateAddLineItemRequest cfg Sprintf_f req with
  | Ok _ => service.AddLineItemToBill env WorkflowIDPrefix billId req h
  | Err err => (Err err, h)
  | Panic => (Panic, h)
  end.

(** [func (h *Handler) CloseBill(ctx, bill_id)]: an error of the service
    is wrapped. *)
Definition CloseBill (bill_id : UUID) (h : list service.Call)
  : result Bill.t * list service.Call :=
  match service.CloseBill env WorkflowIDPrefix bill_id h with
  | (Err err, h) => (Err (fmt_Errorf "failed to close bill" err), h)
  | r => r
  end.

(** [func (h *Handler) GetBill(ctx, bill_id)] *)
Definition GetBill (bill_id : UUID) (h : list service.Call)
  : result Bill.t * list service.Call :=
  service.GetBillByID env WorkflowIDPrefix bill_id h.

End Handlers.

(** [func (h *Handler) CreateBill(ctx, req)] *)
Definition CreateBill (vcfg : ValidationConfig.t) (cfg : creation.Config)
    (ExecuteWorkflow : creation.StartWorkflowOptions -> Bill.t -> option error)
    (now : Time) (newV4 : error + UUID) (createdAt updatedAt : Time)
    (req : billing.CreateBillRequest.t)
  : result (Bill.t * creation.StartWorkflowOptions) :=
  match billing.ValidateCreateBillRequest vcfg now req with
  | Some err => Err err
  | None => creation.CreateBill cfg ExecuteWorkflow newV4 createdAt updatedAt req
  end.

End handlers.

(** ** billing/repository/repository.go and billing/core/activities.go:
       closing a bill in the database *)

Module closing.

Section Closing.
(** The instant that a [TIMESTAMPTZ] column keeps of a Go [time.Time]. *)
Variable timestamptz : Time -> Time.

(** The rows that [WHERE id = $2 AND status = 'open'] selects. *)
Definition selected (billID : UUID) (r : repository.BillRow) : bool :=
  bool_decide (repository.id r = billID)
  && bool_decide (repository.status r = "open").

(** [SET status = 'closed', closed_at = $1, updated_at = NOW()] *)
Definition close_row (closedAt db_now : Time) (r : repository.BillRow)
  : repository.BillRow :=
  repository.mkRow (repository.id r) (repository.customer_id r) "closed"
    (repository.period_start r) (repository.period_end r)
    (repository.workflow_id r) (repository.created_at r) db_now
    (Some (timestamptz closedAt)).

(** [func (r *SQLRepository) CloseBill(ctx, billID, closedAt) error]:
    [fault] is the error of the connection, if [Exec] fails, and [db_now] the
    clock of the database. *)
Definition CloseBill (fault : option error) (db_now : Time)
    (db : repository.Database) (billID : UUID) (closedAt : Time)
  : option error * repository.Database :=
  match fault with
  | Some err => (Some err, db)
  | None =>
      let rowsAffected :=
        length (filter (fun r => selected billID r = true) (repository.bills db)) in
      let db' :=
        repository.mkDB
          (map (fun r => if selected billID r then close_row closedAt db_now r
                         else r)
             (repository.bills db))
          (repository.line_items db) in
      if (rowsAffected =? 0)%nat then (Some sql_ErrNoRows, db')
      else (None, db')
  end.

(** [func (a *BillingActivities) CloseBill(ctx, input)]: the update, then
    the read; [read_fault] is the error of the connection during the read. *)
Definition activity_CloseBill (fault read_fault : option error) (db_now : Time)
    (db : repository.Database) (billID : UUID) (closedAt : Time)
  : (error + Bill.t) * repository.Database :=
  match CloseBill fault db_now db billID closedAt with
  | (Some err, db') => (inl err, db')
  | (None, db') =>
      match read_fault with
      | Some err => (inl err, db')
      | None => (repository.GetBillByID db' billID, db')
      end
  end.

End Closing.

End closing.

(** ** Further values for the examples *)

Module more_examples.

(** The workflow settings of config.cue. *)
Definition creation_cfg : creation.Config :=
  creation.mkConfig "bill-" "pave-billing" 3600.

(** A request for January 2025, made at the start of the month. *)
Definition january : billing.CreateBillRequest.t :=
  billing.CreateBillRequest.mk "c1" 1735689600000000000 1738281600000000000.

(** A request made on January 1st for the first week of February. *)
Definition february_week : billing.CreateBillRequest.t :=
  billing.CreateBillRequest.mk "c1" 1738368000000000000 1738972800000000000.

(** A substrate that starts every workflow. *)
Definition workflow_starts (_ : creation.StartWorkflowOptions) (_ : Bill.t)
  : option error := None.

(** Microseconds, as PostgreSQL keeps them. *)
Definition microseconds (t : Time) : Time := t / 1000 * 1000.

(** A table with the open January bill and two of its line items, stored
    out of order. *)
Definition january_row : repository.BillRow :=
  repository.mkRow "b-1" "c1" "open" 1735689600000000000 1738281600000000000
    "bill-b-1" 1735689600000000000 1735689600000000000 None.

Definition stored_item (id bill : UUID) (createdAt : Time) : LineItem.t :=
  LineItem.mk id bill "X" USD (decimal.mk 10000 (-4)) (decimal.mk 100000 (-4))
    createdAt decimal.zero_value.

Definition january_db : repository.Database :=
  repository.mkDB [january_row]
    [stored_item "i-2" "b-1" 1736000000000000000;
     stored_item "i-9" "b-7" 1735800000000000000;
     stored_item "i-1" "b-1" 1735900000000000000].

(** A request that validation rejects: no description. *)
Definition no_description : validation.AddLineItemRequest.t :=
  validation.AddLineItemRequest.mk "" USD (decimal.mk 1 0) (decimal.mk 1000 (-2)).

Definition ten_dollars : validation.AddLineItemRequest.t :=
  validation.AddLineItemRequest.mk "X" USD (decimal.mk 1 0) (decimal.mk 1000 (-2)).

(** A machine that is found closed at the second read: the query answers
    with the open bill until a signal has been sent, and with the closed bill
    afterwards. *)
Definition closes_meanwhile_env (rates : RatesData.t) : service.Env :=
  service.mkEnv
    (fun h _ _ =>
       inr (service.mkEncoded
              (inr (if existsb service.is_signal h
                    then examples.closed_bill []
                    else examples.open_bill []))))
    (fun _ _ _ _ => None)
    (fun _ _ => inl sql_ErrNoRows)
    (fun _ => inr rates)
    (fun _ => 1738000000000000000)
    (fun _ => "i-new").

(** A substrate that refuses every signal. *)
Definition refusing_env (bill : Bill.t) (rates : RatesData.t) : service.Env :=
  service.mkEnv
    (fun _ _ _ => inr (service.mkEncoded (inr bill)))
    (fun _ _ _ _ => Some (errors_New "workflow execution already completed"))
    (fun _ _ => inl sql_ErrNoRows)
    (fun _ => inr rates)
    (fun _ => 1736000000000000000)
    (fun _ => "i-new").

(** A rate service that is down. *)
Definition no_rates_env (bill : Bill.t) : service.Env :=
  service.mkEnv
    (fun _ _ _ => inr (service.mkEncoded (inr bill)))
    (fun _ _ _ _ => None)
    (fun _ _ => inl sql_ErrNoRows)
    (fun _ => inl (errors_New "failed to call exchange rate service, status code: 502"))
    (fun _ => 1736000000000000000)
    (fun _ => "i-new").

(** A substrate on which [SaveBill] succeeds and every later activity
    fails. *)
Definition persistence_fails (_ : list workflow.Activity) (a : workflow.Activity)
  : option error :=
  match a with
  | workflow.SaveBill _ => None
  | _ => Some (errors_New "connection refused")
  end.

(** A request made on January 1st, 2025 for thirty days that start three
    hundred years later. *)
Definition far_future : billing.CreateBillRequest.t :=
  billing.CreateBillRequest.mk "c1" 11202969600000000000 11205561600000000000.

End more_examples.

(** * Theorems *)

(** ** Decimal arithmetic *)

Lemma rescale_down (d : Decimal) (e : Z) :
  e <= decimal.exp d ->
  decimal.rescale d e = decimal.mk (decimal.value d * 10 ^ (decimal.exp d - e)) e.
Proof.
  intros He. unfold decimal.rescale.
  destruct (Z.eqb_spec (decimal.exp d) e) as [<-|Hne].
  - rewrite Z.sub_diag, Z.mul_1_r. now destruct d.
  - destruct (Z.ltb_spec (decimal.exp d) e); [lia | reflexivity].
Qed.

Lemma Add_value (d d2 : Decimal) :
  decimal.Add d d2 =
    let e := Z.min (decimal.exp d) (decimal.exp d2) in
    decimal.mk (decimal.value d * 10 ^ (decimal.exp d - e)
                + decimal.value d2 * 10 ^ (decimal.exp d2 - e)) e.
Proof.
  unfold decimal.Add. simpl.
  rewrite !rescale_down by lia. reflexivity.
Qed.

Lemma Add_comm (d d2 : Decimal) : decimal.Add d d2 = decimal.Add d2 d.
Proof.
  rewrite !Add_value. simpl. rewrite (Z.min_comm (decimal.exp d2)).
  f_equal. lia.
Qed.

Lemma pow10_split (a b : Z) : 0 <= a -> 0 <= b -> 10 ^ (a + b) = 10 ^ a * 10 ^ b.
Proof. intros. now apply Z.pow_add_r. Qed.

Lemma Add_assoc (a b c : Decimal) :
  decimal.Add (decimal.Add a b) c = decimal.Add a (decimal.Add b c).
Proof.
  rewrite !Add_value. simpl. destruct a as [va ea], b as [vb eb], c as [vc ec].
  simpl.
  set (m1 := Z.min ea eb). set (m2 := Z.min eb ec).
  assert (Hm : Z.min m1 ec = Z.min ea m2) by (subst m1 m2; lia).
  rewrite Hm. set (m := Z.min ea m2). f_equal.
  replace (ea - m) with ((ea - m1) + (m1 - m)) by lia.
  replace (ec - m) with ((ec - m2) + (m2 - m)) by lia.
  rewrite !pow10_split by (subst m m1 m2; lia).
  assert (Hb : 10 ^ (eb - m1) * 10 ^ (m1 - m) = 10 ^ (eb - m2) * 10 ^ (m2 - m)).
  { rewrite <- !pow10_split by (subst m m1 m2; lia). f_equal. lia. }
  rewrite !Z.mul_add_distr_r, <- !Z.mul_assoc, Hb. ring.
Qed.

Lemma Add_swap (a x y : Decimal) :
  decimal.Add (decimal.Add a x) y = decimal.Add (decimal.Add a y) x.
Proof. now rewrite !Add_assoc, (Add_comm x y). Qed.

(** A sum of decimals does not depend on the order of its terms. *)
Lemma foldl_Add_Permutation (l1 l2 : list Decimal) :
  l1 ≡ₚ l2 -> forall a, foldl decimal.Add a l1 = foldl decimal.Add a l2.
Proof.
  induction 1 as [|x l1 l2 _ IH|x y l|l1 l2 l3 _ IH1 _ IH2]; intros a; simpl.
  - reflexivity.
  - apply IH.
  - now rewrite Add_swap.
  - now rewrite IH1.
Qed.

(** [Round] lands on the asked number of fractional digits. *)
Lemma Round_exp (d : Decimal) (places : Z) :
  decimal.exp (decimal.Round d places) = - places.
Proof.
  unfold decimal.Round.
  destruct (Z.eqb_spec (decimal.exp d) (- places)); [assumption|].
  simpl. unfold decimal.rescale.
  destruct (Z.eqb_spec (decimal.exp d) (- places - 1)); simpl.
  - lia.
  - destruct (decimal.exp d <? - places - 1); simpl; lia.
Qed.

(** ** The bill value: [Close] and [AddLineItem] *)

Lemma IsOpen_true (b : Bill.t) :
  Bill.IsOpen b = true <-> Bill.Status b = BillStatusOpen.
Proof. unfold Bill.IsOpen. apply bool_decide_eq_true. Qed.

Lemma IsClosed_true (b : Bill.t) :
  Bill.IsClosed b = true <-> Bill.Status b = BillStatusClosed.
Proof. unfold Bill.IsClosed. apply bool_decide_eq_true. Qed.

Lemma open_not_closed (b : Bill.t) :
  Bill.IsOpen b = true -> Bill.IsClosed b = false.
Proof.
  rewrite IsOpen_true. intros Hs. unfold Bill.IsClosed.
  apply bool_decide_eq_false. rewrite Hs. discriminate.
Qed.

Lemma Close_closed (b : Bill.t) (at_ : Time) :
  Bill.IsClosed b = true -> Bill.Close b at_ = (b, false).
Proof. intros Hc. unfold Bill.Close. now rewrite Hc. Qed.

Lemma AddLineItem_closed (b : Bill.t) (item : LineItem.t) :
  Bill.IsClosed b = true -> Bill.AddLineItem b item = (b, false).
Proof. intros Hc. unfold Bill.AddLineItem. now rewrite Hc. Qed.

Lemma Close_not_closed (b : Bill.t) (at_ : Time) :
  Bill.IsClosed b = false ->
  Bill.Close b at_ =
    (Bill.mk (Bill.ID b) (Bill.CustomerID b) BillStatusClosed
       (Bill.PeriodStart b) (Bill.PeriodEnd b) (Bill.WorkflowID b)
       (Bill.CreatedAt b) (Bill.UpdatedAt b) (Some at_) (Bill.LineItems b)
       (Bill.Total b), true).
Proof. intros Hc. unfold Bill.Close. now rewrite Hc. Qed.

Lemma AddLineItem_not_closed (b : Bill.t) (item : LineItem.t) :
  Bill.IsClosed b = false ->
  Bill.AddLineItem b item =
    (Bill.mk (Bill.ID b) (Bill.CustomerID b) (Bill.Status b)
       (Bill.PeriodStart b) (Bill.PeriodEnd b) (Bill.WorkflowID b)
       (Bill.CreatedAt b) (Bill.UpdatedAt b) (Bill.ClosedAt b)
       (Bill.LineItems b ++ [item]) (Bill.Total b), true).
Proof. intros Hc. unfold Bill.AddLineItem. now rewrite Hc. Qed.

Lemma Close_is_closed (b : Bill.t) (at_ : Time) :
  Bill.IsClosed (fst (Bill.Close b at_)) = true.
Proof.
  unfold Bill.Close. destruct (Bill.IsClosed b) eqn:Hc; simpl; [exact Hc|].
  reflexivity.
Qed.

(** C10. On an open bill, [Close at] changes the status to closed and
    [closed_at] to [at] and nothing else, and [AddLineItem item] appends the
    item at the tail of the line items and changes nothing else; both report
    success. On a closed bill both report failure and return the bill as it
    was. *)
Theorem Close_AddLineItem_frame (b : Bill.t) (at_ : Time) (item : LineItem.t) :
  (Bill.IsOpen b = true ->
   Bill.Close b at_ =
     (Bill.mk (Bill.ID b) (Bill.CustomerID b) BillStatusClosed
        (Bill.PeriodStart b) (Bill.PeriodEnd b) (Bill.WorkflowID b)
        (Bill.CreatedAt b) (Bill.UpdatedAt b) (Some at_) (Bill.LineItems b)
        (Bill.Total b), true)
   /\ Bill.AddLineItem b item =
     (Bill.mk (Bill.ID b) (Bill.CustomerID b) (Bill.Status b)
        (Bill.PeriodStart b) (Bill.PeriodEnd b) (Bill.WorkflowID b)
        (Bill.CreatedAt b) (Bill.UpdatedAt b) (Bill.ClosedAt b)
        (Bill.LineItems b ++ [item]) (Bill.Total b), true))
  /\ (Bill.IsClosed b = true ->
      Bill.Close b at_ = (b, false) /\ Bill.AddLineItem b item = (b, false)).
Proof.
  split.
  - intros Ho. apply open_not_closed in Ho. split.
    + now apply Close_not_closed.
    + now apply AddLineItem_not_closed.
  - intros Hc. split.
    + now apply Close_closed.
    + now apply AddLineItem_closed.
Qed.

(** The frame property at an open and at a closed January bill. *)
Lemma Close_AddLineItem_frame_witness :
  let i := examples.item "i-1" USD (decimal.mk 2 0) (decimal.mk 1000 (-2)) in
  (Bill.Close (examples.open_bill []) 7 =
     (Bill.mk "b-1" "c1" BillStatusClosed
        1735689600000000000 1738281600000000000 "bill-b-1"
        1735689600000000000 1735689600000000000 (Some 7) [] None, true)
   /\ Bill.AddLineItem (examples.open_bill []) i = (examples.open_bill [i], true))
  /\ (Bill.Close (examples.closed_bill [i]) 7 = (examples.closed_bill [i], false)
      /\ Bill.AddLineItem (examples.closed_bill [i]) i
         = (examples.closed_bill [i], false)).
Proof.
  intros i.
  destruct (Close_AddLineItem_frame (examples.open_bill []) 7 i) as [Ho _].
  destruct (Close_AddLineItem_frame (examples.closed_bill [i]) 7 i) as [_ Hc].
  split; [apply Ho | apply Hc]; reflexivity.
Defined.

(** ** The durable bill machine *)

Section WorkflowFacts.
Variable ExecuteActivity :
  list workflow.Activity -> workflow.Activity -> option error.

Local Abbreviation Select := (workflow.Select ExecuteActivity).
Local Abbreviation loop := (workflow.loop ExecuteActivity).
Local Abbreviation CreateBill := (workflow.CreateBill ExecuteActivity).

Lemma onAddLineItem_closed (m : workflow.Machine) (lineItem : LineItem.t) :
  Bill.IsClosed (workflow.bill m) = true ->
  workflow.onAddLineItem ExecuteActivity m lineItem = m.
Proof.
  intros Hc. unfold workflow.onAddLineItem.
  rewrite (AddLineItem_closed _ _ Hc). now destruct m.
Qed.

Lemma closeBill_closed (m : workflow.Machine) (requestedAt : Time) :
  Bill.IsClosed (workflow.bill m) = true ->
  workflow.closeBill ExecuteActivity m requestedAt = m.
Proof.
  intros Hc. unfold workflow.closeBill.
  rewrite (Close_closed _ _ Hc). now destruct m.
Qed.

Lemma loop_closed (m : workflow.Machine) (stimuli : list workflow.Stimulus) :
  Bill.IsClosed (workflow.bill m) = true -> loop m stimuli = m.
Proof. intros Hc. destruct stimuli; simpl; now rewrite Hc. Qed.

Lemma loop_app (m : workflow.Machine) (s1 s2 : list workflow.Stimulus) :
  loop m (s1 ++ s2) = loop (loop m s1) s2.
Proof.
  revert m. induction s1 as [|s s1 IH]; intros m; simpl.
  - destruct (Bill.IsClosed (workflow.bill m)) eqn:Hc; [|reflexivity].
    now rewrite loop_closed.
  - destruct (Bill.IsClosed (workflow.bill m)) eqn:Hc; [|apply IH].
    now rewrite loop_closed.
Qed.

(** An open machine that takes a line item holds it in memory and has
    scheduled its persistence, whatever the activity reports. *)
Lemma onAddLineItem_not_closed (m : workflow.Machine) (lineItem : LineItem.t) :
  Bill.IsClosed (workflow.bill m) = false ->
  Bill.LineItems (workflow.bill (workflow.onAddLineItem ExecuteActivity m lineItem))
    = Bill.LineItems (workflow.bill m) ++ [lineItem]
  /\ workflow.activities (workflow.onAddLineItem ExecuteActivity m lineItem)
    = workflow.activities m ++ [workflow.AddLineItemToBill lineItem].
Proof.
  intros Hc. unfold workflow.onAddLineItem.
  rewrite (AddLineItem_not_closed _ _ Hc). simpl. auto.
Qed.

(** C1. An add-line-item signal that the machine processes while its bill is
    closed changes nothing: the bill keeps its line items and no activity is
    scheduled, so [AddLineItemToBill] is not invoked. Hence once a run of the
    workflow has closed the bill, whatever is delivered afterwards leaves the
    bill and the executed activities as they were at closure. *)
Theorem line_item_after_close_is_dropped :
  (forall (m : workflow.Machine) (lineItem : LineItem.t),
      Bill.IsClosed (workflow.bill m) = true ->
      Select m (workflow.LineItemSignalData lineItem) = m)
  /\ (forall (input : Bill.t) (now : Time)
        (before after : list workflow.Stimulus) (m : workflow.Machine),
      CreateBill input now before = Ok m ->
      Bill.IsClosed (workflow.bill m) = true ->
      CreateBill input now (before ++ after) = Ok m).
Proof.
  split.
  - intros m lineItem Hc. simpl. now apply onAddLineItem_closed.
  - intros input now before after m Hrun Hc.
    unfold workflow.CreateBill in *.
    destruct (workflow.start ExecuteActivity input now) as [m0|e|];
      try discriminate.
    injection Hrun as Hrun. rewrite loop_app, Hrun.
    now rewrite loop_closed.
Qed.

(** The machine closes on the first close request it processes while
    open, by signal or by timer, and records the [CloseBill] activity. *)
Lemma closeBill_not_closed (m : workflow.Machine) (requestedAt : Time) :
  Bill.IsClosed (workflow.bill m) = false ->
  workflow.closeBill ExecuteActivity m requestedAt =
    workflow.mkMachine
      (Bill.with_ClosedAt (Some requestedAt)
         (Bill.with_Status BillStatusClosed (workflow.bill m)))
      (workflow.timer m)
      (workflow.activities m
         ++ [workflow.CloseBill (Bill.ID (workflow.bill m)) requestedAt]).
Proof.
  intros Hc. unfold workflow.closeBill, Bill.Close. rewrite Hc. reflexivity.
Qed.

(** The machine starts exactly when [SaveBill] succeeds, and then the timer
    is armed with the saturated difference, raised to zero. *)
Lemma start_arms_timer (input : Bill.t) (now : Time) :
  ExecuteActivity [] (workflow.SaveBill input) = None ->
  workflow.start ExecuteActivity input now =
    Ok (workflow.mkMachine input
          (Some (Z.max 0 (time_Sub (Bill.PeriodEnd input) now)))
          [workflow.SaveBill input]).
Proof.
  intros Hsave. unfold workflow.start, workflow.timerDuration. rewrite Hsave.
  do 3 f_equal.
  destruct (Z.ltb_spec (time_Sub (Bill.PeriodEnd input) now) 0); lia.
Qed.

(** C6. When [SaveBill] has succeeded, the machine enters its loop on the
    input bill with the timer armed for [period_end - now] as
    [time.Time.Sub] computes it, raised to zero when negative: the difference
    itself as long as it fits a Duration, and the largest Duration when it
    is larger. A timer that fires at machine time [now'] is handled exactly
    as a close signal whose [requested_at] is [now']: on a bill that is not
    closed the bill becomes closed with [closed_at = now'], nothing else of
    it changes, and the activity [CloseBill] runs with the identifier of the
    bill and [now']; on a closed bill nothing happens. Either way the bill
    is closed afterwards. *)
Theorem timer_armed_and_fires_as_close
    (input : Bill.t) (now : Time) (m : workflow.Machine) :
  workflow.start ExecuteActivity input now = Ok m ->
  workflow.bill m = input
  /\ workflow.activities m = [workflow.SaveBill input]
  /\ workflow.timer m
     = Some (Z.max 0 (Z.min maxDuration (Bill.PeriodEnd input - now)))
  /\ (Bill.PeriodEnd input - now <= maxDuration ->
      workflow.timer m = Some (Z.max 0 (Bill.PeriodEnd input - now)))
  /\ (maxDuration < Bill.PeriodEnd input - now ->
      workflow.timer m = Some maxDuration)
  /\ forall (m' : workflow.Machine) (now' : Time),
      Select m' (workflow.PeriodEndTimer now')
      = Select m' (workflow.CloseBillSignalData now')
      /\ Bill.IsClosed (workflow.bill (Select m' (workflow.PeriodEndTimer now')))
         = true
      /\ (Bill.IsClosed (workflow.bill m') = false ->
          Select m' (workflow.PeriodEndTimer now')
          = workflow.mkMachine
              (Bill.mk (Bill.ID (workflow.bill m'))
                 (Bill.CustomerID (workflow.bill m')) BillStatusClosed
                 (Bill.PeriodStart (workflow.bill m'))
                 (Bill.PeriodEnd (workflow.bill m'))
                 (Bill.WorkflowID (workflow.bill m'))
                 (Bill.CreatedAt (workflow.bill m'))
                 (Bill.UpdatedAt (workflow.bill m')) (Some now')
                 (Bill.LineItems (workflow.bill m'))
                 (Bill.Total (workflow.bill m')))
              (workflow.timer m')
              (workflow.activities m'
                 ++ [workflow.CloseBill (Bill.ID (workflow.bill m')) now']))
      /\ (Bill.IsClosed (workflow.bill m') = true ->
          Select m' (workflow.PeriodEndTimer now') = m').
Proof.
  intros Hstart. unfold workflow.start in Hstart.
  destruct (ExecuteActivity [] (workflow.SaveBill input)); try discriminate.
  injection Hstart as <-. cbn [workflow.bill workflow.activities workflow.timer].
  assert (Htimer : workflow.timerDuration input now
                   = Z.max 0 (Z.min maxDuration (Bill.PeriodEnd input - now))).
  { unfold workflow.timerDuration, time_Sub, minDuration, maxDuration.
    match goal with |- context [?a <? 0] => destruct (Z.ltb_spec a 0) end; lia. }
  rewrite Htimer.
  split; [reflexivity|]. split; [reflexivity|]. split; [reflexivity|].
  split; [intros Hfit; f_equal; lia|].
  split; [intros Hbig; f_equal; unfold maxDuration in *; lia|].
  intros m' now'. split; [reflexivity|]. cbn [workflow.Select].
  destruct (Bill.IsClosed (workflow.bill m')) eqn:Hc.
  - rewrite (closeBill_closed m' now' Hc). repeat split; auto. discriminate.
  - rewrite (closeBill_not_closed m' now' Hc). repeat split; auto. discriminate.
Qed.

End WorkflowFacts.

(** A closed machine ignores a line item, and a run that closed on a close
    signal is the same run when a line item is delivered after it. *)
Lemma line_item_after_close_is_dropped_witness :
  let i := examples.item "i-2" USD (decimal.mk 1 0) (decimal.mk 5 0) in
  let m := workflow.mkMachine (examples.closed_bill []) (Some 0) [] in
  workflow.Select examples.activities_succeed m (workflow.LineItemSignalData i) = m
  /\ workflow.CreateBill examples.activities_succeed (examples.open_bill []) 0
       ([workflow.CloseBillSignalData 5] ++ [workflow.LineItemSignalData i])
     = workflow.CreateBill examples.activities_succeed (examples.open_bill []) 0
         [workflow.CloseBillSignalData 5].
Proof.
  intros i m.
  destruct (line_item_after_close_is_dropped examples.activities_succeed)
    as [Hdrop Hrun].
  split.
  - apply Hdrop. reflexivity.
  - erewrite Hrun; [| reflexivity | reflexivity]. reflexivity.
Defined.

(** The timer of the January bill, armed one day before the period ends,
    and the machine after that timer has fired. *)
Lemma timer_armed_and_fires_as_close_witness :
  let m :=
    workflow.mkMachine (examples.open_bill [])
      (Some 86400000000000) [workflow.SaveBill (examples.open_bill [])] in
  workflow.timer m
  = Some (Z.max 0 (1738281600000000000 - 1738195200000000000))
  /\ workflow.Select examples.activities_succeed m
       (workflow.PeriodEndTimer 1738281600000000000)
     = workflow.mkMachine
         (Bill.mk "b-1" "c1" BillStatusClosed
            1735689600000000000 1738281600000000000 "bill-b-1"
            1735689600000000000 1735689600000000000
            (Some 1738281600000000000) [] None)
         (Some 86400000000000)
         [workflow.SaveBill (examples.open_bill []);
          workflow.CloseBill "b-1" 1738281600000000000].
Proof.
  intros m.
  destruct (timer_armed_and_fires_as_close examples.activities_succeed
              (examples.open_bill []) 1738195200000000000 m eq_refl)
    as (_ & _ & _ & Hfit & _ & Hfire).
  split.
  - apply Hfit. unfold maxDuration. simpl. lia.
  - destruct (Hfire m 1738281600000000000) as (_ & _ & Hopen & _).
    apply Hopen. reflexivity.
Defined.

(** C6, the wording of the claim at a request that validation admits: on
    January 1st, 2025, a bill for thirty days that start three hundred years
    later. The difference [period_end - now] is about 9.47e18 nanoseconds,
    more than a Duration holds, and the timer is armed for the largest
    Duration (about 292 years), not for that difference. *)
Theorem timer_saturates_at_max_duration :
  let now := 1735689600000000000 in
  let bill :=
    Bill.mk "b-3" "c1" BillStatusOpen 11202969600000000000
      11205561600000000000 "bill-b-3" now now None [] None in
  billing.ValidateCreateBillRequest examples.config_cue now
    more_examples.far_future = None
  /\ handlers.CreateBill examples.config_cue more_examples.creation_cfg
       more_examples.workflow_starts now (inr "b-3") now now
       more_examples.far_future
     = Ok (bill, creation.mkOptions "bill-b-3" "pave-billing" 2595600000000000)
  /\ workflow.start examples.activities_succeed bill now
     = Ok (workflow.mkMachine bill (Some 9223372036854775807)
             [workflow.SaveBill bill])
  /\ Z.max 0 (Bill.PeriodEnd bill - now) = 9469872000000000000
  /\ 9223372036854775807 < 9469872000000000000.
Proof. intros now bill. repeat split. Qed.

(** ** The billing service *)

(** [CalculateSum] writes the line totals and the totals of the bill and
    nothing else: identity, status, period, timestamps and [closed_at] stay,
    and so do the line items up to their stored total. *)
Lemma CalculateSum_frame `{MoneyTable} `{MapRange} (b b' : Bill.t) (rates : RatesData.t) :
  CalculateSum b rates = Ok b' ->
  Bill.ID b' = Bill.ID b
  /\ Bill.CustomerID b' = Bill.CustomerID b
  /\ Bill.Status b' = Bill.Status b
  /\ Bill.PeriodStart b' = Bill.PeriodStart b
  /\ Bill.PeriodEnd b' = Bill.PeriodEnd b
  /\ Bill.WorkflowID b' = Bill.WorkflowID b
  /\ Bill.CreatedAt b' = Bill.CreatedAt b
  /\ Bill.UpdatedAt b' = Bill.UpdatedAt b
  /\ Bill.ClosedAt b' = Bill.ClosedAt b
  /\ Bill.LineItems b' =
       map (fun item => LineItem.with_Total (lineTotal item) item)
         (Bill.LineItems b).
Proof.
  unfold CalculateSum. destruct (Bill.LineItems b) as [|i items] eqn:Hitems.
  - intros [= <-]. rewrite Hitems. repeat split; reflexivity.
  - match goal with |- context [convertAll ?r ?a ?en ?ac] =>
      destruct (convertAll r a en ac) end; try discriminate.
    intros [= <-]. repeat split; reflexivity.
Qed.

Section ServiceFacts.
Context `{MoneyTable} `{MapRange}.
Variable env : service.Env.
Variable WorkflowIDPrefix : string.

Local Abbreviation GetBillByID := (service.GetBillByID env WorkflowIDPrefix).
Local Abbreviation CloseBill := (service.CloseBill env WorkflowIDPrefix).
Local Abbreviation workflowID id := (WorkflowIDPrefix +:+ uuid_String id).

(** Reading a bill sends no signal: the calls it adds are a query, possibly
    a read of the repository, and possibly a read of the rates. *)
Lemma calculateSum_calls (bill : Bill.t) (h : list service.Call) :
  snd (service.calculateSum env bill h) = h ++ [service.GetRates].
Proof.
  unfold service.calculateSum.
  destruct (service.env_GetRates env h); reflexivity.
Qed.

Lemma GetBillByID_calls (id : UUID) (h : list service.Call) :
  exists calls,
    snd (GetBillByID id h) = h ++ calls
    /\ forallb (fun c => negb (service.is_signal c)) calls = true.
Proof.
  unfold service.GetBillByID.
  set (h1 := h ++ [service.QueryWorkflow _ _]).
  match goal with |- context [match ?q with Some _ => _ | None => _ end] =>
    destruct q as [bill|] end.
  - exists [service.QueryWorkflow (workflowID id) workflow.GetBillQuery;
            service.GetRates].
    rewrite calculateSum_calls. subst h1. rewrite <- app_assoc. auto.
  - destruct (service.env_GetBillByID env h1 id) as [err|bill].
    + exists [service.QueryWorkflow (workflowID id) workflow.GetBillQuery;
              service.Repository_GetBillByID id].
      subst h1. destruct (errors_Is is_ErrNoRows err); simpl;
        rewrite <- app_assoc; auto.
    + exists [service.QueryWorkflow (workflowID id) workflow.GetBillQuery;
              service.Repository_GetBillByID id; service.GetRates].
      rewrite calculateSum_calls. subst h1. rewrite <- !app_assoc. auto.
Qed.


(** An open bill, by contrast, gets exactly one close signal, stamped with
    the clock read just before. *)
Lemma CloseBill_open_signals
    (id : UUID) (h h' : list service.Call) (bill : Bill.t) :
  GetBillByID id h = (Ok bill, h') ->
  Bill.IsClosed bill = false ->
  exists rest,
    snd (CloseBill id h) =
      h' ++ [service.time_Now;
             service.SignalWorkflow (Bill.WorkflowID bill)
               workflow.CloseBillSignal
               (service.CloseBillSignalData (service.env_Now env h'))] ++ rest.
Proof.
  intros Hget Hopen. unfold service.CloseBill. rewrite Hget, Hopen.
  match goal with |- context [match ?e with Some _ => _ | None => _ end] =>
    destruct e end.
  - exists []. simpl. rewrite <- app_assoc. reflexivity.
  - match goal with |- context [service.GetBillByID env WorkflowIDPrefix id ?hh] =>
      destruct (GetBillByID_calls id hh) as [calls [Hh _]];
      destruct (service.GetBillByID env WorkflowIDPrefix id hh) as [r h2] end.
    simpl in Hh. subst h2. exists calls.
    destruct r; simpl; rewrite <- !app_assoc; reflexivity.
Qed.

(** After a failed query the repository decides. *)
Lemma GetBillByID_query_failed (id : UUID) (h : list service.Call) :
  service.query_failed env WorkflowIDPrefix id h ->
  let h1 := h ++ [service.QueryWorkflow (workflowID id) workflow.GetBillQuery] in
  let h2 := h1 ++ [service.Repository_GetBillByID id] in
  match service.env_GetBillByID env h1 id with
  | inl err =>
      GetBillByID id h =
        (Err (if errors_Is is_ErrNoRows err then ErrBillNotFound else err), h2)
  | inr bill => GetBillByID id h = service.calculateSum env bill h2
  end.
Proof.
  unfold service.query_failed, service.GetBillByID. intros Hq. simpl.
  destruct (service.env_QueryWorkflow env h (workflowID id) workflow.GetBillQuery)
    as [e|resp].
  - destruct (service.env_GetBillByID env _ id) as [err|bill]; [|reflexivity].
    now destruct (errors_Is is_ErrNoRows err).
  - destruct (service.Get resp); [|contradiction].
    destruct (service.env_GetBillByID env _ id) as [err|bill]; [|reflexivity].
    now destruct (errors_Is is_ErrNoRows err).
Qed.

(** C9. When the query against the machine fails, [GetBillByID] reads the
    repository next, and nothing but the rates after it. If the repository
    reports no rows ([sql.ErrNoRows]) the result is the not-found error, and
    any other error of the repository is returned as it is. If the
    repository returns a bill, the response is made of that record: it is
    the record with the totals that [CalculateSum] computes for it from the
    rates read, so a bill that comes back has the identifier, customer,
    status, period, workflow identifier, time stamps and [closed_at] of the
    record and its line items, each with its line total; when the rates
    cannot be read their error comes back instead. *)
Theorem GetBillByID_falls_back_to_repository
    (id : UUID) (h : list service.Call) :
  service.query_failed env WorkflowIDPrefix id h ->
  let h1 := h ++ [service.QueryWorkflow (workflowID id) workflow.GetBillQuery] in
  let h2 := h1 ++ [service.Repository_GetBillByID id] in
  let h3 := h2 ++ [service.GetRates] in
  (forall err,
      service.env_GetBillByID env h1 id = inl err ->
      errors_Is is_ErrNoRows err = true ->
      GetBillByID id h = (Err ErrBillNotFound, h2))
  /\ (forall err,
      service.env_GetBillByID env h1 id = inl err ->
      errors_Is is_ErrNoRows err = false ->
      GetBillByID id h = (Err err, h2))
  /\ (forall bill,
      service.env_GetBillByID env h1 id = inr bill ->
      GetBillByID id h = service.calculateSum env bill h2
      /\ (forall err,
          service.env_GetRates env h2 = inl err ->
          GetBillByID id h = (Err err, h3))
      /\ (forall rates,
          service.env_GetRates env h2 = inr rates ->
          GetBillByID id h = (CalculateSum bill rates, h3))
      /\ (forall b' h',
          GetBillByID id h = (Ok b', h') ->
          h' = h3
          /\ Bill.ID b' = Bill.ID bill
          /\ Bill.CustomerID b' = Bill.CustomerID bill
          /\ Bill.Status b' = Bill.Status bill
          /\ Bill.PeriodStart b' = Bill.PeriodStart bill
          /\ Bill.PeriodEnd b' = Bill.PeriodEnd bill
          /\ Bill.WorkflowID b' = Bill.WorkflowID bill
          /\ Bill.CreatedAt b' = Bill.CreatedAt bill
          /\ Bill.UpdatedAt b' = Bill.UpdatedAt bill
          /\ Bill.ClosedAt b' = Bill.ClosedAt bill
          /\ Bill.LineItems b'
             = map (fun item => LineItem.with_Total (lineTotal item) item)
                 (Bill.LineItems bill))).
Proof.
  intros Hq h1 h2 h3. pose proof (GetBillByID_query_failed id h Hq) as Hfb.
  simpl in Hfb. fold h1 in Hfb. fold h2 in Hfb. split; [|split].
  - intros err Herr Hno. now rewrite Herr, Hno in Hfb.
  - intros err Herr Hno. now rewrite Herr, Hno in Hfb.
  - intros bill Hbill. rewrite Hbill in Hfb. rewrite Hfb.
    unfold service.calculateSum. fold h3.
    split; [reflexivity|]. split; [|split].
    + intros err Hr. now rewrite Hr.
    + intros rates Hr. now rewrite Hr.
    + intros b' h'.
      destruct (service.env_GetRates env h2) as [err|rates]; [discriminate|].
      intros [= Hsum <-]. split; [reflexivity|].
      exact (CalculateSum_frame bill b' rates Hsum).
Qed.

(** When the query succeeds the repository is not read. *)
Lemma GetBillByID_uses_machine
    (id : UUID) (h : list service.Call) (resp : service.EncodedValue)
    (bill : Bill.t) :
  service.env_QueryWorkflow env h (workflowID id) workflow.GetBillQuery = inr resp ->
  service.Get resp = inr bill ->
  GetBillByID id h =
    service.calculateSum env bill
      (h ++ [service.QueryWorkflow (workflowID id) workflow.GetBillQuery]).
Proof.
  intros Hq Hd. unfold service.GetBillByID. now rewrite Hq, Hd.
Qed.

End ServiceFacts.

(** The SQL repository reports [sql.ErrNoRows] exactly when the table has
    no row with the id. *)
Lemma repository_no_rows (db : repository.Database) (billID : UUID) :
  repository.GetBillByID db billID = inl sql_ErrNoRows
  <-> ~ billID ∈ map repository.id (repository.bills db).
Proof.
  unfold repository.GetBillByID.
  destruct (List.find _ _) as [r|] eqn:Hf; split.
  - discriminate.
  - intros Hn. exfalso. apply Hn. apply List.find_some in Hf as [Hin Hid].
    apply bool_decide_eq_true in Hid. subst billID.
    apply list_elem_of_fmap. exists r. split; [reflexivity|].
    now apply list_elem_of_In.
  - intros _ Hin. apply list_elem_of_fmap in Hin as [r [Hr Hin]].
    apply list_elem_of_In in Hin.
    apply (List.find_none _ _ Hf) in Hin.
    apply bool_decide_eq_false in Hin. congruence.
  - reflexivity.
Qed.

(** A stored bill is returned with the columns of its row. *)
Lemma repository_row_found (db : repository.Database) (billID : UUID)
    (bill : Bill.t) :
  repository.GetBillByID db billID = inr bill ->
  Bill.ID bill = billID
  /\ exists r, r ∈ repository.bills db
      /\ repository.id r = billID
      /\ Bill.Status bill = repository.status r
      /\ Bill.ClosedAt bill = repository.closed_at r.
Proof.
  unfold repository.GetBillByID.
  destruct (List.find _ _) as [r|] eqn:Hf; [|discriminate].
  intros [= <-]. apply List.find_some in Hf as [Hin Hid].
  apply bool_decide_eq_true in Hid. simpl. split; [exact Hid|].
  exists r. repeat split; auto. now apply list_elem_of_In.
Qed.


(** After termination, with an empty table of bills, the read ends in
    not-found; with the January bill and its two line items in the tables,
    the response is that row with those items in the order of their creation,
    each with its line total. *)
Lemma GetBillByID_falls_back_to_repository_witness :
  let rates := examples.rates_of [("USD", 1.0%float)] 5 in
  @service.GetBillByID examples.usd_gel_table examples.map_to_list_order
    (examples.terminated_env (repository.mkDB [] []) rates) "bill-" "b-1" []
  = (Err ErrBillNotFound,
     [service.QueryWorkflow "bill-b-1" "GetBillQuery";
      service.Repository_GetBillByID "b-1"])
  /\ exists b',
      @service.GetBillByID examples.usd_gel_table examples.map_to_list_order
        (examples.terminated_env more_examples.january_db rates) "bill-" "b-1" []
      = (Ok b',
         [service.QueryWorkflow "bill-b-1" "GetBillQuery";
          service.Repository_GetBillByID "b-1"; service.GetRates])
      /\ Bill.ID b' = "b-1" /\ Bill.CustomerID b' = "c1"
      /\ Bill.Status b' = BillStatusOpen /\ Bill.ClosedAt b' = None
      /\ map (fun i => (LineItem.ID i, LineItem.Total i)) (Bill.LineItems b')
         = [("i-1", decimal.mk 1000000000 (-8));
            ("i-2", decimal.mk 1000000000 (-8))].
Proof.
  intros rates. split.
  - destruct (@GetBillByID_falls_back_to_repository examples.usd_gel_table
                examples.map_to_list_order
                (examples.terminated_env (repository.mkDB [] []) rates)
                "bill-" "b-1" [] I) as [Hnone _].
    apply (Hnone sql_ErrNoRows); reflexivity.
  - destruct (@GetBillByID_falls_back_to_repository examples.usd_gel_table
                examples.map_to_list_order
                (examples.terminated_env more_examples.january_db rates)
                "bill-" "b-1" [] I) as (_ & _ & Hfound).
    destruct (Hfound _ eq_refl) as (_ & _ & Hrates & _).
    eexists. split; [apply (Hrates rates); reflexivity|].
    vm_compute. repeat split.
Defined.

(** With the SQL repository behind the service, a bill that the machine no
    longer answers for and that has no row is not found. *)
Lemma GetBillByID_terminated_no_row `{MoneyTable} `{MapRange}
    (db : repository.Database) (rates : RatesData.t) (prefix : string)
    (id : UUID) (h : list service.Call) :
  ~ id ∈ map repository.id (repository.bills db) ->
  fst (service.GetBillByID (examples.terminated_env db rates) prefix id h)
  = Err ErrBillNotFound.
Proof.
  intros Hno. apply repository_no_rows in Hno.
  pose proof (GetBillByID_query_failed
                (examples.terminated_env db rates) prefix id h I) as Hfb.
  simpl in Hfb. rewrite Hno in Hfb. rewrite Hfb. reflexivity.
Qed.

Section AddLineItemFacts.
Context `{MoneyTable} `{MapRange}.
Variable env : service.Env.
Variable WorkflowIDPrefix : string.

(** What the caller of [AddLineItemToBill] gets on success: the bill of the
    second read, totals included, with the new item appended afterwards when
    that bill is open. The totals are those of the second read; they are not
    computed again after the item is appended. *)
Lemma AddLineItemToBill_returns_reread
    (billId : UUID) (req : validation.AddLineItemRequest.t)
    (h h' : list service.Call) (bill : Bill.t) :
  service.AddLineItemToBill env WorkflowIDPrefix billId req h = (Ok bill, h') ->
  exists (reread : Bill.t) (h2 : list service.Call) (lineItem : LineItem.t),
    service.GetBillByID env WorkflowIDPrefix billId h2 = (Ok reread, h')
    /\ bill = fst (Bill.AddLineItem reread lineItem)
    /\ Bill.Total bill = Bill.Total reread.
Proof.
  unfold service.AddLineItemToBill.
  destruct (service.GetBillByID env WorkflowIDPrefix billId h) as [[b1| |] h1];
    try discriminate.
  destruct (Bill.IsClosed b1); try discriminate.
  match goal with |- context [match ?e with Some _ => _ | None => _ end] =>
    destruct e end; try discriminate.
  match goal with |- context [service.GetBillByID env WorkflowIDPrefix billId ?hh] =>
    set (h2 := hh);
    destruct (service.GetBillByID env WorkflowIDPrefix billId h2)
      as [[b2| |] h3] eqn:Hre end; try discriminate.
  intros [= <- <-].
  eexists b2, h2, _. split; [exact Hre|]. split; [reflexivity|].
  unfold Bill.AddLineItem. now destruct (Bill.IsClosed b2).
Qed.

End AddLineItemFacts.

(** C5, at the input of the service's own test: an open bill without line
    items, a machine that has not yet handled the signal when the bill is read
    again, rates [{USD: 1.0}], and the request [{X, USD, 2, 10.00}].
    [AddLineItemToBill] succeeds and the returned bill lists the new item, but
    it carries no totals at all: the item's 20.00 USD is not accounted for. *)
Theorem AddLineItemToBill_totals_miss_item :
  let env :=
    examples.mock_env (examples.open_bill [])
      (examples.rates_of [("USD", 1.0%float)] 5) in
  let req :=
    validation.AddLineItemRequest.mk "X" USD (decimal.mk 2 0)
      (decimal.mk 1000 (-2)) in
  exists bill h,
    @service.AddLineItemToBill examples.usd_gel_table examples.map_to_list_order env "bill-" "b-1" req []
      = (Ok bill, h)
    /\ Bill.LineItems bill
       = [LineItem.mk "i-new" "b-1" "X" USD (decimal.mk 2 0)
            (decimal.mk 1000 (-2)) 1736000000000000000 decimal.zero_value]
    /\ Bill.Total bill = None.
Proof. intros env req. eexists _, _. vm_compute. repeat split. Qed.

(** The other schedule: the machine handles the signal before the second
    read. The totals then count the item once (20.00 USD), and the returned
    list holds it twice. *)
Lemma AddLineItemToBill_item_listed_twice :
  let env :=
    examples.prompt_env (examples.open_bill [])
      (examples.rates_of [("USD", 1.0%float)] 5) in
  let req :=
    validation.AddLineItemRequest.mk "X" USD (decimal.mk 2 0)
      (decimal.mk 1000 (-2)) in
  exists bill h tot,
    @service.AddLineItemToBill examples.usd_gel_table examples.map_to_list_order env "bill-" "b-1" req []
      = (Ok bill, h)
    /\ map LineItem.ID (Bill.LineItems bill) = ["i-new"; "i-new"]
    /\ Bill.Total bill = Some tot
    /\ Total.ByCurrency tot !! USD = Some (decimal.mk 2000 (-2)).
Proof. intros env req. eexists _, _, _. vm_compute. repeat split. Qed.

(** ** The rate service *)

Section RateServiceFacts.
Variable cfg : ExchangeRatesConfig.t.

Local Abbreviation ttl := (exchange_rates.ttl cfg).

(** A call consults nothing outside the process exactly when the clock is
    before [updatedAt + ttl]. *)
Lemma updateRates_in_memory_iff
    (s : exchange_rates.service) (w : exchange_rates.World) :
  snd (exchange_rates.updateRates cfg s w) = []
  <-> exchange_rates.now w < exchange_rates.updatedAt s + ttl.
Proof.
  unfold exchange_rates.updateRates, time_Before, time_Add.
  destruct (Z.ltb_spec (exchange_rates.now w) (exchange_rates.updatedAt s + ttl)).
  - simpl. tauto.
  - destruct (exchange_rates.cache_Get w);
      [destruct (exchange_rates.fetchExchangeRates w)|]; simpl;
      split; try discriminate; lia.
Qed.

(** A snapshot fetched from the provider is stamped with the time of the
    fetch plus the TTL, and that stamp goes to the shared cache too. *)
Lemma updateRates_after_fetch
    (s : exchange_rates.service) (w : exchange_rates.World)
    (e : error) (exr : exchange_rates.exrResponse) :
  exchange_rates.updatedAt s + ttl <= exchange_rates.now w ->
  exchange_rates.cache_Get w = inl e ->
  exchange_rates.fetchExchangeRates w = inr exr ->
  let s' :=
    exchange_rates.mkService (exchange_rates.exr_Rates exr)
      (exchange_rates.now_after_fetch w + ttl) in
  exchange_rates.updateRates cfg s w =
    (None, s',
     [exchange_rates.CacheGet (ExchangeRatesConfig.CacheKey cfg);
      exchange_rates.FetchExchangeRates;
      exchange_rates.CacheSet (ExchangeRatesConfig.CacheKey cfg)
        (RatesData.mk (exchange_rates.exr_Rates exr)
           (exchange_rates.now_after_fetch w + ttl))]).
Proof.
  intros Hold Hc Hf. unfold exchange_rates.updateRates, time_Before, time_Add.
  destruct (Z.ltb_spec (exchange_rates.now w) (exchange_rates.updatedAt s + ttl));
    [lia|].
  rewrite Hc, Hf. reflexivity.
Qed.

(** A snapshot adopted from the shared cache keeps the stamp it was stored
    with. *)
Lemma updateRates_after_adoption
    (s : exchange_rates.service) (w : exchange_rates.World)
    (data : RatesData.t) :
  exchange_rates.updatedAt s + ttl <= exchange_rates.now w ->
  exchange_rates.cache_Get w = inr data ->
  exchange_rates.updateRates cfg s w =
    (None,
     exchange_rates.mkService (RatesData.Rates data) (RatesData.UpdatedAt data),
     [exchange_rates.CacheGet (ExchangeRatesConfig.CacheKey cfg)]).
Proof.
  intros Hold Hc. unfold exchange_rates.updateRates, time_Before, time_Add.
  destruct (Z.ltb_spec (exchange_rates.now w) (exchange_rates.updatedAt s + ttl));
    [lia|].
  rewrite Hc. reflexivity.
Qed.

(** Hence a snapshot fetched at [t] is served from memory until
    [t + 2 * ttl]: the TTL is counted twice. *)
Lemma fetched_snapshot_window
    (s : exchange_rates.service) (w w' : exchange_rates.World)
    (e : error) (exr : exchange_rates.exrResponse) :
  exchange_rates.updatedAt s + ttl <= exchange_rates.now w ->
  exchange_rates.cache_Get w = inl e ->
  exchange_rates.fetchExchangeRates w = inr exr ->
  let s' := snd (fst (exchange_rates.updateRates cfg s w)) in
  snd (exchange_rates.updateRates cfg s' w') = []
  <-> exchange_rates.now w' < exchange_rates.now_after_fetch w + 2 * ttl.
Proof.
  intros Hold Hc Hf s'. subst s'.
  rewrite (updateRates_after_fetch s w e exr Hold Hc Hf).
  rewrite updateRates_in_memory_iff. simpl. lia.
Qed.

End RateServiceFacts.

(** C8, at a TTL of 60 seconds. The first call finds the shared cache empty
    and fetches from the provider at [t0]. A second call 90 seconds later,
    when the snapshot is older than the TTL, is still answered from memory:
    whatever the shared cache and the provider would say, neither is
    consulted. *)
Theorem GetRates_in_memory_past_TTL :
  let cfg := examples.rates_cfg 60 in
  let t0 := 1736000000 * Second in
  let answer :=
    exchange_rates.mkResponse "USD"
      (list_to_map [("USD", 1.0%float); ("GEL", 2.5%float)]) 1736000000 in
  let first :=
    exchange_rates.GetRates cfg exchange_rates.NewConversionService
      (exchange_rates.mkWorld t0 t0 (inl (errors_New "cache miss"))
         (inr answer) None) in
  let s1 := snd (fst first) in
  snd first =
    [exchange_rates.CacheGet "exchange_rates"; exchange_rates.FetchExchangeRates;
     exchange_rates.CacheSet "exchange_rates"
       (RatesData.mk (exchange_rates.exr_Rates answer) (t0 + 60 * Second))]
  /\ forall cache provider cache_set,
      exchange_rates.GetRates cfg s1
        (exchange_rates.mkWorld (t0 + 90 * Second) (t0 + 90 * Second)
           cache provider cache_set)
      = (Ok (RatesData.mk (exchange_rates.exr_Rates answer) (t0 + 60 * Second)),
         s1, []).
Proof.
  intros cfg t0 answer first s1. split.
  - reflexivity.
  - intros cache provider cache_set. reflexivity.
Qed.

(** ** Admission of line items *)

Section ValidationFacts.
Variable cfg : ValidationConfig.t.
Variable Sprintf_f : Decimal -> string.

Local Abbreviation Validate :=
  (validation.ValidateAddLineItemRequest cfg Sprintf_f).

(** Every rejection carries the code invalid-argument. *)
Lemma ValidateAddLineItemRequest_rejects_invalid_argument
    (req : validation.AddLineItemRequest.t) (e : error) :
  Validate req = Err e -> exists message, e = errs_Error InvalidArgument message.
Proof.
  unfold validation.ValidateAddLineItemRequest, Currency_Validate.
  repeat match goal with
         | |- context [if ?c then _ else _] => destruct c
         | |- context [match decimal.NewFromFloat ?f with _ => _ end] =>
             destruct (decimal.NewFromFloat f)
         end;
    intros [= <-] || discriminate; eexists; reflexivity.
Qed.

(** X26. With finite bounds in the configuration, a request is admitted
    exactly when each check passes; the length of the description is its
    number of bytes. *)
Lemma ValidateAddLineItemRequest_admits_iff
    (req : validation.AddLineItemRequest.t)
    (maxQuantity maxUnitPrice maxTotalAmount : Decimal) :
  decimal.NewFromFloat (ValidationConfig.MaxQuantity cfg) = Some maxQuantity ->
  decimal.NewFromFloat (ValidationConfig.MaxUnitPrice cfg) = Some maxUnitPrice ->
  decimal.NewFromFloat (ValidationConfig.MaxTotalAmount cfg) = Some maxTotalAmount ->
  Validate req = Ok tt
  <-> (validation.AddLineItemRequest.Description req <> ""
       /\ Z.of_nat (String.length (validation.AddLineItemRequest.Description req))
          <= ValidationConfig.MaxDescriptionLength cfg
       /\ validation.AddLineItemRequest.Currency req
            ∈ ValidationConfig.AllowedCurrencies cfg
       /\ decimal.LessThanOrEqual
            (validation.AddLineItemRequest.Quantity req) decimal.Zero = false
       /\ decimal.GreaterThan
            (validation.AddLineItemRequest.Quantity req) maxQuantity = false
       /\ decimal.LessThan
            (validation.AddLineItemRequest.UnitPrice req) decimal.Zero = false
       /\ decimal.GreaterThan
            (validation.AddLineItemRequest.UnitPrice req) maxUnitPrice = false
       /\ decimal.GreaterThan
            (decimal.Mul (validation.AddLineItemRequest.Quantity req)
               (validation.AddLineItemRequest.UnitPrice req))
            maxTotalAmount = false).
Proof.
  intros Hq Hp Ht.
  unfold validation.ValidateAddLineItemRequest, Currency_Validate.
  rewrite Hq, Hp, Ht.
  destruct (bool_decide_reflect (validation.AddLineItemRequest.Description req = ""));
    [split; [discriminate | tauto]|].
  destruct (Z.gtb_spec
              (Z.of_nat (String.length (validation.AddLineItemRequest.Description req)))
              (ValidationConfig.MaxDescriptionLength cfg));
    [split; [discriminate | lia]|].
  destruct (bool_decide_reflect
              (validation.AddLineItemRequest.Currency req
                 ∈ ValidationConfig.AllowedCurrencies cfg));
    [|split; [discriminate | tauto]].
  repeat match goal with
         | |- context [if ?c then _ else _] =>
             destruct c eqn:?; [split; [discriminate | intuition congruence]|]
         end.
  split; [intros _; repeat split; auto | reflexivity].
Qed.

End ValidationFacts.

(** C7, at a description of 251 accented letters, which UTF-8 spells in 502
    bytes, on an otherwise valid request under the bounds of config.cue: the
    request is rejected as longer than 500 characters, whatever the rendering
    of the other messages. *)
Theorem ValidateAddLineItemRequest_counts_bytes (Sprintf_f : Decimal -> string) :
  let req :=
    validation.AddLineItemRequest.mk examples.accented_description USD
      (decimal.mk 1 0) (decimal.mk 1000 (-2)) in
  validation.RuneCountInString examples.accented_description = 251%nat
  /\ String.length examples.accented_description = 502%nat
  /\ validation.ValidateAddLineItemRequest examples.config_cue Sprintf_f req
     = Err (errs_Error InvalidArgument
              "description cannot exceed 500 characters").
Proof.
  intros req. split; [|split]; vm_compute; reflexivity.
Qed.

(** The same request with a description of 251 plain letters is admitted. *)
Lemma ValidateAddLineItemRequest_admits_ascii (Sprintf_f : Decimal -> string) :
  validation.ValidateAddLineItemRequest examples.config_cue Sprintf_f
    (validation.AddLineItemRequest.mk (examples.repeat_string 251 "e") USD
       (decimal.mk 1 0) (decimal.mk 1000 (-2)))
  = Ok tt.
Proof. vm_compute. reflexivity. Qed.

(** ** The totals of a bill *)

Section TotalsFacts.
Context `{MoneyTable} `{MapRange}.

Local Abbreviation of_currency c := (fun i : LineItem.t => LineItem.Currency i = c).

Lemma foldl_addToCurrency_lookup
    (items : list LineItem.t) (m : gmap string Decimal) (c : string) :
  foldl addToCurrency m items !! c =
    match filter (of_currency c) items with
    | [] => m !! c
    | l => Some (foldl decimal.Add (default decimal.zero_value (m !! c))
                   (map lineTotal l))
    end.
Proof.
  revert m. induction items as [|i items IH]; intros m; simpl.
  - reflexivity.
  - rewrite IH, filter_cons. unfold addToCurrency.
    destruct (decide (LineItem.Currency i = c)) as [Heq|Hne].
    + rewrite Heq, lookup_insert_eq. simpl.
      destruct (filter (of_currency c) items); reflexivity.
    + rewrite lookup_insert_ne by assumption. reflexivity.
Qed.

Lemma filter_currency_nil (items : list LineItem.t) (c : string) :
  filter (of_currency c) items = [] <-> ~ c ∈ map LineItem.Currency items.
Proof.
  induction items as [|i items IH]; simpl.
  - split; [intros _; apply not_elem_of_nil | reflexivity].
  - rewrite filter_cons, not_elem_of_cons.
    destruct (decide (LineItem.Currency i = c)) as [Heq|Hne].
    + split; [discriminate | intros [Hc _]; congruence].
    + rewrite IH. split; [intros Hn; split; [congruence | exact Hn] | tauto].
Qed.

(** [ByCurrency] holds, for each currency of the bill and no other, the sum
    of its line totals. *)
Lemma byCurrency_lookup (items : list LineItem.t) (c : string) :
  byCurrency items !! c =
    if bool_decide (c ∈ map LineItem.Currency items)
    then Some (totals.subtotal c items) else None.
Proof.
  unfold byCurrency, totals.subtotal.
  rewrite foldl_addToCurrency_lookup, lookup_empty. simpl.
  destruct (bool_decide_reflect (c ∈ map LineItem.Currency items)) as [Hin|Hout].
  - destruct (filter (of_currency c) items) eqn:Hf; [|reflexivity].
    apply filter_currency_nil in Hf. contradiction.
  - apply filter_currency_nil in Hout. now rewrite Hout.
Qed.

(** Storing the line totals in the items does not change the sums. *)
Lemma foldl_addToCurrency_with_Total
    (items : list LineItem.t) (m : gmap string Decimal) :
  foldl addToCurrency m
    (map (fun item => LineItem.with_Total (lineTotal item) item) items)
  = foldl addToCurrency m items.
Proof.
  revert m. induction items as [|i items IH]; intros m; simpl; [reflexivity|].
  apply IH.
Qed.

Lemma elem_of_currencies (items : list LineItem.t) (c : string) :
  c ∈ totals.currencies items <-> c ∈ map LineItem.Currency items.
Proof. unfold totals.currencies. apply elem_of_remove_dups. Qed.

(** The entries that [range] yields are the currencies of the bill with
    their subtotals, in some order. *)
Lemma byCurrency_entries (items : list LineItem.t) :
  map_to_list (byCurrency items)
  ≡ₚ map (fun c => (c, totals.subtotal c items)) (totals.currencies items).
Proof.
  apply NoDup_Permutation.
  - apply NoDup_map_to_list.
  - apply NoDup_fmap_2; [intros c1 c2 [= ->]; reflexivity|].
    apply NoDup_remove_dups.
  - intros [c a]. split.
    + intros Hin. apply elem_of_map_to_list in Hin.
      rewrite byCurrency_lookup in Hin.
      destruct (bool_decide_reflect (c ∈ map LineItem.Currency items)) as [Hc|Hc];
        [|discriminate].
      injection Hin as <-. apply list_elem_of_fmap. exists c.
      split; [reflexivity|]. now apply elem_of_currencies.
    + intros Hin. apply list_elem_of_fmap in Hin as [c' [[= <- ->] Hc]].
      apply elem_of_map_to_list. rewrite byCurrency_lookup.
      apply elem_of_currencies in Hc. now rewrite bool_decide_true.
Qed.

(** *** One conversion *)




Lemma convertible_elim (rates : RatesData.t) (items : list LineItem.t)
    (c o : string) :
  totals.convertible rates items = true ->
  c ∈ totals.currencies items ->
  o ∈ totals.currencies items ->
  o <> c ->
  is_Some (GetCurrencyFraction c) /\ totals.quotientFinite rates c o = true.
Proof.
  unfold totals.convertible. intros Hall Hc Ho Hne.
  rewrite List.forallb_forall in Hall.
  apply list_elem_of_In, Hall in Hc.
  rewrite List.forallb_forall in Hc.
  apply list_elem_of_In, Hc, orb_true_iff in Ho as [Heq|Hok].
  - apply bool_decide_eq_true in Heq. contradiction.
  - apply andb_true_iff in Hok as [Hf Hq].
    apply bool_decide_eq_true in Hf. auto.
Qed.

(** Between two currencies of a convertible bill a conversion does not
    panic: it yields the rounded product when both rates are there. *)
Lemma convert_convertible (rates : RatesData.t) (items : list LineItem.t)
    (c o : string) (a : Decimal) :
  totals.convertible rates items = true ->
  c ∈ totals.currencies items ->
  o ∈ totals.currencies items ->
  o <> c ->
  is_Some (RatesData.Rates rates !! o) ->
  is_Some (RatesData.Rates rates !! c) ->
  convert rates c o a =
    Ok (decimal.Round (decimal.Mul a (totals.rateFactor rates c o))
          (totals.fractionOf c)).
Proof.
  intros Hconv Hc Ho Hne [fromX Hfrom] [toX Hto].
  destruct (convertible_elim rates items c o Hconv Hc Ho Hne) as [[fr Hfr] Hq].
  unfold totals.quotientFinite in Hq. rewrite Hto, Hfrom in Hq.
  apply bool_decide_eq_true in Hq as [f Hf].
  unfold convert, totals.rateFactor, totals.fractionOf.
  now rewrite Hfrom, Hto, Hf, Hfr.
Qed.


(** *** The inner loop *)

Lemma convertedSum_Ok (rates : RatesData.t) (c : string)
    (term : string -> Decimal -> Decimal) (l : list (string * Decimal)) :
  (forall o a, (o, a) ∈ l -> o <> c -> convert rates c o a = Ok (term o a)) ->
  forall sum,
    convertedSum rates c sum l =
      Ok (foldl decimal.Add sum
            (map (fun p => term p.1 p.2) (filter (fun p => p.1 <> c) l))).
Proof.
  induction l as [|[o a] l IH]; intros Hl sum; simpl; [reflexivity|].
  rewrite filter_cons. simpl.
  destruct (decide (o = c)) as [->|Hne].
  - destruct (decide (c <> c)); [congruence|].
    apply IH. intros o' a' Hin. apply Hl. now right.
  - destruct (decide (o <> c)); [|contradiction].
    rewrite (Hl o a) by (auto; left). simpl.
    apply IH. intros o' a' Hin. apply Hl. now right.
Qed.






(** Go leaves the order of [range] over a map open. When the conversions
    succeed, the sum is the same for every order of the entries. *)
Lemma convertedSum_Permutation (rates : RatesData.t) (c : string)
    (term : string -> Decimal -> Decimal) (l l' : list (string * Decimal))
    (sum : Decimal) :
  (forall o a, (o, a) ∈ l -> o <> c -> convert rates c o a = Ok (term o a)) ->
  l ≡ₚ l' ->
  convertedSum rates c sum l' = convertedSum rates c sum l.
Proof.
  intros Hl Hperm.
  rewrite (convertedSum_Ok rates c term l Hl).
  rewrite (convertedSum_Ok rates c term l').
  - f_equal. apply foldl_Add_Permutation.
    apply fmap_Permutation, filter_Permutation. now symmetry.
  - intros o a Hin. apply Hl. now rewrite Hperm.
Qed.

(** *** The outer loop *)

Lemma convertAll_Ok (rates : RatesData.t) (by_currency : gmap string Decimal)
    (amount : string -> Decimal) (entries : list (string * Decimal)) :
  (forall c a, (c, a) ∈ entries ->
     convertedSum rates c a (range_inner c by_currency) = Ok (amount c)) ->
  forall acc, exists m,
    convertAll rates by_currency entries acc = Ok m
    /\ forall k,
        m !! k =
          if bool_decide (k ∈ entries.*1)
          then Some (Converted.mk (amount k) (RatesData.UpdatedAt rates))
          else acc !! k.
Proof.
  induction entries as [|[c a] entries IH]; intros Hl acc; cbn [convertAll].
  - exists acc. split; [reflexivity|]. intros k.
    rewrite bool_decide_false by apply not_elem_of_nil. reflexivity.
  - rewrite (Hl c a) by left. rewrite fmap_cons. cbn [fst].
    destruct (IH (fun c' a' Hin => Hl c' a' (list_elem_of_further _ _ _ Hin))
                (<[c:=Converted.mk (amount c) (RatesData.UpdatedAt rates)]> acc))
      as [m [Hm Hk]].
    exists m. split; [exact Hm|]. intros k. rewrite Hk.
    destruct (bool_decide_reflect (k ∈ entries.*1)) as [Hin|Hout].
    + rewrite bool_decide_true by now right. reflexivity.
    + destruct (decide (k = c)) as [->|Hne].
      * rewrite bool_decide_true by left. apply lookup_insert_eq.
      * rewrite bool_decide_false by (rewrite not_elem_of_cons; auto).
        now apply lookup_insert_ne.
Qed.





(** *** [CalculateSum] *)

Lemma CalculateSum_nonempty (b : Bill.t) (rates : RatesData.t) :
  Bill.LineItems b <> [] ->
  let by_currency := byCurrency (Bill.LineItems b) in
  CalculateSum b rates =
    match convertAll rates by_currency (range_outer by_currency) ∅ with
    | Ok converted =>
        Ok (Bill.with_Total (Some (Total.mk by_currency converted))
              (Bill.with_LineItems
                 (map (fun item => LineItem.with_Total (lineTotal item) item)
                    (Bill.LineItems b)) b))
    | Err e => Err e
    | Panic => Panic
    end.
Proof.
  intros Hne. unfold CalculateSum.
  destruct (Bill.LineItems b) as [|i items] eqn:Hitems; [contradiction|].
  unfold byCurrency. rewrite foldl_addToCurrency_with_Total. reflexivity.
Qed.

Lemma elem_of_entries (items : list LineItem.t) (c : string) (a : Decimal) :
  (c, a) ∈ map_to_list (byCurrency items)
  <-> c ∈ totals.currencies items /\ a = totals.subtotal c items.
Proof.
  rewrite elem_of_map_to_list, byCurrency_lookup, elem_of_currencies.
  destruct (bool_decide_reflect (c ∈ map LineItem.Currency items)).
  - split; [intros [= <-]; auto | intros [_ ->]; reflexivity].
  - split; [discriminate | tauto].
Qed.

(** Whatever the order, the loops visit the currencies of the bill with
    their subtotals. *)
Lemma elem_of_range_outer (items : list LineItem.t) (c : string) (a : Decimal) :
  (c, a) ∈ range_outer (byCurrency items)
  <-> c ∈ totals.currencies items /\ a = totals.subtotal c items.
Proof. rewrite range_outer_entries. apply elem_of_entries. Qed.



Lemma item_of_currency (items : list LineItem.t) (c : string) :
  c ∈ totals.currencies items ->
  exists i, i ∈ items /\ LineItem.Currency i = c.
Proof.
  intros Hin. apply elem_of_currencies, list_elem_of_fmap in Hin as [i [-> Hi]].
  eauto.
Qed.

Lemma filter_map_pairs (f : string -> Decimal) (g : string -> Decimal -> Decimal)
    (c : string) (l : list string) :
  map (fun p : string * Decimal => g p.1 p.2)
    (filter (fun p : string * Decimal => p.1 <> c) (map (fun o => (o, f o)) l))
  = map (fun o => g o (f o)) (filter (fun o => o <> c) l).
Proof.
  induction l as [|o l IH]; [reflexivity|]. cbn [map].
  rewrite !filter_cons. simpl.
  destruct (decide (o <> c)); simpl; now rewrite IH.
Qed.

(** On a convertible bill whose currencies all have a rate, the inner loop
    for a currency yields the amended amount, in whatever order the entries
    come. *)
Lemma convertedSum_amount (rates : RatesData.t) (items : list LineItem.t)
    (c : string) (l : list (string * Decimal)) :
  (forall i, i ∈ items -> is_Some (RatesData.Rates rates !! LineItem.Currency i)) ->
  totals.convertible rates items = true ->
  c ∈ totals.currencies items ->
  l ≡ₚ map_to_list (byCurrency items) ->
  convertedSum rates c (totals.subtotal c items) l
  = Ok (totals.convertedAmount rates items c).
Proof.
  intros Hrates Hconv Hc Hl.
  set (term := fun (o : string) (a : Decimal) =>
                 decimal.Round (decimal.Mul a (totals.rateFactor rates c o))
                   (totals.fractionOf c)).
  assert (Hpresent : forall o, o ∈ totals.currencies items ->
                               is_Some (RatesData.Rates rates !! o)).
  { intros o Ho. apply item_of_currency in Ho as [i [Hi <-]]. auto. }
  assert (Hterm : forall o a,
             (o, a) ∈ map (fun o => (o, totals.subtotal o items))
                        (totals.currencies items) ->
             o <> c -> convert rates c o a = Ok (term o a)).
  { intros o a Hin Hoc. apply list_elem_of_fmap in Hin as [o' [[= <- ->] Ho]].
    apply (convert_convertible rates items); auto. }
  rewrite (convertedSum_Permutation rates c term _ _ _ Hterm)
    by (symmetry; rewrite Hl; apply byCurrency_entries).
  rewrite (convertedSum_Ok rates c term _ Hterm).
  unfold totals.convertedAmount. do 2 f_equal.
  apply (filter_map_pairs (fun o => totals.subtotal o items) term).
Qed.

Lemma elem_of_range_outer_keys (items : list LineItem.t) (c : string) :
  c ∈ (range_outer (byCurrency items)).*1 <-> c ∈ totals.currencies items.
Proof.
  rewrite list_elem_of_fmap. split.
  - intros [[c' a] [-> Hin]]. now apply elem_of_range_outer in Hin as [Hc _].
  - intros Hc. exists (c, totals.subtotal c items). split; [reflexivity|].
    now apply elem_of_range_outer.
Qed.

(** C2, amended. For a bill with at least one line item and a snapshot that
    has a rate for every currency of the bill (and with which no conversion
    panics), [CalculateSum] succeeds, and for each currency C present:
    [by_currency[C]] is the sum of quantity times unit price over the items of
    C, and [converted[C].amount] is [by_currency[C]] itself, not rounded, plus
    for every other currency C' present [by_currency[C']] times the decimal
    of the float64 quotient [rate[C] / rate[C']], each such product rounded
    to the fractional digits of C; the entry carries the timestamp of the
    snapshot. Currencies that are not in the bill have no entry. This holds
    for every order in which the two loops may visit the map. *)
Theorem CalculateSum_totals (b : Bill.t) (rates : RatesData.t) :
  Bill.LineItems b <> [] ->
  (forall i, i ∈ Bill.LineItems b ->
             is_Some (RatesData.Rates rates !! LineItem.Currency i)) ->
  totals.convertible rates (Bill.LineItems b) = true ->
  exists b' tot,
    CalculateSum b rates = Ok b'
    /\ Bill.Total b' = Some tot
    /\ forall c,
        Total.ByCurrency tot !! c =
          (if bool_decide (c ∈ totals.currencies (Bill.LineItems b))
           then Some (totals.subtotal c (Bill.LineItems b)) else None)
        /\ Total.Converted tot !! c =
          (if bool_decide (c ∈ totals.currencies (Bill.LineItems b))
           then Some (Converted.mk
                        (totals.convertedAmount rates (Bill.LineItems b) c)
                        (RatesData.UpdatedAt rates))
           else None).
Proof.
  intros Hne Hrates Hconv. rewrite (CalculateSum_nonempty b rates Hne).
  set (items := Bill.LineItems b) in *. cbv zeta.
  destruct (convertAll_Ok rates (byCurrency items)
              (totals.convertedAmount rates items)
              (range_outer (byCurrency items)))
    with (acc := (∅ : gmap string Converted.t)) as [m [Hm Hk]].
  { intros c a Hin. apply elem_of_range_outer in Hin as [Hc ->].
    apply convertedSum_amount; auto. apply range_inner_entries. }
  rewrite Hm. eexists _, _. split; [reflexivity|]. split; [reflexivity|].
  intros c. cbn [Total.ByCurrency Total.Converted]. split.
  - rewrite byCurrency_lookup.
    apply (f_equal (fun x : bool => if x then _ else _)).
    apply bool_decide_ext. symmetry. apply elem_of_currencies.
  - rewrite Hk, lookup_empty.
    apply (f_equal (fun x : bool => if x then _ else _)).
    apply bool_decide_ext, elem_of_range_outer_keys.
Qed.


End TotalsFacts.

(** The scenario of the specification: items [{1, 10.00, USD}] and
    [{2, 5.00, GEL}] under the rates [{USD: 1.0, GEL: 2.5}] give 10 and 10 by
    currency, 14.00 converted to USD and 35.00 converted to GEL. *)
Lemma CalculateSum_multi_currency_scenario :
  let r := @CalculateSum examples.usd_gel_table examples.map_to_list_order examples.two_currency_bill
             examples.usd_gel_rates in
  totals.byCurrencyOf r USD = Some (decimal.mk 1000 (-2))
  /\ totals.byCurrencyOf r GEL = Some (decimal.mk 1000 (-2))
  /\ totals.convertedOf r USD = Some (decimal.mk 1400 (-2))
  /\ totals.convertedOf r GEL = Some (decimal.mk 3500 (-2)).
Proof. vm_compute. repeat split. Qed.

(** The amended totals at the scenario of the specification. *)
Lemma CalculateSum_totals_witness :
  exists b' tot,
    @CalculateSum examples.usd_gel_table examples.map_to_list_order examples.two_currency_bill
      examples.usd_gel_rates = Ok b'
    /\ Bill.Total b' = Some tot
    /\ forall c,
        Total.ByCurrency tot !! c =
          (if bool_decide
                (c ∈ totals.currencies (Bill.LineItems examples.two_currency_bill))
           then Some (totals.subtotal c
                        (Bill.LineItems examples.two_currency_bill))
           else None)
        /\ Total.Converted tot !! c =
          (if bool_decide
                (c ∈ totals.currencies (Bill.LineItems examples.two_currency_bill))
           then Some (Converted.mk
                        (@totals.convertedAmount examples.usd_gel_table
                           examples.usd_gel_rates
                           (Bill.LineItems examples.two_currency_bill) c)
                        (RatesData.UpdatedAt examples.usd_gel_rates))
           else None).
Proof.
  apply (@CalculateSum_totals examples.usd_gel_table examples.map_to_list_order).
  - discriminate.
  - intros i Hi. apply Forall_forall with (x := i) (l := Bill.LineItems examples.two_currency_bill);
      [|exact Hi].
    repeat constructor; vm_compute; eauto.
  - vm_compute. reflexivity.
Defined.

(** C2 as worded fails on one line item of 2.5 units at 3.33 USD, under a
    snapshot that has the rate of USD: the converted amount is 8.325, the
    subtotal itself, whereas the worded sum rounded to the two fractional
    digits of USD is 8.33, under either reading of the rounding. It also
    fails on the two-currency bill under a snapshot whose rate for GEL is
    zero: both rates are there, the float64 quotient 1.0 / 0 is infinite,
    and [decimal.NewFromFloat] panics on it, so no totals are computed. *)
Lemma CalculateSum_own_subtotal_not_rounded :
  let rates := examples.rates_of [("USD", 1.0%float)] 1736000000000000000 in
  let items := Bill.LineItems examples.fractional_bill in
  let r := @CalculateSum examples.usd_gel_table examples.map_to_list_order examples.fractional_bill rates in
  map (fun i => RatesData.Rates rates !! LineItem.Currency i) items
    = [Some 1.0%float]
  /\ totals.convertedOf r USD = Some (decimal.mk 8325 (-3))
  /\ @totals.claimedAmount examples.usd_gel_table rates items USD
     = decimal.mk 833 (-2)
  /\ @totals.claimedAmountPerTerm examples.usd_gel_table rates items USD
     = decimal.mk 833 (-2)
  /\ decimal.Equal (decimal.mk 8325 (-3)) (decimal.mk 833 (-2)) = false
  /\ map (fun i => RatesData.Rates examples.zero_gel_rates !! LineItem.Currency i)
       (Bill.LineItems examples.two_currency_bill)
     = [Some 1.0%float; Some 0%float]
  /\ @CalculateSum examples.usd_gel_table examples.map_to_list_order examples.two_currency_bill
       examples.zero_gel_rates = Panic.
Proof. vm_compute. repeat split. Qed.



(** What [get_bill] returns in that case: the error, and no bill. *)
Lemma GetBillByID_currency_not_found `{MoneyTable} `{MapRange}
    (env : service.Env) (prefix : string) (id : UUID) (h : list service.Call)
    (resp : service.EncodedValue) (bill : Bill.t) (rates : RatesData.t) :
  service.env_QueryWorkflow env h (prefix +:+ uuid_String id)
    workflow.GetBillQuery = inr resp ->
  service.Get resp = inr bill ->
  service.env_GetRates env
    (h ++ [service.QueryWorkflow (prefix +:+ uuid_String id)
             workflow.GetBillQuery]) = inr rates ->
  CalculateSum bill rates = Err ErrCurrencyNotFound ->
  fst (service.GetBillByID env prefix id h) = Err ErrCurrencyNotFound.
Proof.
  intros Hq Hd Hr Hsum.
  rewrite (GetBillByID_uses_machine env prefix id h resp bill Hq Hd).
  unfold service.calculateSum. rewrite Hr. exact Hsum.
Qed.

(** So the bill that [CloseBill] hands back for a closed bill carries the
    status and the [closed_at] of the machine's answer. *)
Lemma CloseBill_keeps_closed_at `{MoneyTable} `{MapRange}
    (env : service.Env) (prefix : string) (id : UUID) (h : list service.Call)
    (resp : service.EncodedValue) (answer bill : Bill.t)
    (h' : list service.Call) :
  service.env_QueryWorkflow env h (prefix +:+ uuid_String id)
    workflow.GetBillQuery = inr resp ->
  service.Get resp = inr answer ->
  Bill.IsClosed answer = true ->
  service.CloseBill env prefix id h = (Ok bill, h') ->
  Bill.Status bill = BillStatusClosed
  /\ Bill.ClosedAt bill = Bill.ClosedAt answer
  /\ forallb (fun c => negb (service.is_signal c)) (drop (length h) h') = true.
Proof.
  intros Hq Hd Hclosed Hclose.
  pose proof (GetBillByID_uses_machine env prefix id h resp answer Hq Hd) as Hget.
  unfold service.CloseBill in Hclose. rewrite Hget in Hclose.
  unfold service.calculateSum in Hclose, Hget.
  destruct (service.env_GetRates env _) as [err|rates]; [discriminate|].
  destruct (CalculateSum answer rates) as [b1| |] eqn:Hsum; try discriminate.
  destruct (CalculateSum_frame answer b1 rates Hsum)
    as (_ & _ & Hst & _ & _ & _ & _ & _ & Hca & _).
  assert (Hc1 : Bill.IsClosed b1 = true).
  { apply IsClosed_true. rewrite Hst. now apply IsClosed_true. }
  rewrite Hc1 in Hclose. injection Hclose as <- <-.
  split; [now apply IsClosed_true|]. split; [exact Hca|].
  rewrite <- app_assoc, drop_app_length. reflexivity.
Qed.

(** ** Scenarios of the machine *)

(** Add, close, add: the second item appears neither in the bill that the
    query returns nor among the persisted items. *)
Lemma scenario_add_after_close :
  let first := examples.item "i-1" USD (decimal.mk 2 0) (decimal.mk 1000 (-2)) in
  let second := examples.item "i-2" USD (decimal.mk 1 0) (decimal.mk 500 (-2)) in
  exists m,
    workflow.CreateBill examples.activities_succeed (examples.open_bill []) 0
      [workflow.LineItemSignalData first; workflow.CloseBillSignalData 5;
       workflow.LineItemSignalData second] = Ok m
    /\ Bill.LineItems (workflow.bill m) = [first]
    /\ Bill.Status (workflow.bill m) = BillStatusClosed
    /\ Bill.ClosedAt (workflow.bill m) = Some 5
    /\ workflow.activities m =
         [workflow.SaveBill (examples.open_bill []);
          workflow.AddLineItemToBill first; workflow.CloseBill "b-1" 5].
Proof. intros first second. eexists. vm_compute. repeat split. Qed.

(** No close signal: when the timer fires at machine time [t], the bill is
    closed with [closed_at = t]. *)
Lemma scenario_timer_closure (t : Time) :
  exists m,
    workflow.CreateBill examples.activities_succeed (examples.open_bill []) 0
      [workflow.PeriodEndTimer t] = Ok m
    /\ Bill.Status (workflow.bill m) = BillStatusClosed
    /\ Bill.ClosedAt (workflow.bill m) = Some t
    /\ workflow.activities m =
         [workflow.SaveBill (examples.open_bill []); workflow.CloseBill "b-1" t].
Proof. eexists. repeat split. Qed.

(** The scenario of the specification under another order of the outer
    loop: the same bill comes back. *)
Lemma CalculateSum_scenario_reverse_order :
  @CalculateSum examples.usd_gel_table examples.reverse_order
    examples.two_currency_bill examples.usd_gel_rates
  = @CalculateSum examples.usd_gel_table examples.map_to_list_order
      examples.two_currency_bill examples.usd_gel_rates.
Proof. vm_compute. reflexivity. Qed.

(** * Further properties of the code *)

(** ** A whole run of the machine *)

Section WorkflowRuns.
Variable ExecuteActivity :
  list workflow.Activity -> workflow.Activity -> option error.

Local Abbreviation Select := (workflow.Select ExecuteActivity).
Local Abbreviation loop := (workflow.loop ExecuteActivity).
Local Abbreviation CreateBill := (workflow.CreateBill ExecuteActivity).

Lemma with_LineItems_same (b : Bill.t) :
  Bill.with_LineItems (Bill.LineItems b) b = b.
Proof. now destruct b. Qed.

(** Line items delivered to an open machine are taken in their order. *)
Lemma loop_line_items (m : workflow.Machine) (items : list LineItem.t) :
  Bill.IsClosed (workflow.bill m) = false ->
  loop m (map workflow.LineItemSignalData items) =
    workflow.mkMachine
      (Bill.with_LineItems (Bill.LineItems (workflow.bill m) ++ items)
         (workflow.bill m))
      (workflow.timer m)
      (workflow.activities m ++ map workflow.AddLineItemToBill items).
Proof.
  revert m. induction items as [|i items IH]; intros m Hc.
  - simpl. rewrite Hc, !app_nil_r, with_LineItems_same. now destruct m.
  - cbn [map workflow.loop]. rewrite Hc. cbn [workflow.Select].
    unfold workflow.onAddLineItem. rewrite (AddLineItem_not_closed _ _ Hc).
    cbn [negb]. unfold workflow.execute. cbn [workflow.bill workflow.timer
      workflow.activities]. rewrite IH by exact Hc.
    cbn [workflow.bill workflow.timer workflow.activities].
    unfold Bill.with_LineItems. cbn. now rewrite <- !app_assoc.
Qed.

(** One selection leaves every field of the bill but its status, its
    [closed_at] and its line items, and leaves the timer. *)
Lemma Select_frame (m : workflow.Machine) (s : workflow.Stimulus) :
  let b := workflow.bill m in
  let b' := workflow.bill (Select m s) in
  Bill.ID b' = Bill.ID b /\ Bill.CustomerID b' = Bill.CustomerID b
  /\ Bill.PeriodStart b' = Bill.PeriodStart b
  /\ Bill.PeriodEnd b' = Bill.PeriodEnd b
  /\ Bill.WorkflowID b' = Bill.WorkflowID b
  /\ Bill.CreatedAt b' = Bill.CreatedAt b
  /\ Bill.UpdatedAt b' = Bill.UpdatedAt b
  /\ Bill.Total b' = Bill.Total b
  /\ workflow.timer (Select m s) = workflow.timer m.
Proof.
  destruct s; cbn [workflow.Select];
    unfold workflow.onAddLineItem, workflow.closeBill, Bill.AddLineItem,
      Bill.Close;
    destruct (Bill.IsClosed (workflow.bill m)); cbn; repeat split.
Qed.

Lemma loop_frame (stimuli : list workflow.Stimulus) (m : workflow.Machine) :
  let b := workflow.bill m in
  let b' := workflow.bill (loop m stimuli) in
  Bill.ID b' = Bill.ID b /\ Bill.CustomerID b' = Bill.CustomerID b
  /\ Bill.PeriodStart b' = Bill.PeriodStart b
  /\ Bill.PeriodEnd b' = Bill.PeriodEnd b
  /\ Bill.WorkflowID b' = Bill.WorkflowID b
  /\ Bill.CreatedAt b' = Bill.CreatedAt b
  /\ Bill.UpdatedAt b' = Bill.UpdatedAt b
  /\ Bill.Total b' = Bill.Total b
  /\ workflow.timer (loop m stimuli) = workflow.timer m.
Proof.
  revert m. induction stimuli as [|s rest IH]; intros m; cbn zeta.
  - simpl. destruct (Bill.IsClosed (workflow.bill m)); repeat split.
  - simpl. destruct (Bill.IsClosed (workflow.bill m)); [repeat split|].
    specialize (IH (Select m s)). cbn zeta in IH.
    pose proof (Select_frame m s) as Hs. cbn zeta in Hs.
    intuition congruence.
Qed.

(** What a run of an open machine leaves: the line items it took, each
    with its activity, then at most one close. *)
Lemma loop_trace (stimuli : list workflow.Stimulus) (m : workflow.Machine) :
  Bill.IsClosed (workflow.bill m) = false ->
  exists items,
    Bill.LineItems (workflow.bill (loop m stimuli))
      = Bill.LineItems (workflow.bill m) ++ items
    /\ ((Bill.IsClosed (workflow.bill (loop m stimuli)) = false
         /\ Bill.ClosedAt (workflow.bill (loop m stimuli))
            = Bill.ClosedAt (workflow.bill m)
         /\ workflow.activities (loop m stimuli)
            = workflow.activities m ++ map workflow.AddLineItemToBill items)
        \/ exists t,
            Bill.IsClosed (workflow.bill (loop m stimuli)) = true
            /\ Bill.ClosedAt (workflow.bill (loop m stimuli)) = Some t
            /\ workflow.activities (loop m stimuli)
               = workflow.activities m ++ map workflow.AddLineItemToBill items
                   ++ [workflow.CloseBill (Bill.ID (workflow.bill m)) t]).
Proof.
  revert m. induction stimuli as [|s rest IH]; intros m Hc.
  - exists []. simpl. rewrite Hc, !app_nil_r. auto.
  - cbn [workflow.loop]. rewrite Hc.
    assert (Hclose : forall t,
      Select m s = workflow.closeBill ExecuteActivity m t ->
      exists items,
        Bill.LineItems (workflow.bill (loop (Select m s) rest))
          = Bill.LineItems (workflow.bill m) ++ items
        /\ ((Bill.IsClosed (workflow.bill (loop (Select m s) rest)) = false
             /\ Bill.ClosedAt (workflow.bill (loop (Select m s) rest))
                = Bill.ClosedAt (workflow.bill m)
             /\ workflow.activities (loop (Select m s) rest)
                = workflow.activities m ++ map workflow.AddLineItemToBill items)
            \/ exists t,
                Bill.IsClosed (workflow.bill (loop (Select m s) rest)) = true
                /\ Bill.ClosedAt (workflow.bill (loop (Select m s) rest)) = Some t
                /\ workflow.activities (loop (Select m s) rest)
                   = workflow.activities m
                       ++ map workflow.AddLineItemToBill items
                       ++ [workflow.CloseBill (Bill.ID (workflow.bill m)) t])).
    { intros t ->. rewrite (closeBill_not_closed ExecuteActivity m t Hc).
      rewrite loop_closed by reflexivity.
      exists []. cbn. rewrite app_nil_r. split; [reflexivity|].
      right. exists t. auto. }
    destruct s as [li|t|t]; [|now apply (Hclose t)..].
    cbn [workflow.Select].
    destruct (onAddLineItem_not_closed ExecuteActivity m li Hc) as [Hli Hact].
    assert (Hc' : Bill.IsClosed
                    (workflow.bill (workflow.onAddLineItem ExecuteActivity m li))
                  = false).
    { unfold workflow.onAddLineItem. rewrite (AddLineItem_not_closed _ _ Hc).
      cbn. exact Hc. }
    assert (Hca : Bill.ClosedAt
                    (workflow.bill (workflow.onAddLineItem ExecuteActivity m li))
                  = Bill.ClosedAt (workflow.bill m)).
    { unfold workflow.onAddLineItem. rewrite (AddLineItem_not_closed _ _ Hc).
      reflexivity. }
    pose proof (Select_frame m (workflow.LineItemSignalData li)) as Hf.
    cbn zeta in Hf. cbn [workflow.Select] in Hf. destruct Hf as [Hid _].
    destruct (IH _ Hc') as [items [Hitems Hrest]].
    exists (li :: items). rewrite Hitems, Hli, <- app_assoc. split; [reflexivity|].
    rewrite Hid, Hca, Hact in Hrest. cbn [map].
    destruct Hrest as [[H1 [H2 H3]]|[t [H1 [H2 H3]]]].
    + left. rewrite H3, <- app_assoc. auto.
    + right. exists t. rewrite H3, <- !app_assoc. auto.
Qed.

(** X1. A run of the workflow that is delivered line items and then a close
    request, by signal or by timer, ends closed at the time of that request
    with exactly those items, in their order of delivery; its activities are
    [SaveBill], one [AddLineItemToBill] per item in the same order, and one
    [CloseBill]. What is delivered after the close request, and what the
    activities after [SaveBill] report, has no effect. *)
Theorem CreateBill_first_close_wins
    (input : Bill.t) (now t : Time) (items : list LineItem.t)
    (c : workflow.Stimulus) (rest : list workflow.Stimulus) :
  ExecuteActivity [] (workflow.SaveBill input) = None ->
  Bill.IsClosed input = false ->
  c = workflow.CloseBillSignalData t \/ c = workflow.PeriodEndTimer t ->
  CreateBill input now (map workflow.LineItemSignalData items ++ c :: rest) =
    Ok (workflow.mkMachine
          (Bill.with_ClosedAt (Some t)
             (Bill.with_Status BillStatusClosed
                (Bill.with_LineItems (Bill.LineItems input ++ items) input)))
          (Some (workflow.timerDuration input now))
          (workflow.SaveBill input
             :: map workflow.AddLineItemToBill items
             ++ [workflow.CloseBill (Bill.ID input) t])).
Proof.
  intros Hsave Hc Hkind. unfold workflow.CreateBill, workflow.start.
  rewrite Hsave. f_equal. rewrite loop_app, loop_line_items by exact Hc.
  cbn [workflow.bill workflow.timer workflow.activities].
  cbn [workflow.loop]. replace (Bill.IsClosed _) with false by (symmetry; exact Hc).
  assert (Hsel : forall m, Select m c = workflow.closeBill ExecuteActivity m t).
  { intros m. now destruct Hkind as [-> | ->]. }
  rewrite Hsel, closeBill_not_closed by exact Hc.
  now rewrite loop_closed.
Qed.

(** X2. Whatever is delivered to a workflow started on a bill that is not
    closed, the line items it holds are those of the input followed by the
    items it took, its activities are [SaveBill], then one
    [AddLineItemToBill] per item taken, in the same order, and then, exactly
    when the bill is closed, a single [CloseBill] with the identifier of
    the bill and its [closed_at]. *)
Theorem CreateBill_trace
    (input : Bill.t) (now : Time) (stimuli : list workflow.Stimulus)
    (m : workflow.Machine) :
  Bill.IsClosed input = false ->
  CreateBill input now stimuli = Ok m ->
  exists items,
    Bill.LineItems (workflow.bill m) = Bill.LineItems input ++ items
    /\ ((Bill.IsClosed (workflow.bill m) = false
         /\ Bill.ClosedAt (workflow.bill m) = Bill.ClosedAt input
         /\ workflow.activities m
            = workflow.SaveBill input :: map workflow.AddLineItemToBill items)
        \/ exists t,
            Bill.IsClosed (workflow.bill m) = true
            /\ Bill.ClosedAt (workflow.bill m) = Some t
            /\ workflow.activities m
               = workflow.SaveBill input
                   :: map workflow.AddLineItemToBill items
                   ++ [workflow.CloseBill (Bill.ID input) t]).
Proof.
  intros Hc. unfold workflow.CreateBill, workflow.start.
  destruct (ExecuteActivity [] (workflow.SaveBill input)); [discriminate|].
  intros [= <-].
  exact (loop_trace stimuli
           (workflow.mkMachine input (Some (workflow.timerDuration input now))
              [workflow.SaveBill input]) Hc).
Qed.

(** X3. A run of the workflow never changes the identifier, the customer,
    the period, the workflow identifier, the creation and update times or
    the totals of its bill, and never re-arms the timer. *)
Theorem CreateBill_frame
    (input : Bill.t) (now : Time) (stimuli : list workflow.Stimulus)
    (m : workflow.Machine) :
  CreateBill input now stimuli = Ok m ->
  Bill.ID (workflow.bill m) = Bill.ID input
  /\ Bill.CustomerID (workflow.bill m) = Bill.CustomerID input
  /\ Bill.PeriodStart (workflow.bill m) = Bill.PeriodStart input
  /\ Bill.PeriodEnd (workflow.bill m) = Bill.PeriodEnd input
  /\ Bill.WorkflowID (workflow.bill m) = Bill.WorkflowID input
  /\ Bill.CreatedAt (workflow.bill m) = Bill.CreatedAt input
  /\ Bill.UpdatedAt (workflow.bill m) = Bill.UpdatedAt input
  /\ Bill.Total (workflow.bill m) = Bill.Total input
  /\ workflow.timer m = Some (workflow.timerDuration input now).
Proof.
  unfold workflow.CreateBill, workflow.start.
  destruct (ExecuteActivity [] (workflow.SaveBill input)); [discriminate|].
  intros [= <-].
  exact (loop_frame stimuli
           (workflow.mkMachine input (Some (workflow.timerDuration input now))
              [workflow.SaveBill input])).
Qed.

End WorkflowRuns.

(** Two items, then the timer, then a late item, on a substrate that
    persists nothing after [SaveBill]. *)
Lemma CreateBill_first_close_wins_witness :
  let i1 := examples.item "i-1" USD (decimal.mk 2 0) (decimal.mk 1000 (-2)) in
  let i2 := examples.item "i-2" GEL (decimal.mk 1 0) (decimal.mk 500 (-2)) in
  let i3 := examples.item "i-3" USD (decimal.mk 1 0) (decimal.mk 100 (-2)) in
  workflow.CreateBill more_examples.persistence_fails (examples.open_bill []) 0
    (map workflow.LineItemSignalData [i1; i2]
       ++ workflow.PeriodEndTimer 9 :: [workflow.LineItemSignalData i3])
  = Ok (workflow.mkMachine
          (Bill.mk "b-1" "c1" BillStatusClosed
             1735689600000000000 1738281600000000000 "bill-b-1"
             1735689600000000000 1735689600000000000 (Some 9) [i1; i2] None)
          (Some 1738281600000000000)
          [workflow.SaveBill (examples.open_bill []);
           workflow.AddLineItemToBill i1; workflow.AddLineItemToBill i2;
           workflow.CloseBill "b-1" 9]).
Proof.
  intros i1 i2 i3.
  apply (CreateBill_first_close_wins more_examples.persistence_fails
           (examples.open_bill []) 0 9 [i1; i2] (workflow.PeriodEndTimer 9)
           [workflow.LineItemSignalData i3]).
  - reflexivity.
  - reflexivity.
  - right. reflexivity.
Defined.

(** The trace of a run that took one item and was then closed by signal. *)
Lemma CreateBill_trace_witness :
  let i1 := examples.item "i-1" USD (decimal.mk 2 0) (decimal.mk 1000 (-2)) in
  let input := examples.open_bill [] in
  let m :=
    workflow.mkMachine
      (Bill.with_ClosedAt (Some 5)
         (Bill.with_Status BillStatusClosed (examples.open_bill [i1])))
      (Some 1738281600000000000)
      [workflow.SaveBill input; workflow.AddLineItemToBill i1;
       workflow.CloseBill "b-1" 5] in
  exists items,
    Bill.LineItems (workflow.bill m) = Bill.LineItems input ++ items
    /\ ((Bill.IsClosed (workflow.bill m) = false
         /\ Bill.ClosedAt (workflow.bill m) = Bill.ClosedAt input
         /\ workflow.activities m
            = workflow.SaveBill input :: map workflow.AddLineItemToBill items)
        \/ exists t,
            Bill.IsClosed (workflow.bill m) = true
            /\ Bill.ClosedAt (workflow.bill m) = Some t
            /\ workflow.activities m
               = workflow.SaveBill input
                   :: map workflow.AddLineItemToBill items
                   ++ [workflow.CloseBill (Bill.ID input) t]).
Proof.
  intros i1 input m.
  apply (CreateBill_trace examples.activities_succeed input 0
           [workflow.LineItemSignalData i1; workflow.CloseBillSignalData 5;
            workflow.LineItemSignalData i1] m);
    reflexivity.
Defined.

(** The same run keeps the stamps of the bill and the timer that was armed
    at the start. *)
Lemma CreateBill_frame_witness :
  let i1 := examples.item "i-1" USD (decimal.mk 2 0) (decimal.mk 1000 (-2)) in
  let input := examples.open_bill [] in
  let m :=
    workflow.mkMachine
      (Bill.with_ClosedAt (Some 5)
         (Bill.with_Status BillStatusClosed (examples.open_bill [i1])))
      (Some 1738281600000000000)
      [workflow.SaveBill input; workflow.AddLineItemToBill i1;
       workflow.CloseBill "b-1" 5] in
  Bill.ID (workflow.bill m) = Bill.ID input
  /\ Bill.CustomerID (workflow.bill m) = Bill.CustomerID input
  /\ Bill.PeriodStart (workflow.bill m) = Bill.PeriodStart input
  /\ Bill.PeriodEnd (workflow.bill m) = Bill.PeriodEnd input
  /\ Bill.WorkflowID (workflow.bill m) = Bill.WorkflowID input
  /\ Bill.CreatedAt (workflow.bill m) = Bill.CreatedAt input
  /\ Bill.UpdatedAt (workflow.bill m) = Bill.UpdatedAt input
  /\ Bill.Total (workflow.bill m) = Bill.Total input
  /\ workflow.timer m = Some (workflow.timerDuration input 0).
Proof.
  intros i1 input m.
  apply (CreateBill_frame examples.activities_succeed input 0
           [workflow.LineItemSignalData i1; workflow.CloseBillSignalData 5] m).
  reflexivity.
Defined.

(** ** What the service sends and returns *)

Lemma filter_no_signal (calls : list service.Call) :
  forallb (fun c => negb (service.is_signal c)) calls = true ->
  List.filter service.is_signal calls = [].
Proof.
  induction calls as [|c calls IH]; [reflexivity|].
  cbn [forallb List.filter]. intros Hall.
  apply andb_prop in Hall as [Hc Hall].
  destruct (service.is_signal c); [discriminate|]. auto.
Qed.

Section ServiceRuns.
Context `{MoneyTable} `{MapRange}.
Variable env : service.Env.
Variable WorkflowIDPrefix : string.

Local Abbreviation GetBillByID := (service.GetBillByID env WorkflowIDPrefix).
Local Abbreviation AddLineItemToBill :=
  (service.AddLineItemToBill env WorkflowIDPrefix).
Local Abbreviation CloseBill := (service.CloseBill env WorkflowIDPrefix).
Local Abbreviation workflowID id := (WorkflowIDPrefix +:+ uuid_String id).

(** The calls of a read: the query, then the repository if the query
    failed, then the rates if a bill was found. *)
Lemma GetBillByID_calls_shape (id : UUID) (h : list service.Call) :
  exists calls,
    snd (GetBillByID id h)
      = h ++ service.QueryWorkflow (workflowID id) workflow.GetBillQuery :: calls
    /\ (calls = [service.GetRates]
        \/ (service.query_failed env WorkflowIDPrefix id h
            /\ (calls = [service.Repository_GetBillByID id]
                \/ calls = [service.Repository_GetBillByID id;
                            service.GetRates]))).
Proof.
  unfold service.GetBillByID, service.query_failed.
  destruct (service.env_QueryWorkflow env h (workflowID id) workflow.GetBillQuery)
    as [e|resp]; [|destruct (service.Get resp) as [e|bill]].
  3: { exists [service.GetRates]. rewrite calculateSum_calls, <- app_assoc. auto. }
  all: destruct (service.env_GetBillByID env _ id) as [err|bill].
  all: try (exists [service.Repository_GetBillByID id];
            destruct (errors_Is is_ErrNoRows err); simpl;
            rewrite <- app_assoc; now auto).
  all: exists [service.Repository_GetBillByID id; service.GetRates];
       rewrite calculateSum_calls, <- !app_assoc; now auto.
Qed.

(** X4. [GetBillByID] only reads: it queries the workflow whose identifier
    is the configured prefix followed by the bill identifier, reads the
    repository only when that query failed, and reads the rates at most
    once, last. It sends no signal, reads no clock and draws no
    identifier. *)
Theorem GetBillByID_read_only (id : UUID) (h : list service.Call) :
  exists calls,
    snd (GetBillByID id h)
      = h ++ service.QueryWorkflow (workflowID id) workflow.GetBillQuery :: calls
    /\ (calls = [service.GetRates]
        \/ (service.query_failed env WorkflowIDPrefix id h
            /\ (calls = [service.Repository_GetBillByID id]
                \/ calls = [service.Repository_GetBillByID id;
                            service.GetRates]))).
Proof. exact (GetBillByID_calls_shape id h). Qed.

(** X5. When the bill that [GetBillByID] returns is closed,
    [AddLineItemToBill] fails with the bill-closed error (code
    failed-precondition) and has made no call beyond those of the read: no
    signal is sent, no identifier drawn. *)
Theorem AddLineItemToBill_closed_bill
    (id : UUID) (req : validation.AddLineItemRequest.t)
    (h h' : list service.Call) (bill : Bill.t) :
  GetBillByID id h = (Ok bill, h') ->
  Bill.IsClosed bill = true ->
  AddLineItemToBill id req h = (Err ErrBillClosed, h')
  /\ ErrBillClosed
     = errs_Error FailedPrecondition "bill is closed and cannot be modified"
  /\ exists calls,
      h' = h ++ calls /\ List.filter service.is_signal calls = []
      /\ ~ service.uuid_NewV4 ∈ calls.
Proof.
  intros Hget Hclosed. split; [|split; [reflexivity|]].
  - unfold service.AddLineItemToBill. rewrite Hget, Hclosed. reflexivity.
  - destruct (GetBillByID_calls_shape id h) as [calls [Hh Hshape]].
    rewrite Hget in Hh. simpl in Hh. eexists. split; [exact Hh|].
    destruct Hshape as [->|[_ [->| ->]]]; split; try reflexivity;
      intros Hin; repeat (apply elem_of_cons in Hin as [Hin|Hin]; [discriminate|]);
      now apply elem_of_nil in Hin.
Qed.

(** X6. When [AddLineItemToBill] succeeds, it has sent exactly one signal,
    an add-line-item signal whose item carries the bill identifier and the
    description, currency, quantity and unit price of the request, with no
    total. The bill returned is made of the bill read right after that
    signal: that bill as it is when it is closed, and that bill with the item
    appended at the end of its line items when it is not. *)
Theorem AddLineItemToBill_response
    (id : UUID) (req : validation.AddLineItemRequest.t)
    (h h' : list service.Call) (b : Bill.t) :
  AddLineItemToBill id req h = (Ok b, h') ->
  exists calls wid li reread h2,
    h' = h ++ calls
    /\ List.filter service.is_signal calls
       = [service.SignalWorkflow wid workflow.AddLineItemSignal
            (service.LineItemSignalData li)]
    /\ LineItem.BillID li = id
    /\ LineItem.Description li = validation.AddLineItemRequest.Description req
    /\ LineItem.Currency li = validation.AddLineItemRequest.Currency req
    /\ LineItem.Quantity li = validation.AddLineItemRequest.Quantity req
    /\ LineItem.UnitPrice li = validation.AddLineItemRequest.UnitPrice req
    /\ LineItem.Total li = decimal.zero_value
    /\ last h2
       = Some (service.SignalWorkflow wid workflow.AddLineItemSignal
                 (service.LineItemSignalData li))
    /\ GetBillByID id h2 = (Ok reread, h')
    /\ ((Bill.IsClosed reread = true /\ b = reread)
        \/ (Bill.IsClosed reread = false
            /\ b = Bill.mk (Bill.ID reread) (Bill.CustomerID reread)
                     (Bill.Status reread) (Bill.PeriodStart reread)
                     (Bill.PeriodEnd reread) (Bill.WorkflowID reread)
                     (Bill.CreatedAt reread) (Bill.UpdatedAt reread)
                     (Bill.ClosedAt reread) (Bill.LineItems reread ++ [li])
                     (Bill.Total reread))).
Proof.
  unfold service.AddLineItemToBill.
  destruct (GetBillByID_calls env WorkflowIDPrefix id h) as [calls1 [Hh1 Hs1]].
  destruct (service.GetBillByID env WorkflowIDPrefix id h) as [[b1| |] h1];
    try discriminate.
  simpl in Hh1. subst h1.
  destruct (Bill.IsClosed b1); try discriminate.
  match goal with |- context [service.LineItemSignalData ?l] => set (li := l) end.
  match goal with |- context [match ?e with Some _ => _ | None => _ end] =>
    destruct e end; try discriminate.
  match goal with |- context [service.GetBillByID env WorkflowIDPrefix id ?hh] =>
    set (h2 := hh);
    destruct (GetBillByID_calls env WorkflowIDPrefix id h2) as [calls2 [Hh2 Hs2]];
    destruct (service.GetBillByID env WorkflowIDPrefix id h2) as [[b2| |] h3]
      eqn:Hre
  end; try discriminate.
  simpl in Hh2. subst h3. intros [= <- <-].
  exists (calls1
            ++ [service.uuid_NewV4; service.time_Now;
                service.SignalWorkflow (Bill.WorkflowID b1)
                  workflow.AddLineItemSignal (service.LineItemSignalData li)]
            ++ calls2), (Bill.WorkflowID b1), li, b2, h2.
  split; [subst h2; now rewrite <- !app_assoc|].
  split.
  { rewrite !List.filter_app, (filter_no_signal _ Hs1), (filter_no_signal _ Hs2).
    reflexivity. }
  do 6 (split; [reflexivity|]).
  split; [subst h2; apply last_snoc|].
  split; [exact Hre|].
  unfold Bill.AddLineItem. destruct (Bill.IsClosed b2) eqn:Hc2; [now left|].
  right. split; reflexivity.
Qed.

(** X7. When [CloseBill] succeeds the bill it returns is closed. Either no
    signal was sent, or exactly one, a close signal, and then the
    [closed_at] of the returned bill is the [requested_at] of that signal,
    whatever the second read showed. *)
Theorem CloseBill_response
    (id : UUID) (h h' : list service.Call) (b : Bill.t) :
  CloseBill id h = (Ok b, h') ->
  Bill.IsClosed b = true
  /\ exists calls,
      h' = h ++ calls
      /\ (List.filter service.is_signal calls = []
          \/ exists wid t,
              List.filter service.is_signal calls
              = [service.SignalWorkflow wid workflow.CloseBillSignal
                   (service.CloseBillSignalData t)]
              /\ Bill.ClosedAt b = Some t).
Proof.
  unfold service.CloseBill.
  destruct (GetBillByID_calls env WorkflowIDPrefix id h) as [calls1 [Hh1 Hs1]].
  destruct (service.GetBillByID env WorkflowIDPrefix id h) as [[b1| |] h1];
    try discriminate.
  simpl in Hh1. subst h1.
  destruct (Bill.IsClosed b1) eqn:Hc1.
  { intros [= <- <-]. split; [exact Hc1|]. exists calls1.
    split; [reflexivity|]. left. now apply filter_no_signal. }
  match goal with |- context [match ?e with Some _ => _ | None => _ end] =>
    destruct e end; try discriminate.
  match goal with |- context [service.GetBillByID env WorkflowIDPrefix id ?hh] =>
    destruct (GetBillByID_calls env WorkflowIDPrefix id hh) as [calls2 [Hh2 Hs2]];
    destruct (service.GetBillByID env WorkflowIDPrefix id hh) as [[b2| |] h2]
  end; try discriminate.
  simpl in Hh2. subst h2. intros [= <- <-]. split; [reflexivity|].
  eexists (calls1 ++ [service.time_Now; _] ++ calls2).
  split; [now rewrite <- !app_assoc|].
  right. eexists _, _.
  rewrite !List.filter_app, (filter_no_signal _ Hs1), (filter_no_signal _ Hs2).
  split; reflexivity.
Qed.

End ServiceRuns.

(** Adding to the closed January bill: the bill-closed error after one
    query and one read of the rates. *)
Lemma AddLineItemToBill_closed_bill_witness :
  let env :=
    examples.mock_env (examples.closed_bill [])
      (examples.rates_of [("USD", 1.0%float)] 5) in
  @service.AddLineItemToBill examples.usd_gel_table examples.map_to_list_order
    env "bill-" "b-1" more_examples.ten_dollars []
  = (Err ErrBillClosed,
     [service.QueryWorkflow "bill-b-1" "GetBillQuery"; service.GetRates]).
Proof.
  intros env.
  refine (proj1 (@AddLineItemToBill_closed_bill examples.usd_gel_table
                   examples.map_to_list_order env "bill-" "b-1"
                   more_examples.ten_dollars [] _ (examples.closed_bill []) _ _));
    reflexivity.
Defined.

(** A bill that the machine shows closed at the read after the signal,
    with the line items it had: the call succeeds, one signal was sent, and
    the bill returned is that closed bill as read. *)
Lemma AddLineItemToBill_response_witness :
  let env :=
    more_examples.closes_meanwhile_env (examples.rates_of [("USD", 1.0%float)] 5) in
  let b := examples.closed_bill [] in
  exists calls wid li reread h2,
    [service.QueryWorkflow "bill-b-1" "GetBillQuery"; service.GetRates;
     service.uuid_NewV4; service.time_Now;
     service.SignalWorkflow "bill-b-1" "AddLineItemSignal"
       (service.LineItemSignalData
          (LineItem.mk "i-new" "b-1" "X" USD (decimal.mk 1 0)
             (decimal.mk 1000 (-2)) 1738000000000000000 decimal.zero_value));
     service.QueryWorkflow "bill-b-1" "GetBillQuery"; service.GetRates]
    = [] ++ calls
    /\ List.filter service.is_signal calls
       = [service.SignalWorkflow wid workflow.AddLineItemSignal
            (service.LineItemSignalData li)]
    /\ LineItem.BillID li = "b-1"
    /\ LineItem.Description li = "X"
    /\ LineItem.Currency li = USD
    /\ LineItem.Quantity li = decimal.mk 1 0
    /\ LineItem.UnitPrice li = decimal.mk 1000 (-2)
    /\ LineItem.Total li = decimal.zero_value
    /\ last h2
       = Some (service.SignalWorkflow wid workflow.AddLineItemSignal
                 (service.LineItemSignalData li))
    /\ @service.GetBillByID examples.usd_gel_table examples.map_to_list_order
         env "bill-" "b-1" h2
       = (Ok reread,
          [service.QueryWorkflow "bill-b-1" "GetBillQuery"; service.GetRates;
           service.uuid_NewV4; service.time_Now;
           service.SignalWorkflow "bill-b-1" "AddLineItemSignal"
             (service.LineItemSignalData
                (LineItem.mk "i-new" "b-1" "X" USD (decimal.mk 1 0)
                   (decimal.mk 1000 (-2)) 1738000000000000000
                   decimal.zero_value));
           service.QueryWorkflow "bill-b-1" "GetBillQuery"; service.GetRates])
    /\ ((Bill.IsClosed reread = true /\ b = reread)
        \/ (Bill.IsClosed reread = false
            /\ b = Bill.mk (Bill.ID reread) (Bill.CustomerID reread)
                     (Bill.Status reread) (Bill.PeriodStart reread)
                     (Bill.PeriodEnd reread) (Bill.WorkflowID reread)
                     (Bill.CreatedAt reread) (Bill.UpdatedAt reread)
                     (Bill.ClosedAt reread) (Bill.LineItems reread ++ [li])
                     (Bill.Total reread))).
Proof.
  intros env b.
  apply (@AddLineItemToBill_response examples.usd_gel_table
           examples.map_to_list_order env "bill-" "b-1"
           more_examples.ten_dollars [] _ b).
  reflexivity.
Defined.

(** Closing the open January bill while the machine has not yet moved: the
    bill comes back closed at the clock reading that went into the signal. *)
Lemma CloseBill_response_witness :
  let env :=
    examples.mock_env (examples.open_bill [])
      (examples.rates_of [("USD", 1.0%float)] 5) in
  let b :=
    Bill.with_ClosedAt (Some 1736000000000000000)
      (Bill.with_Status BillStatusClosed (examples.open_bill [])) in
  Bill.IsClosed b = true
  /\ exists calls,
      [service.QueryWorkflow "bill-b-1" "GetBillQuery"; service.GetRates;
       service.time_Now;
       service.SignalWorkflow "bill-b-1" "CloseBillSignal"
         (service.CloseBillSignalData 1736000000000000000);
       service.QueryWorkflow "bill-b-1" "GetBillQuery"; service.GetRates]
      = [] ++ calls
      /\ (List.filter service.is_signal calls = []
          \/ exists wid t,
              List.filter service.is_signal calls
              = [service.SignalWorkflow wid workflow.CloseBillSignal
                   (service.CloseBillSignalData t)]
              /\ Bill.ClosedAt b = Some t).
Proof.
  intros env b.
  apply (@CloseBill_response examples.usd_gel_table
           examples.map_to_list_order env "bill-" "b-1" [] _ b).
  reflexivity.
Defined.

(** ** Creating a bill *)

Lemma wrap64_small (z : Z) : - 2 ^ 63 <= z < 2 ^ 63 -> wrap64 z = z.
Proof.
  intros Hz. unfold wrap64. rewrite Z.mod_small; lia.
Qed.

Lemma days_small (n : Z) :
  0 <= n <= 106751 -> billing.days n = n * 86400 * Second.
Proof.
  intros Hn. unfold billing.days, billing.Hour, Second.
  rewrite (wrap64_small (n * 24)) by lia.
  rewrite wrap64_small by lia. lia.
Qed.

Section CreateBillFacts.
Variable vcfg : ValidationConfig.t.

(** X8. With at most 106751 days in either bound of the configuration
    (what fits a Duration), a request to create a bill is admitted exactly
    when it names a customer, both ends of the period are set, the period
    does not end before it starts and is no longer than the configured
    number of days, and it starts no earlier than the configured number of
    days before the clock reading. A period of length zero is admitted, and
    so is a period that starts in the future. *)
Theorem ValidateCreateBillRequest_admits_iff
    (now : Time) (req : billing.CreateBillRequest.t) :
  0 <= ValidationConfig.MaxBillingPeriodDays vcfg <= 106751 ->
  0 <= ValidationConfig.MaxPastStartDays vcfg <= 106751 ->
  billing.ValidateCreateBillRequest vcfg now req = None
  <-> (billing.CreateBillRequest.CustomerID req <> ""
       /\ billing.CreateBillRequest.PeriodStart req <> zeroTime
       /\ billing.CreateBillRequest.PeriodEnd req <> zeroTime
       /\ billing.CreateBillRequest.PeriodStart req
          <= billing.CreateBillRequest.PeriodEnd req
       /\ billing.CreateBillRequest.PeriodEnd req
          - billing.CreateBillRequest.PeriodStart req
          <= ValidationConfig.MaxBillingPeriodDays vcfg * 86400 * Second
       /\ now - ValidationConfig.MaxPastStartDays vcfg * 86400 * Second
          <= billing.CreateBillRequest.PeriodStart req).
Proof.
  intros Hperiod Hpast. unfold billing.ValidateCreateBillRequest.
  rewrite !days_small by assumption.
  rewrite wrap64_small by (unfold Second; lia).
  unfold billing.time_IsZero, time_Before, time_Add, time_Sub, minDuration,
    maxDuration.
  destruct (bool_decide_reflect (billing.CreateBillRequest.CustomerID req = ""));
    [split; [discriminate | tauto]|].
  destruct (Z.eqb_spec (billing.CreateBillRequest.PeriodStart req) zeroTime);
    [split; [discriminate | tauto]|].
  destruct (Z.eqb_spec (billing.CreateBillRequest.PeriodEnd req) zeroTime);
    [split; [discriminate | tauto]|].
  destruct (Z.ltb_spec (billing.CreateBillRequest.PeriodEnd req)
              (billing.CreateBillRequest.PeriodStart req));
    [split; [discriminate | lia]|].
  match goal with |- context [?a >? ?b] => destruct (Z.gtb_spec a b) end;
    [split; [discriminate | unfold Second in *; lia]|].
  match goal with |- context [?a <? ?b] => destruct (Z.ltb_spec a b) end;
    [split; [discriminate | lia]|].
  split; [intros _|reflexivity]. unfold Second in *. repeat split; auto; lia.
Qed.

(** X9. Every rejection of a request to create a bill carries the code
    invalid-argument, whatever the configuration and the clock. *)
Theorem ValidateCreateBillRequest_rejects_invalid_argument
    (now : Time) (req : billing.CreateBillRequest.t) (e : error) :
  billing.ValidateCreateBillRequest vcfg now req = Some e ->
  exists message, e = errs_Error InvalidArgument message.
Proof.
  unfold billing.ValidateCreateBillRequest.
  repeat match goal with
         | |- context [if ?c then _ else _] => destruct c
         end;
    intros [= <-] || discriminate; eexists; reflexivity.
Qed.

End CreateBillFacts.

(** The January request, made at the first instant of the month under the
    bounds of config.cue, is admitted. *)
Lemma ValidateCreateBillRequest_admits_iff_witness :
  billing.ValidateCreateBillRequest examples.config_cue 1735689600000000000
    more_examples.january = None.
Proof.
  refine (proj2 (ValidateCreateBillRequest_admits_iff examples.config_cue
                   1735689600000000000 more_examples.january _ _) _).
  - simpl. lia.
  - simpl. lia.
  - repeat split; vm_compute; discriminate.
Defined.

(** A request without a customer. *)
Lemma ValidateCreateBillRequest_rejects_invalid_argument_witness :
  exists message,
    errs_Error InvalidArgument "customer_id is required"
    = errs_Error InvalidArgument message.
Proof.
  apply (ValidateCreateBillRequest_rejects_invalid_argument examples.config_cue
           1735689600000000000
           (billing.CreateBillRequest.mk "" 1735689600000000000
              1738281600000000000)).
  reflexivity.
Defined.

Section CreationFacts.
Variable vcfg : ValidationConfig.t.
Variable cfg : creation.Config.
Variable ExecuteWorkflow : creation.StartWorkflowOptions -> Bill.t -> option error.

(** X10. A bill that the handler [CreateBill] returns is open, has no
    [closed_at], no line items and no totals; it carries the customer and the
    period of the request, which passed validation: the customer is named
    and the period does not end before it starts. Its workflow identifier is
    the configured prefix followed by its own identifier, which is the
    identifier under which the workflow was started and the one that
    [GetBillByID] queries for this bill. *)
Theorem CreateBill_response
    (now : Time) (newV4 : error + UUID) (createdAt updatedAt : Time)
    (req : billing.CreateBillRequest.t) (bill : Bill.t)
    (opts : creation.StartWorkflowOptions) :
  handlers.CreateBill vcfg cfg ExecuteWorkflow now newV4 createdAt updatedAt req
  = Ok (bill, opts) ->
  Bill.IsOpen bill = true /\ Bill.IsClosed bill = false
  /\ Bill.ClosedAt bill = None /\ Bill.LineItems bill = []
  /\ Bill.Total bill = None
  /\ newV4 = inr (Bill.ID bill)
  /\ Bill.CustomerID bill = billing.CreateBillRequest.CustomerID req
  /\ Bill.CustomerID bill <> ""
  /\ Bill.PeriodStart bill = billing.CreateBillRequest.PeriodStart req
  /\ Bill.PeriodEnd bill = billing.CreateBillRequest.PeriodEnd req
  /\ Bill.PeriodStart bill <= Bill.PeriodEnd bill
  /\ Bill.CreatedAt bill = createdAt /\ Bill.UpdatedAt bill = updatedAt
  /\ Bill.WorkflowID bill
     = creation.WorkflowIDPrefix cfg +:+ uuid_String (Bill.ID bill)
  /\ creation.ID opts = Bill.WorkflowID bill
  /\ creation.TaskQueue opts = creation.cfg_TaskQueue cfg
  /\ creation.WorkflowExecutionTimeout opts = creation.workflowTimeout cfg req
  /\ ExecuteWorkflow opts bill = None.
Proof.
  unfold handlers.CreateBill, billing.ValidateCreateBillRequest,
    creation.CreateBill.
  destruct (bool_decide_reflect (billing.CreateBillRequest.CustomerID req = ""));
    [discriminate|].
  destruct (billing.time_IsZero _); [discriminate|].
  destruct (billing.time_IsZero _); [discriminate|].
  unfold time_Before at 1.
  destruct (Z.ltb_spec (billing.CreateBillRequest.PeriodEnd req)
              (billing.CreateBillRequest.PeriodStart req)); [discriminate|].
  destruct (_ >? _); [discriminate|].
  destruct (time_Before _ _); [discriminate|].
  destruct newV4 as [e|billID]; [discriminate|].
  match goal with |- context [ExecuteWorkflow ?o ?b] =>
    destruct (ExecuteWorkflow o b) eqn:Hstart end; [discriminate|].
  intros [= <- <-]. cbn. repeat split; auto.
Qed.

(** X11. As long as no Duration overflows, the execution timeout that
    [CreateBill] requests for the workflow is shorter than the period-end
    timer that the workflow arms at machine time [now] exactly when the
    period starts more than the configured buffer after [now]. *)
Theorem workflowTimeout_before_timer
    (newV4 : error + UUID) (createdAt updatedAt now : Time)
    (req : billing.CreateBillRequest.t) (bill : Bill.t)
    (opts : creation.StartWorkflowOptions) :
  creation.CreateBill cfg ExecuteWorkflow newV4 createdAt updatedAt req
  = Ok (bill, opts) ->
  0 <= creation.WorkflowExecutionTimeoutBuffer cfg ->
  billing.CreateBillRequest.PeriodStart req
  <= billing.CreateBillRequest.PeriodEnd req ->
  billing.CreateBillRequest.PeriodEnd req
  - billing.CreateBillRequest.PeriodStart req
  + creation.WorkflowExecutionTimeoutBuffer cfg * Second <= maxDuration ->
  billing.CreateBillRequest.PeriodEnd req - now <= maxDuration ->
  creation.WorkflowExecutionTimeout opts < workflow.timerDuration bill now
  <-> now + creation.WorkflowExecutionTimeoutBuffer cfg * Second
      < billing.CreateBillRequest.PeriodStart req.
Proof.
  unfold creation.CreateBill.
  destruct newV4 as [e|billID]; [discriminate|].
  match goal with |- context [ExecuteWorkflow ?o ?b] =>
    destruct (ExecuteWorkflow o b) end; [discriminate|].
  intros [= <- <-] Hbuf Hord Hsum Hnow.
  cbn [creation.WorkflowExecutionTimeout Bill.PeriodEnd].
  unfold creation.workflowTimeout, workflow.timerDuration, time_Sub.
  cbn [Bill.PeriodEnd].
  unfold minDuration, maxDuration, Second in *.
  rewrite (wrap64_small (creation.WorkflowExecutionTimeoutBuffer cfg * _))
    by lia.
  rewrite wrap64_small by lia.
  match goal with |- context [?a <? 0] => destruct (Z.ltb_spec a 0) end; lia.
Qed.

End CreationFacts.

(** The January request through the handler, on the first of the month. *)
Lemma CreateBill_response_witness :
  let bill :=
    Bill.mk "b-1" "c1" BillStatusOpen 1735689600000000000 1738281600000000000
      "bill-b-1" 1735689600000000001 1735689600000000002 None [] None in
  let opts := creation.mkOptions "bill-b-1" "pave-billing" 2595600000000000 in
  Bill.IsOpen bill = true /\ Bill.IsClosed bill = false
  /\ Bill.ClosedAt bill = None /\ Bill.LineItems bill = []
  /\ Bill.Total bill = None
  /\ (inr "b-1" : error + UUID) = inr (Bill.ID bill)
  /\ Bill.CustomerID bill = "c1"
  /\ Bill.CustomerID bill <> ""
  /\ Bill.PeriodStart bill = 1735689600000000000
  /\ Bill.PeriodEnd bill = 1738281600000000000
  /\ Bill.PeriodStart bill <= Bill.PeriodEnd bill
  /\ Bill.CreatedAt bill = 1735689600000000001
  /\ Bill.UpdatedAt bill = 1735689600000000002
  /\ Bill.WorkflowID bill = "bill-" +:+ uuid_String (Bill.ID bill)
  /\ creation.ID opts = Bill.WorkflowID bill
  /\ creation.TaskQueue opts = "pave-billing"
  /\ creation.WorkflowExecutionTimeout opts
     = creation.workflowTimeout more_examples.creation_cfg more_examples.january
  /\ more_examples.workflow_starts opts bill = None.
Proof.
  intros bill opts.
  apply (CreateBill_response examples.config_cue more_examples.creation_cfg
           more_examples.workflow_starts 1735689600000000000 (inr "b-1")
           1735689600000000001 1735689600000000002 more_examples.january
           bill opts).
  reflexivity.
Defined.

(** A bill for the first week of February, created on January 1st: the
    workflow is given a week and an hour, and arms a timer of
    thirty-eight days. *)
Lemma workflowTimeout_before_timer_witness :
  let bill :=
    Bill.mk "b-2" "c1" BillStatusOpen 1738368000000000000 1738972800000000000
      "bill-b-2" 1735689600000000000 1735689600000000000 None [] None in
  let opts := creation.mkOptions "bill-b-2" "pave-billing" 608400000000000 in
  creation.WorkflowExecutionTimeout opts
  < workflow.timerDuration bill 1735689600000000000.
Proof.
  intros bill opts.
  refine (proj2 (workflowTimeout_before_timer more_examples.creation_cfg
                   more_examples.workflow_starts (inr "b-2")
                   1735689600000000000 1735689600000000000 1735689600000000000
                   more_examples.february_week bill opts _ _ _ _ _) _);
    vm_compute; congruence.
Defined.

(** ** The handlers *)

Lemma no_signal_elem (calls : list service.Call) (c : service.Call) :
  forallb (fun c => negb (service.is_signal c)) calls = true ->
  c ∈ calls -> service.is_signal c = false.
Proof.
  intros Hall Hin. apply list_elem_of_In in Hin.
  rewrite forallb_forall in Hall. apply Hall in Hin.
  now destruct (service.is_signal c).
Qed.

Section HandlerFacts.
Context `{MoneyTable} `{MapRange}.
Variable cfg : ValidationConfig.t.
Variable Sprintf_f : Decimal -> string.
Variable env : service.Env.
Variable WorkflowIDPrefix : string.

(** Whatever its outcome, [AddLineItemToBill] signals nothing but the item
    of the request. *)
Lemma AddLineItemToBill_signals
    (id : UUID) (req : validation.AddLineItemRequest.t) (h : list service.Call) :
  exists calls,
    snd (service.AddLineItemToBill env WorkflowIDPrefix id req h) = h ++ calls
    /\ forall c, c ∈ calls -> service.is_signal c = true ->
        exists wid li,
          c = service.SignalWorkflow wid workflow.AddLineItemSignal
                (service.LineItemSignalData li)
          /\ LineItem.BillID li = id
          /\ LineItem.Description li = validation.AddLineItemRequest.Description req
          /\ LineItem.Currency li = validation.AddLineItemRequest.Currency req
          /\ LineItem.Quantity li = validation.AddLineItemRequest.Quantity req
          /\ LineItem.UnitPrice li = validation.AddLineItemRequest.UnitPrice req.
Proof.
  unfold service.AddLineItemToBill.
  destruct (GetBillByID_calls env WorkflowIDPrefix id h) as [calls1 [Hh1 Hs1]].
  destruct (service.GetBillByID env WorkflowIDPrefix id h) as [r1 h1].
  simpl in Hh1. subst h1.
  assert (Hnone : forall c, c ∈ calls1 -> service.is_signal c = true ->
            exists wid li,
              c = service.SignalWorkflow wid workflow.AddLineItemSignal
                    (service.LineItemSignalData li)
              /\ LineItem.BillID li = id
              /\ LineItem.Description li
                 = validation.AddLineItemRequest.Description req
              /\ LineItem.Currency li = validation.AddLineItemRequest.Currency req
              /\ LineItem.Quantity li = validation.AddLineItemRequest.Quantity req
              /\ LineItem.UnitPrice li
                 = validation.AddLineItemRequest.UnitPrice req).
  { intros c Hin Hsig. rewrite (no_signal_elem _ _ Hs1 Hin) in Hsig.
    discriminate. }
  destruct r1 as [b1|e|]; [|now exists calls1..].
  destruct (Bill.IsClosed b1); [now exists calls1|].
  match goal with |- context [service.LineItemSignalData ?l] => set (li := l) end.
  set (sig := service.SignalWorkflow (Bill.WorkflowID b1)
                workflow.AddLineItemSignal (service.LineItemSignalData li)).
  assert (Hmid : forall c,
            c ∈ [service.uuid_NewV4; service.time_Now; sig] ->
            service.is_signal c = true ->
            exists wid li0,
              c = service.SignalWorkflow wid workflow.AddLineItemSignal
                    (service.LineItemSignalData li0)
              /\ LineItem.BillID li0 = id
              /\ LineItem.Description li0
                 = validation.AddLineItemRequest.Description req
              /\ LineItem.Currency li0 = validation.AddLineItemRequest.Currency req
              /\ LineItem.Quantity li0 = validation.AddLineItemRequest.Quantity req
              /\ LineItem.UnitPrice li0
                 = validation.AddLineItemRequest.UnitPrice req).
  { intros c Hin Hsig.
    apply elem_of_cons in Hin as [->|Hin]; [discriminate|].
    apply elem_of_cons in Hin as [->|Hin]; [discriminate|].
    apply list_elem_of_singleton in Hin as ->.
    exists (Bill.WorkflowID b1), li. repeat split. }
  match goal with |- context [match ?e with Some _ => _ | None => _ end] =>
    destruct e end.
  - exists (calls1 ++ [service.uuid_NewV4; service.time_Now; sig]).
    split; [cbn [snd]; now rewrite <- !app_assoc|].
    intros c Hin. apply elem_of_app in Hin as [Hin|Hin]; eauto.
  - match goal with |- context [service.GetBillByID env WorkflowIDPrefix id ?hh] =>
      destruct (GetBillByID_calls env WorkflowIDPrefix id hh)
        as [calls2 [Hh2 Hs2]];
      destruct (service.GetBillByID env WorkflowIDPrefix id hh) as [r2 h2]
    end.
    simpl in Hh2. subst h2.
    exists (calls1 ++ [service.uuid_NewV4; service.time_Now; sig] ++ calls2).
    split; [destruct r2; cbn [snd]; now rewrite <- !app_assoc|].
    intros c Hin. apply elem_of_app in Hin as [Hin|Hin]; [eauto|].
    apply elem_of_app in Hin as [Hin|Hin]; [eauto|].
    intros Hsig. rewrite (no_signal_elem _ _ Hs2 Hin) in Hsig. discriminate.
Qed.

(** X12. The handler [AddLineItem] signals the workflow only for a request
    that passed validation: a rejected request causes no call at all, and
    every signal the handler sends is an add-line-item signal whose item
    carries the bill identifier of the call and the description, currency,
    quantity and unit price of the admitted request. *)
Theorem AddLineItem_signals_validated
    (id : UUID) (req : validation.AddLineItemRequest.t) (h : list service.Call) :
  exists calls,
    snd (handlers.AddLineItem cfg Sprintf_f env WorkflowIDPrefix id req h)
    = h ++ calls
    /\ (validation.ValidateAddLineItemRequest cfg Sprintf_f req <> Ok tt ->
        calls = [])
    /\ forall c, c ∈ calls -> service.is_signal c = true ->
        validation.ValidateAddLineItemRequest cfg Sprintf_f req = Ok tt
        /\ exists wid li,
            c = service.SignalWorkflow wid workflow.AddLineItemSignal
                  (service.LineItemSignalData li)
            /\ LineItem.BillID li = id
            /\ LineItem.Description li
               = validation.AddLineItemRequest.Description req
            /\ LineItem.Currency li = validation.AddLineItemRequest.Currency req
            /\ LineItem.Quantity li = validation.AddLineItemRequest.Quantity req
            /\ LineItem.UnitPrice li
               = validation.AddLineItemRequest.UnitPrice req.
Proof.
  unfold handlers.AddLineItem.
  destruct (validation.ValidateAddLineItemRequest cfg Sprintf_f req)
    as [[]|e|] eqn:Hv.
  - destruct (AddLineItemToBill_signals id req h) as [calls [Hh Hsig]].
    exists calls. split; [exact Hh|]. split; [congruence|].
    intros c Hin Hs. split; [reflexivity|]. now apply Hsig.
  - exists []. cbn [snd]. rewrite app_nil_r.
    split; [reflexivity|]. split; [reflexivity|].
    intros c Hin. now apply elem_of_nil in Hin.
  - exists []. cbn [snd]. rewrite app_nil_r.
    split; [reflexivity|]. split; [reflexivity|].
    intros c Hin. now apply elem_of_nil in Hin.
Qed.

(** X13. Every error of the handler [CloseBill] is an error of the service
    wrapped with the text [failed to close bill], so never an [errs.Error]
    itself. In particular, when the handler [GetBill] fails for a bill,
    [CloseBill] fails for it with that error wrapped, after the same calls:
    nothing is signalled for a bill that cannot be read. *)
Theorem CloseBill_handler_wraps (id : UUID) (h : list service.Call) :
  (forall e h',
      handlers.CloseBill env WorkflowIDPrefix id h = (Err e, h') ->
      exists inner,
        e = fmt_Errorf "failed to close bill" inner
        /\ service.CloseBill env WorkflowIDPrefix id h = (Err inner, h'))
  /\ (forall e h',
      handlers.GetBill env WorkflowIDPrefix id h = (Err e, h') ->
      handlers.CloseBill env WorkflowIDPrefix id h
      = (Err (fmt_Errorf "failed to close bill" e), h')).
Proof.
  unfold handlers.CloseBill, handlers.GetBill. split.
  - intros e h'.
    destruct (service.CloseBill env WorkflowIDPrefix id h) as [[b|inner|] h1];
      intros [= <- <-]. now exists inner.
  - intros e h' Hget. unfold service.CloseBill. now rewrite Hget.
Qed.

End HandlerFacts.

(** A bill that neither the machine nor the table knows: reading fails with
    not-found, and closing fails with that error wrapped, after the same two
    calls. *)
Lemma CloseBill_handler_wraps_witness :
  let env :=
    examples.terminated_env (repository.mkDB [] [])
      (examples.rates_of [("USD", 1.0%float)] 5) in
  @handlers.CloseBill examples.usd_gel_table examples.map_to_list_order env
    "bill-" "b-1" []
  = (Err (fmt_Errorf "failed to close bill" ErrBillNotFound),
     [service.QueryWorkflow "bill-b-1" "GetBillQuery";
      service.Repository_GetBillByID "b-1"]).
Proof.
  intros env.
  apply (proj2 (@CloseBill_handler_wraps examples.usd_gel_table
                  examples.map_to_list_order env "bill-" "b-1" [])).
  reflexivity.
Defined.

(** ** The rate service over several calls *)

Section RateServiceRuns.
Variable cfg : ExchangeRatesConfig.t.

Local Abbreviation ttl := (exchange_rates.ttl cfg).
Local Abbreviation GetRates := (exchange_rates.GetRates cfg).

(** X14. [GetRates] fails exactly when the snapshot in memory is past
    [updatedAt + ttl], the shared cache has no entry (or cannot be read) and
    the provider fails; the error is the provider's. The snapshot in memory
    is then left as it was, and nothing is written to the shared cache.
    [GetRates] never panics. *)
Theorem GetRates_failure
    (s : exchange_rates.service) (w : exchange_rates.World) :
  (forall e,
      fst (fst (GetRates s w)) = Err e
      <-> (exchange_rates.updatedAt s + ttl <= exchange_rates.now w
           /\ (exists miss, exchange_rates.cache_Get w = inl miss)
           /\ exchange_rates.fetchExchangeRates w = inl e))
  /\ (forall e,
      fst (fst (GetRates s w)) = Err e ->
      snd (fst (GetRates s w)) = s
      /\ snd (GetRates s w)
         = [exchange_rates.CacheGet (ExchangeRatesConfig.CacheKey cfg);
            exchange_rates.FetchExchangeRates])
  /\ fst (fst (GetRates s w)) <> Panic.
Proof.
  unfold exchange_rates.GetRates, exchange_rates.updateRates, time_Before,
    time_Add.
  destruct (Z.ltb_spec (exchange_rates.now w) (exchange_rates.updatedAt s + ttl)).
  { cbn. repeat split; try discriminate. intros [Hc _]. lia. }
  destruct (exchange_rates.cache_Get w) as [miss|data].
  2: { cbn. repeat split; try discriminate. now intros (_ & [? ?] & _). }
  destruct (exchange_rates.fetchExchangeRates w) as [err|exr]; cbn.
  - repeat split; try discriminate; try congruence; eauto.
    now intros (_ & _ & [= ->]).
  - repeat split; try discriminate. now intros (_ & _ & ?).
Qed.

(** X15. A snapshot that [GetRates] has returned is returned again, from
    memory and without consulting the shared cache or the provider, by every
    later call whose clock is before the stamp of the snapshot plus the TTL. *)
Theorem GetRates_served_from_memory
    (s s' : exchange_rates.service) (w w' : exchange_rates.World)
    (data : RatesData.t) (effects : list exchange_rates.Effect) :
  GetRates s w = (Ok data, s', effects) ->
  exchange_rates.now w' < RatesData.UpdatedAt data + ttl ->
  GetRates s' w' = (Ok data, s', []).
Proof.
  intros Hfirst Hfresh.
  assert (Hs' : data = RatesData.mk (exchange_rates.rates s')
                         (exchange_rates.updatedAt s')).
  { unfold exchange_rates.GetRates in Hfirst.
    destruct (exchange_rates.updateRates cfg s w) as [[[err|] s1] eff];
      [discriminate|]. now injection Hfirst as <- <- <-. }
  subst data. cbn in Hfresh.
  unfold exchange_rates.GetRates, exchange_rates.updateRates, time_Before,
    time_Add.
  destruct (Z.ltb_spec (exchange_rates.now w')
              (exchange_rates.updatedAt s' + ttl)); [reflexivity|lia].
Qed.

(** X16. [GetRates] writes to the shared cache only after it has fetched
    from the provider, under the configured key, and what it writes is the
    snapshot it returns, stamped with the clock after the fetch plus the
    TTL. Whether the write succeeds makes no difference to the result. *)
Theorem GetRates_cache_write
    (s : exchange_rates.service) (w : exchange_rates.World)
    (key : string) (data : RatesData.t) :
  exchange_rates.CacheSet key data ∈ snd (GetRates s w) ->
  key = ExchangeRatesConfig.CacheKey cfg
  /\ fst (fst (GetRates s w)) = Ok data
  /\ exchange_rates.FetchExchangeRates ∈ snd (GetRates s w)
  /\ RatesData.UpdatedAt data = exchange_rates.now_after_fetch w + ttl
  /\ forall outcome,
      GetRates s
        (exchange_rates.mkWorld (exchange_rates.now w)
           (exchange_rates.now_after_fetch w) (exchange_rates.cache_Get w)
           (exchange_rates.fetchExchangeRates w) outcome)
      = GetRates s w.
Proof.
  unfold exchange_rates.GetRates, exchange_rates.updateRates, time_Before,
    time_Add.
  cbn [exchange_rates.now exchange_rates.now_after_fetch
       exchange_rates.cache_Get exchange_rates.fetchExchangeRates].
  destruct (exchange_rates.now w <? exchange_rates.updatedAt s + ttl).
  { cbn. intros Hin. now apply elem_of_nil in Hin. }
  destruct (exchange_rates.cache_Get w) as [miss|cached].
  2: { cbn. intros Hin. apply list_elem_of_singleton in Hin. discriminate. }
  destruct (exchange_rates.fetchExchangeRates w) as [err|exr]; cbn; intros Hin.
  - apply elem_of_cons in Hin as [Hin|Hin]; [discriminate|].
    apply list_elem_of_singleton in Hin. discriminate.
  - apply elem_of_cons in Hin as [Hin|Hin]; [discriminate|].
    apply elem_of_cons in Hin as [Hin|Hin]; [discriminate|].
    apply list_elem_of_singleton in Hin. injection Hin as -> ->.
    repeat split. right. left.
Qed.

(** X17. A service that has just been made holds no snapshot that it would
    serve: at any clock reading since 1970, and whatever the TTL, its first
    call consults the shared cache. *)
Theorem NewConversionService_consults_cache (w : exchange_rates.World) :
  0 <= exchange_rates.now w ->
  head (snd (GetRates exchange_rates.NewConversionService w))
  = Some (exchange_rates.CacheGet (ExchangeRatesConfig.CacheKey cfg)).
Proof.
  intros Hnow.
  unfold exchange_rates.GetRates, exchange_rates.updateRates, time_Before,
    time_Add.
  assert (Hsmall : exchange_rates.updatedAt exchange_rates.NewConversionService
                   + ttl < 0).
  { unfold exchange_rates.ttl, wrap64. cbn.
    pose proof (Z.mod_pos_bound
                  (ExchangeRatesConfig.TTL cfg * Second + 2 ^ 63) (2 ^ 64)).
    unfold zeroTime. lia. }
  destruct (Z.ltb_spec (exchange_rates.now w)
              (exchange_rates.updatedAt exchange_rates.NewConversionService + ttl));
    [lia|].
  destruct (exchange_rates.cache_Get w);
    [destruct (exchange_rates.fetchExchangeRates w)|]; reflexivity.
Qed.

End RateServiceRuns.

(** A snapshot adopted from the shared cache with 30 seconds left on its
    stamp, at a TTL of 60 seconds, is served from memory 80 seconds later. *)
Lemma GetRates_served_from_memory_witness :
  let cfg := examples.rates_cfg 60 in
  let t0 := 1736000000 * Second in
  let data := examples.rates_of [("USD", 1.0%float); ("GEL", 2.5%float)]
                (t0 + 30 * Second) in
  let s' := exchange_rates.mkService (RatesData.Rates data) (t0 + 30 * Second) in
  exchange_rates.GetRates cfg s'
    (exchange_rates.mkWorld (t0 + 80 * Second) (t0 + 80 * Second)
       (inl (errors_New "cache miss")) (inl (errors_New "provider down")) None)
  = (Ok data, s', []).
Proof.
  intros cfg t0 data s'.
  apply (GetRates_served_from_memory cfg exchange_rates.NewConversionService s'
           (exchange_rates.mkWorld t0 t0 (inr data)
              (inl (errors_New "provider down")) None)
           _ data [exchange_rates.CacheGet "exchange_rates"]).
  - reflexivity.
  - vm_compute. reflexivity.
Defined.

(** A fetch at [t0] with a shared cache that refuses the write. *)
Lemma GetRates_cache_write_witness :
  let cfg := examples.rates_cfg 60 in
  let t0 := 1736000000 * Second in
  let answer :=
    exchange_rates.mkResponse "USD"
      (list_to_map [("USD", 1.0%float); ("GEL", 2.5%float)]) 1736000000 in
  let w :=
    exchange_rates.mkWorld t0 (t0 + Second) (inl (errors_New "cache miss"))
      (inr answer) (Some (errors_New "cache is read-only")) in
  let data :=
    RatesData.mk (exchange_rates.exr_Rates answer) (t0 + 61 * Second) in
  fst (fst (exchange_rates.GetRates cfg exchange_rates.NewConversionService w))
  = Ok data.
Proof.
  intros cfg t0 answer w data.
  refine (proj1 (proj2 (GetRates_cache_write cfg
                          exchange_rates.NewConversionService w
                          "exchange_rates" data _))).
  right. right. left.
Defined.

(** The first call of a new service in January 2025. *)
Lemma NewConversionService_consults_cache_witness :
  head (snd (exchange_rates.GetRates (examples.rates_cfg 3600)
               exchange_rates.NewConversionService
               (exchange_rates.mkWorld 1736000000000000000 1736000000000000000
                  (inl (errors_New "cache miss"))
                  (inl (errors_New "provider down")) None)))
  = Some (exchange_rates.CacheGet "exchange_rates").
Proof.
  apply (NewConversionService_consults_cache (examples.rates_cfg 3600)).
  simpl. lia.
Defined.

(** ** The totals under every order of iteration *)

Section TotalsInversion.
Context `{MoneyTable} `{MapRange}.

Lemma convertedSum_Ok_inv (rates : RatesData.t) (c : string)
    (l : list (string * Decimal)) :
  forall sum x,
    convertedSum rates c sum l = Ok x ->
    forall o a, (o, a) ∈ l -> o <> c -> exists y, convert rates c o a = Ok y.
Proof.
  induction l as [|[o' a'] l IH]; intros sum x Hs o a Hin Hne.
  - now apply elem_of_nil in Hin.
  - cbn [convertedSum] in Hs. destruct (decide (o' = c)) as [->|Hne'].
    + apply elem_of_cons in Hin as [[= -> ->]|Hin]; [congruence|]. eauto.
    + destruct (convert rates c o' a') as [y| |] eqn:Hc; try discriminate.
      apply elem_of_cons in Hin as [[= -> ->]|Hin]; eauto.
Qed.

Lemma convertAll_Ok_inv (rates : RatesData.t) (bc : gmap string Decimal)
    (entries : list (string * Decimal)) :
  forall acc m,
    convertAll rates bc entries acc = Ok m ->
    forall c a, (c, a) ∈ entries ->
      exists x, convertedSum rates c a (range_inner c bc) = Ok x.
Proof.
  induction entries as [|[c' a'] entries IH]; intros acc m Hall c a Hin.
  - now apply elem_of_nil in Hin.
  - cbn [convertAll] in Hall.
    destruct (convertedSum rates c' a' (range_inner c' bc)) as [x| |] eqn:Hs;
      try discriminate.
    apply elem_of_cons in Hin as [[= -> ->]|Hin]; eauto.
Qed.

End TotalsInversion.

(** X18. The totals do not depend on the order in which Go ranges over the
    map of subtotals: when [CalculateSum] succeeds under one order of the
    outer and the inner loops, it succeeds under every other order, with
    the same bill. *)
Theorem CalculateSum_order_independent
    (T : MoneyTable) (R1 R2 : MapRange) (b b' : Bill.t) (rates : RatesData.t) :
  @CalculateSum T R1 b rates = Ok b' -> @CalculateSum T R2 b rates = Ok b'.
Proof.
  destruct (Bill.LineItems b) as [|i items] eqn:Hitems.
  { unfold CalculateSum. rewrite Hitems. auto. }
  assert (Hne : Bill.LineItems b <> []) by (rewrite Hitems; discriminate).
  rewrite (@CalculateSum_nonempty T R1 b rates Hne),
    (@CalculateSum_nonempty T R2 b rates Hne).
  cbv zeta. set (bc := byCurrency (Bill.LineItems b)).
  destruct (@convertAll T R1 rates bc (@range_outer R1 bc) ∅)
    as [conv1| |] eqn:H1; try discriminate.
  intros [= <-].
  set (amount := fun c =>
         match @convertedSum T rates c (default decimal.zero_value (bc !! c))
                 (@range_inner R1 c bc) with
         | Ok x => x
         | _ => decimal.zero_value
         end).
  assert (HA : forall c a, (c, a) ∈ map_to_list bc ->
            @convertedSum T rates c a (@range_inner R1 c bc) = Ok (amount c)).
  { intros c a Hin.
    assert (Hin1 : (c, a) ∈ @range_outer R1 bc)
      by now rewrite (@range_outer_entries R1).
    destruct (@convertAll_Ok_inv T R1 rates bc _ _ _ H1 c a Hin1) as [x Hx].
    apply elem_of_map_to_list in Hin. unfold amount. rewrite Hin.
    change (default decimal.zero_value (Some a)) with a. now rewrite Hx. }
  assert (HB : forall c a, (c, a) ∈ map_to_list bc ->
            @convertedSum T rates c a (@range_inner R2 c bc) = Ok (amount c)).
  { intros c a Hin. rewrite <- (HA c a Hin).
    apply (@convertedSum_Permutation T rates c
             (fun o a' => match @convert T rates c o a' with
                          | Ok y => y
                          | _ => decimal.zero_value
                          end)).
    - intros o a' Hin' Hne'.
      destruct (@convertedSum_Ok_inv T rates c _ _ _ (HA c a Hin) o a' Hin' Hne')
        as [y Hy].
      now rewrite Hy.
    - now rewrite (@range_inner_entries R1), (@range_inner_entries R2). }
  destruct (@convertAll_Ok T R1 rates bc amount (@range_outer R1 bc)) with (acc := (∅ : gmap string Converted.t))
    as [m1 [Hm1 Hl1]].
  { intros c a Hin. apply HA. now rewrite <- (@range_outer_entries R1). }
  destruct (@convertAll_Ok T R2 rates bc amount (@range_outer R2 bc)) with (acc := (∅ : gmap string Converted.t))
    as [m2 [Hm2 Hl2]].
  { intros c a Hin. apply HB. now rewrite <- (@range_outer_entries R2). }
  rewrite Hm2. rewrite H1 in Hm1. injection Hm1 as ->.
  do 4 f_equal. apply map_eq. intros k. rewrite Hl1, Hl2.
  assert (Hkeys : k ∈ (@range_outer R1 bc).*1 <-> k ∈ (@range_outer R2 bc).*1).
  { now rewrite (@range_outer_entries R1), (@range_outer_entries R2). }
  destruct (bool_decide_reflect (k ∈ (@range_outer R1 bc).*1)) as [Hk|Hk];
    destruct (bool_decide_reflect (k ∈ (@range_outer R2 bc).*1)) as [Hk'|Hk'];
    tauto.
Qed.

(** The bill of the multi-currency scenario, under the two orders of the
    examples. *)
Lemma CalculateSum_order_independent_witness :
  exists b',
    @CalculateSum examples.usd_gel_table examples.map_to_list_order
      examples.two_currency_bill examples.usd_gel_rates = Ok b'
    /\ @CalculateSum examples.usd_gel_table examples.reverse_order
         examples.two_currency_bill examples.usd_gel_rates = Ok b'.
Proof.
  eexists. split.
  - vm_compute. reflexivity.
  - apply (CalculateSum_order_independent examples.usd_gel_table
             examples.map_to_list_order examples.reverse_order).
    vm_compute. reflexivity.
Defined.

Lemma filter_all {A : Type} (P : A -> Prop) `{forall x, Decision (P x)}
    (l : list A) :
  (forall x, x ∈ l -> P x) -> filter P l = l.
Proof.
  induction l as [|x l IH]; intros Hall; [reflexivity|].
  rewrite filter_cons_True by (apply Hall; left).
  f_equal. apply IH. intros y Hy. apply Hall. now right.
Qed.

Section TotalsAgain.
Context `{MoneyTable} `{MapRange}.

Lemma with_Total_lineTotal_idem (items : list LineItem.t) :
  map (fun item => LineItem.with_Total (lineTotal item) item)
    (map (fun item => LineItem.with_Total (lineTotal item) item) items)
  = map (fun item => LineItem.with_Total (lineTotal item) item) items.
Proof.
  rewrite map_map. apply map_ext. now intros [].
Qed.

(** X19. [CalculateSum] is idempotent: run again with the same rates on the
    bill it has produced, it produces that bill again. The totals are
    computed from quantity and unit price, never from the totals already
    stored in the line items or in the bill. *)
Theorem CalculateSum_idempotent (b b' : Bill.t) (rates : RatesData.t) :
  CalculateSum b rates = Ok b' -> CalculateSum b' rates = Ok b'.
Proof.
  intros Hb. destruct (Bill.LineItems b) as [|i items] eqn:Hitems.
  { unfold CalculateSum in Hb. rewrite Hitems in Hb. injection Hb as <-.
    unfold CalculateSum. now rewrite Hitems. }
  assert (Hne : Bill.LineItems b <> []) by (rewrite Hitems; discriminate).
  rewrite (CalculateSum_nonempty b rates Hne) in Hb. cbv zeta in Hb.
  destruct (convertAll rates _ _ ∅) as [conv| |] eqn:Hconv; try discriminate.
  injection Hb as <-.
  rewrite CalculateSum_nonempty
    by (cbn [Bill.LineItems Bill.with_Total Bill.with_LineItems];
        rewrite Hitems; discriminate).
  cbv zeta. cbn [Bill.LineItems Bill.with_Total Bill.with_LineItems].
  assert (Hbc : byCurrency
                  (map (fun item => LineItem.with_Total (lineTotal item) item)
                     (Bill.LineItems b))
                = byCurrency (Bill.LineItems b))
    by apply foldl_addToCurrency_with_Total.
  rewrite !Hbc, Hconv, with_Total_lineTotal_idem. reflexivity.
Qed.

(** X20. On a bill whose line items all have one currency, [CalculateSum]
    succeeds whatever the rates are, also without any rate: the subtotal of
    that currency is the sum of the line totals, and the converted amount
    is that same sum, not rounded, stamped with the time of the rates. *)
Theorem CalculateSum_single_currency
    (b : Bill.t) (rates : RatesData.t) (c : string) :
  Bill.LineItems b <> [] ->
  (forall i, i ∈ Bill.LineItems b -> LineItem.Currency i = c) ->
  let s := foldl decimal.Add decimal.zero_value (map lineTotal (Bill.LineItems b)) in
  CalculateSum b rates =
    Ok (Bill.with_Total
          (Some (Total.mk {[c := s]}
                   {[c := Converted.mk s (RatesData.UpdatedAt rates)]}))
          (Bill.with_LineItems
             (map (fun item => LineItem.with_Total (lineTotal item) item)
                (Bill.LineItems b)) b)).
Proof.
  intros Hne Hall s.
  rewrite (CalculateSum_nonempty b rates Hne). cbv zeta.
  assert (Hbc : byCurrency (Bill.LineItems b) = {[c := s]}).
  { apply map_eq. intros k. rewrite byCurrency_lookup.
    destruct (decide (k = c)) as [->|Hk].
    - rewrite lookup_singleton_eq.
      destruct (Bill.LineItems b) as [|i items] eqn:Hitems; [congruence|].
      rewrite bool_decide_true.
      2: { cbn [map]. rewrite <- (Hall i) by left. left. }
      f_equal. unfold totals.subtotal, s.
      rewrite filter_all; [reflexivity|]. exact Hall.
    - rewrite lookup_singleton_ne by congruence.
      rewrite bool_decide_false; [reflexivity|].
      intros Hin. apply list_elem_of_fmap in Hin as [i [-> Hi]].
      apply Hk. now apply Hall. }
  rewrite Hbc.
  assert (Hout : range_outer ({[c := s]} : gmap string Decimal) = [(c, s)]).
  { apply Permutation_singleton_r.
    rewrite range_outer_entries, map_to_list_singleton. reflexivity. }
  assert (Hin : range_inner c ({[c := s]} : gmap string Decimal) = [(c, s)]).
  { apply Permutation_singleton_r.
    rewrite range_inner_entries, map_to_list_singleton. reflexivity. }
  rewrite Hout. cbn [convertAll]. rewrite Hin. cbn [convertedSum].
  destruct (decide (c = c)); [|congruence].
  rewrite insert_empty. reflexivity.
Qed.

End TotalsAgain.

(** A bill with both currencies, computed twice. *)
Lemma CalculateSum_idempotent_witness :
  exists b',
    @CalculateSum examples.usd_gel_table examples.map_to_list_order
      examples.two_currency_bill examples.usd_gel_rates = Ok b'
    /\ @CalculateSum examples.usd_gel_table examples.map_to_list_order
         b' examples.usd_gel_rates = Ok b'.
Proof.
  eexists. split.
  - vm_compute. reflexivity.
  - apply (@CalculateSum_idempotent examples.usd_gel_table
             examples.map_to_list_order examples.two_currency_bill).
    vm_compute. reflexivity.
Defined.

(** One item of 8.325 USD under rates that do not list USD. *)
Lemma CalculateSum_single_currency_witness :
  totals.byCurrencyOf
    (@CalculateSum examples.usd_gel_table examples.map_to_list_order
       examples.fractional_bill examples.gel_only_rates) USD
  = Some (decimal.mk 8325 (-3))
  /\ totals.convertedOf
       (@CalculateSum examples.usd_gel_table examples.map_to_list_order
          examples.fractional_bill examples.gel_only_rates) USD
     = Some (decimal.mk 8325 (-3)).
Proof.
  rewrite (@CalculateSum_single_currency examples.usd_gel_table
             examples.map_to_list_order examples.fractional_bill
             examples.gel_only_rates USD).
  - split; reflexivity.
  - discriminate.
  - intros i Hi. apply list_elem_of_singleton in Hi. now subst.
Defined.

(** ** The SQL repository *)

Lemma insertByCreatedAt_Permutation (x : LineItem.t) (l : list LineItem.t) :
  repository.insertByCreatedAt x l ≡ₚ x :: l.
Proof.
  induction l as [|y l IH]; cbn [repository.insertByCreatedAt]; [reflexivity|].
  destruct (LineItem.CreatedAt x <? LineItem.CreatedAt y); [reflexivity|].
  rewrite IH. apply Permutation_swap.
Qed.

Lemma insertByCreatedAt_sorted (x : LineItem.t) (l : list LineItem.t) :
  StronglySorted (fun a b => LineItem.CreatedAt a <= LineItem.CreatedAt b) l ->
  StronglySorted (fun a b => LineItem.CreatedAt a <= LineItem.CreatedAt b)
    (repository.insertByCreatedAt x l).
Proof.
  induction 1 as [|y l Hl IH Hy]; cbn [repository.insertByCreatedAt].
  - repeat constructor.
  - destruct (Z.ltb_spec (LineItem.CreatedAt x) (LineItem.CreatedAt y)).
    + constructor; [now constructor|].
      constructor; [lia|].
      eapply Forall_impl; [exact Hy|]. cbn. intros; lia.
    + constructor; [exact IH|].
      rewrite insertByCreatedAt_Permutation. constructor; [lia|exact Hy].
Qed.

Lemma orderByCreatedAt_spec (l acc : list LineItem.t) :
  StronglySorted (fun a b => LineItem.CreatedAt a <= LineItem.CreatedAt b) acc ->
  StronglySorted (fun a b => LineItem.CreatedAt a <= LineItem.CreatedAt b)
    (foldl (fun acc x => repository.insertByCreatedAt x acc) acc l)
  /\ foldl (fun acc x => repository.insertByCreatedAt x acc) acc l ≡ₚ acc ++ l.
Proof.
  revert acc. induction l as [|x l IH]; intros acc Hacc; cbn [foldl].
  - rewrite app_nil_r. auto.
  - destruct (IH _ (insertByCreatedAt_sorted x acc Hacc)) as [Hs Hp].
    split; [exact Hs|]. rewrite Hp, insertByCreatedAt_Permutation.
    cbn [app]. apply Permutation_middle.
Qed.

(** X21. [GetLineItemsByBillID] returns the stored line items of the bill
    asked for, each once and no others, in the order of their creation
    times; the total of a returned item is the zero value, since totals are
    not stored. *)
Theorem GetLineItemsByBillID_ordered (db : repository.Database) (billID : UUID) :
  StronglySorted (fun a b => LineItem.CreatedAt a <= LineItem.CreatedAt b)
    (repository.GetLineItemsByBillID db billID)
  /\ repository.GetLineItemsByBillID db billID
     ≡ₚ map (LineItem.with_Total decimal.zero_value)
          (filter (fun i => LineItem.BillID i = billID)
             (repository.line_items db))
  /\ forall i, i ∈ repository.GetLineItemsByBillID db billID ->
      LineItem.BillID i = billID /\ LineItem.Total i = decimal.zero_value.
Proof.
  unfold repository.GetLineItemsByBillID, repository.orderByCreatedAt.
  match goal with |- context [foldl ?f [] ?l] =>
    destruct (orderByCreatedAt_spec l []) as [Hs Hp]; [constructor|] end.
  cbn [app] in Hp. split; [exact Hs|]. split; [exact Hp|].
  intros i Hi. rewrite Hp in Hi.
  apply list_elem_of_fmap in Hi as [j [-> Hj]].
  apply list_elem_of_filter in Hj as [Hj _]. now destruct j.
Qed.

(** ** Closing a bill in the database *)

Lemma find_map_stable {A : Type} (p : A -> bool) (f : A -> A) (l : list A) :
  (forall x, p (f x) = p x) ->
  List.find p (map f l) = option_map f (List.find p l).
Proof.
  intros Hp. induction l as [|x l IH]; [reflexivity|].
  cbn [map List.find]. rewrite Hp. destruct (p x); [reflexivity|exact IH].
Qed.

Lemma NoDup_map_inj {A B : Type} (f : A -> B) (l : list A) (x y : A) :
  NoDup (map f l) -> x ∈ l -> y ∈ l -> f x = f y -> x = y.
Proof.
  induction l as [|z l IH]; intros Hnd Hx Hy Hf.
  - now apply elem_of_nil in Hx.
  - cbn [map] in Hnd. apply NoDup_cons in Hnd as [Hz Hnd].
    apply elem_of_cons in Hx as [->|Hx]; apply elem_of_cons in Hy as [->|Hy].
    + reflexivity.
    + exfalso. apply Hz. rewrite Hf. apply list_elem_of_fmap. now exists y.
    + exfalso. apply Hz. rewrite <- Hf. apply list_elem_of_fmap. now exists x.
    + now apply IH.
Qed.

Section ClosingFacts.
Variable timestamptz : Time -> Time.

Local Abbreviation CloseBill := (closing.CloseBill timestamptz).
Local Abbreviation update billID closedAt db_now :=
  (fun r => if closing.selected billID r
            then closing.close_row timestamptz closedAt db_now r else r).

Lemma selected_true (billID : UUID) (r : repository.BillRow) :
  closing.selected billID r = true
  <-> repository.id r = billID /\ repository.status r = "open".
Proof.
  unfold closing.selected.
  rewrite andb_true_iff, !bool_decide_eq_true. reflexivity.
Qed.

Lemma update_not_selected (billID : UUID) (closedAt db_now : Time)
    (r : repository.BillRow) :
  closing.selected billID (update billID closedAt db_now r) = false.
Proof.
  cbn beta. destruct (closing.selected billID r) eqn:Hs; [|exact Hs].
  unfold closing.selected, closing.close_row. cbn.
  apply andb_false_iff. right. now apply bool_decide_eq_false.
Qed.

Lemma update_id (billID : UUID) (closedAt db_now : Time)
    (r : repository.BillRow) :
  repository.id (update billID closedAt db_now r) = repository.id r.
Proof. cbn beta. now destruct (closing.selected billID r). Qed.

(** Without a selected row the update reports no rows and changes
    nothing. *)
Lemma CloseBill_none_selected (db_now : Time) (db : repository.Database)
    (billID : UUID) (closedAt : Time) :
  (forall r, r ∈ repository.bills db -> closing.selected billID r = false) ->
  CloseBill None db_now db billID closedAt = (Some sql_ErrNoRows, db).
Proof.
  intros Hnone. unfold closing.CloseBill.
  assert (Hfilter : filter (fun r => closing.selected billID r = true)
                      (repository.bills db) = []).
  { induction (repository.bills db) as [|r l IH]; [reflexivity|].
    rewrite filter_cons_False by (rewrite Hnone by left; discriminate).
    apply IH. intros r' Hr'. apply Hnone. now right. }
  rewrite Hfilter. cbn [length Nat.eqb]. f_equal.
  destruct db as [bills items]. cbn [repository.bills repository.line_items] in *.
  f_equal. rewrite <- (map_id bills) at 2. apply map_ext_in.
  intros r Hr. apply list_elem_of_In in Hr. now rewrite (Hnone r Hr).
Qed.

(** X22. The update of [CloseBill] reports [sql.ErrNoRows] exactly when
    the table has no row with the identifier and the status open: so for an
    unknown bill, and for a bill that is already closed. The tables are
    then as they were. Without a fault of the connection there is no other
    error. *)
Theorem CloseBill_no_rows
    (db_now : Time) (db : repository.Database) (billID : UUID) (closedAt : Time) :
  (fst (CloseBill None db_now db billID closedAt) = Some sql_ErrNoRows
   <-> forall r, r ∈ repository.bills db -> repository.id r = billID ->
         repository.status r <> "open")
  /\ (fst (CloseBill None db_now db billID closedAt) = Some sql_ErrNoRows ->
      snd (CloseBill None db_now db billID closedAt) = db)
  /\ (fst (CloseBill None db_now db billID closedAt) = None
      \/ fst (CloseBill None db_now db billID closedAt) = Some sql_ErrNoRows).
Proof.
  assert (Hiff : fst (CloseBill None db_now db billID closedAt)
                 = Some sql_ErrNoRows
                 <-> forall r, r ∈ repository.bills db ->
                       closing.selected billID r = false).
  { split.
    - unfold closing.CloseBill.
      destruct (filter _ (repository.bills db)) as [|r0 l] eqn:Hf;
        [|discriminate].
      intros _ r Hr. destruct (closing.selected billID r) eqn:Hs; [|reflexivity].
      assert (Hin : r ∈ filter (fun r => closing.selected billID r = true)
                        (repository.bills db))
        by now apply list_elem_of_filter.
      rewrite Hf in Hin. now apply elem_of_nil in Hin.
    - intros Hnone. now rewrite CloseBill_none_selected. }
  split; [|split].
  - rewrite Hiff. split; intros Hno r Hr.
    + intros Hid Hopen. specialize (Hno r Hr).
      assert (Hsel : closing.selected billID r = true)
        by now apply selected_true.
      congruence.
    + destruct (closing.selected billID r) eqn:Hs; [|reflexivity].
      apply selected_true in Hs as [Hid Hopen]. now destruct (Hno r Hr Hid).
  - intros Herr. pose proof (proj1 Hiff Herr) as Hnone.
    now rewrite CloseBill_none_selected.
  - unfold closing.CloseBill. destruct (_ =? _)%nat; auto.
Qed.

(** X23. Closing in the database is final: after one update of [CloseBill]
    for a bill, every further one for that bill reports [sql.ErrNoRows] and
    leaves the tables as they are, so the first [closed_at] stays. *)
Theorem CloseBill_is_final
    (n1 n2 : Time) (db : repository.Database) (billID : UUID) (t1 t2 : Time) :
  let db1 := snd (CloseBill None n1 db billID t1) in
  CloseBill None n2 db1 billID t2 = (Some sql_ErrNoRows, db1).
Proof.
  intros db1. apply CloseBill_none_selected. intros r Hr.
  subst db1. unfold closing.CloseBill in Hr.
  destruct (_ =? _)%nat; cbn [snd repository.bills] in Hr;
    apply list_elem_of_fmap in Hr as [r0 [-> _]]; apply update_not_selected.
Qed.

(** X24. Under the primary key of [bills] (no two rows share an
    identifier), the activity [CloseBill] on a bill whose row is open returns
    that bill as the table now shows it: closed, with [closed_at] the instant
    the column keeps of the requested time, [updated_at] the clock of the
    database, and the stored line items. *)
Theorem activity_CloseBill_returns_closed
    (db_now : Time) (db : repository.Database) (billID : UUID) (closedAt : Time)
    (r : repository.BillRow) :
  NoDup (map repository.id (repository.bills db)) ->
  r ∈ repository.bills db ->
  repository.id r = billID ->
  repository.status r = "open" ->
  fst (closing.activity_CloseBill timestamptz None None db_now db billID closedAt)
  = inr (Bill.mk billID (repository.customer_id r) BillStatusClosed
           (repository.period_start r) (repository.period_end r)
           (repository.workflow_id r) (repository.created_at r) db_now
           (Some (timestamptz closedAt))
           (repository.GetLineItemsByBillID db billID) None).
Proof.
  intros Hnd Hr Hid Hopen.
  assert (Hsel : closing.selected billID r = true) by now apply selected_true.
  unfold closing.activity_CloseBill, closing.CloseBill.
  destruct (filter _ (repository.bills db)) as [|r0 l] eqn:Hf.
  { assert (Hin : r ∈ filter (fun r => closing.selected billID r = true)
                      (repository.bills db))
      by now apply list_elem_of_filter.
    rewrite Hf in Hin. now apply elem_of_nil in Hin. }
  cbn [length Nat.eqb fst]. unfold repository.GetBillByID.
  cbn [repository.bills].
  rewrite (find_map_stable _ (update billID closedAt db_now))
    by (intros x; now rewrite update_id).
  destruct (List.find _ (repository.bills db)) as [r'|] eqn:Hfind.
  - apply List.find_some in Hfind as [Hin' Hid'].
    apply bool_decide_eq_true in Hid'. apply list_elem_of_In in Hin'.
    assert (r' = r) as ->
      by (apply (NoDup_map_inj repository.id (repository.bills db));
          auto; congruence).
    cbn [option_map]. rewrite Hsel. cbn. rewrite Hid. reflexivity.
  - apply list_elem_of_In in Hr.
    apply (List.find_none _ _ Hfind) in Hr.
    apply bool_decide_eq_false in Hr. congruence.
Qed.

(** X25. The update of [CloseBill] touches nothing but the open rows of
    the bill it is given: the line items of every bill stay, no row appears
    or disappears, and every other bill reads as before. *)
Theorem CloseBill_frame
    (fault : option error) (db_now : Time) (db : repository.Database)
    (billID other : UUID) (closedAt : Time) :
  let db' := snd (CloseBill fault db_now db billID closedAt) in
  repository.line_items db' = repository.line_items db
  /\ map repository.id (repository.bills db')
     = map repository.id (repository.bills db)
  /\ (other <> billID ->
      repository.GetBillByID db' other = repository.GetBillByID db other).
Proof.
  intros db'. subst db'. unfold closing.CloseBill.
  destruct fault as [err|]; [cbn [snd]; auto|].
  set (db1 := repository.mkDB
                (map (update billID closedAt db_now) (repository.bills db))
                (repository.line_items db)).
  assert (Hsnd : forall e : option error,
            snd (if (length (filter (fun r => closing.selected billID r = true)
                               (repository.bills db)) =? 0)%nat
                 then (Some sql_ErrNoRows, db1) else (e, db1)) = db1)
    by (intros e; now destruct (_ =? _)%nat).
  rewrite Hsnd. subst db1. cbn [repository.line_items repository.bills].
  split; [reflexivity|]. split.
  - rewrite map_map. apply map_ext. intros x. apply update_id.
  - intros Hother. unfold repository.GetBillByID, repository.GetLineItemsByBillID.
    cbn [repository.bills repository.line_items].
    rewrite (find_map_stable _ (update billID closedAt db_now))
      by (intros x; now rewrite update_id).
    destruct (List.find _ (repository.bills db)) as [r'|] eqn:Hfind;
      [|reflexivity].
    apply List.find_some in Hfind as [_ Hid'].
    apply bool_decide_eq_true in Hid'. cbn [option_map].
    assert (Hns : closing.selected billID r' = false).
    { unfold closing.selected. apply andb_false_iff. left.
      apply bool_decide_eq_false. congruence. }
    now rewrite Hns.
Qed.

End ClosingFacts.

(** The open January bill is closed at an instant with nanoseconds; the
    column keeps microseconds. *)
Lemma activity_CloseBill_returns_closed_witness :
  fst (closing.activity_CloseBill more_examples.microseconds None None
         1737000000000000000 more_examples.january_db "b-1"
         1736999999123456789)
  = inr (Bill.mk "b-1" "c1" BillStatusClosed
           1735689600000000000 1738281600000000000 "bill-b-1"
           1735689600000000000 1737000000000000000
           (Some (more_examples.microseconds 1736999999123456789))
           (repository.GetLineItemsByBillID more_examples.january_db "b-1")
           None).
Proof.
  apply (activity_CloseBill_returns_closed more_examples.microseconds
           1737000000000000000 more_examples.january_db "b-1"
           1736999999123456789 more_examples.january_row).
  - apply NoDup_singleton.
  - left.
  - reflexivity.
  - reflexivity.
Defined.

(** Ten dollars, once, under the bounds of config.cue. *)
Lemma ValidateAddLineItemRequest_admits_iff_witness :
  validation.ValidateAddLineItemRequest examples.config_cue (fun _ => "X")
    more_examples.ten_dollars = Ok tt.
Proof.
  refine (proj2 (ValidateAddLineItemRequest_admits_iff examples.config_cue
                   (fun _ => "X") more_examples.ten_dollars
                   (decimal.mk 1 6) (decimal.mk 1 6) (decimal.mk 1 7) _ _ _) _).
  - vm_compute. reflexivity.
  - vm_compute. reflexivity.
  - vm_compute. reflexivity.
  - split; [discriminate|]. split; [vm_compute; discriminate|].
    split; [left|]. repeat split; vm_compute; reflexivity.
Defined.
